(** * Modbus master/server: a shallow embedding of [modbus_frame.py],
      [modbus_tcp.py] and [modbus_rtu.py], and the properties of the
      protocol engine checked against it.

    Python integers are unbounded, so they are modelled by [Z]; a [bytes]
    object is a list of integers, each in [0, 255] ([is_bytes]).  A Python
    exception is an explicit [Raise] in the [result] type; a function that
    returns [None] on failure returns an [option]. *)

From Stdlib Require Import ZArith List Bool Lia String.
Import ListNotations.
Open Scope Z_scope.

(** ** Python values, exceptions and the [struct] module *)

(** The values stored in a data block or passed to [set_values]. *)
Inductive pyval : Type :=
| VBool (b : bool)
| VInt (z : Z).

(** [bool(v)] *)
Definition truthy (v : pyval) : bool :=
  match v with
  | VBool b => b
  | VInt z => negb (z =? 0)
  end.

(** The integer a value stands for ([bool] is a subclass of [int]). *)
Definition int_of (v : pyval) : Z :=
  match v with
  | VBool true => 1
  | VBool false => 0
  | VInt z => z
  end.

Definition is_bool (v : pyval) : Prop := exists b, v = VBool b.
Definition is_u16 (v : pyval) : Prop := exists z, v = VInt z /\ 0 <= z <= 65535.

(** The exceptions the modelled code raises.  Each [Exception(message)] of
    the master is a constructor; the comment gives the meaning of its
    message and the values the message is formatted with. *)
Inductive exn : Type :=
| struct_error             (* struct.error: value out of range, short buffer *)
| IndexError               (* index out of range *)
| TypeError                (* unsupported operand *)
| FrameParseFailed         (* Exception: the response frame does not parse *)
| ModbusException (code : Z)
                           (* Exception: ModBus exception 0x{data[0]:02X} *)
| UnknownError             (* Exception: exception response without a code *)
| CoilParseFailed          (* Exception: the coil data does not parse *)
| RegisterParseFailed      (* Exception: the register data does not parse *)
| EmptyResponseData        (* Exception: the response data is empty *)
| UnsupportedFunction (fc : Z)
                           (* Exception: unsupported function code 0x{fc:02X} *)
| CommunicationFailed (retry_count : nat)
                           (* Exception: communication failed after
                              {retry_count} attempts *)
| ExecuteFailed (inner : exn).
                           (* Exception: executing the command failed: {e} *)

Inductive result (A : Type) : Type :=
| Ok (a : A)
| Raise (e : exn).
Arguments Ok {A} a.
Arguments Raise {A} e.

Definition bind {A B : Type} (r : result A) (k : A -> result B) : result B :=
  match r with
  | Ok a => k a
  | Raise e => Raise e
  end.

Notation "x <- c ;; k" := (bind c (fun x => k))
  (at level 61, c at next level, right associativity).

Definition bytes := list Z.

Definition is_byte (b : Z) : Prop := 0 <= b <= 255.
Definition is_bytes (bs : bytes) : Prop := Forall is_byte bs.

(** [buf[lo:hi]] for [0 <= lo]; an empty slice when [hi <= lo]. *)
Definition slice {A : Type} (l : list A) (lo hi : nat) : list A :=
  firstn (hi - lo) (skipn lo l).

(** [l[k] = v] on a list or bytearray, for [k] in range; the callers test
    the range first and raise IndexError themselves. *)
Fixpoint list_set {A : Type} (l : list A) (k : nat) (v : A) : list A :=
  match l, k with
  | [], _ => []
  | _ :: t, O => v :: t
  | h :: t, S k' => h :: list_set t k' v
  end.

Module struct.

(** [struct.pack('B', v)] *)
Definition pack_B (v : Z) : result bytes :=
  if (0 <=? v) && (v <=? 255) then Ok [v] else Raise struct_error.

(** [struct.pack('>H', v)] *)
Definition pack_H (v : Z) : result bytes :=
  if (0 <=? v) && (v <=? 65535) then Ok [v / 256; v mod 256]
  else Raise struct_error.

(** [struct.pack('<H', v)] *)
Definition pack_H_le (v : Z) : result bytes :=
  if (0 <=? v) && (v <=? 65535) then Ok [v mod 256; v / 256]
  else Raise struct_error.

(** [struct.pack('>HH', a, b)] *)
Definition pack_HH (a b : Z) : result bytes :=
  x <- pack_H a ;; y <- pack_H b ;; Ok (x ++ y).

(** [struct.pack('>HHB', a, b, c)] *)
Definition pack_HHB (a b c : Z) : result bytes :=
  x <- pack_H a ;; y <- pack_H b ;; z <- pack_B c ;; Ok (x ++ y ++ z).

(** [struct.pack('>HHHB', a, b, c, d)] *)
Definition pack_HHHB (a b c d : Z) : result bytes :=
  x <- pack_H a ;; y <- pack_H b ;; z <- pack_H c ;; w <- pack_B d ;;
  Ok (x ++ y ++ z ++ w).

(** [struct.pack('BB', a, b)] *)
Definition pack_BB (a b : Z) : result bytes :=
  x <- pack_B a ;; y <- pack_B b ;; Ok (x ++ y).

(** [struct.pack('BBB', a, b, c)] *)
Definition pack_BBB (a b c : Z) : result bytes :=
  x <- pack_B a ;; y <- pack_B b ;; z <- pack_B c ;; Ok (x ++ y ++ z).

(** [struct.unpack('>H', buf)[0]]: the buffer must hold exactly 2 bytes. *)
Definition unpack_H (buf : bytes) : result Z :=
  match buf with
  | [hi; lo] => Ok (256 * hi + lo)
  | _ => Raise struct_error
  end.

(** [struct.unpack('<H', buf)[0]] *)
Definition unpack_H_le (buf : bytes) : result Z :=
  match buf with
  | [lo; hi] => Ok (256 * hi + lo)
  | _ => Raise struct_error
  end.

(** [struct.unpack('>HH', buf)] *)
Definition unpack_HH (buf : bytes) : result (Z * Z) :=
  match buf with
  | [a1; a0; b1; b0] => Ok (256 * a1 + a0, 256 * b1 + b0)
  | _ => Raise struct_error
  end.

(** [struct.unpack('>HHB', buf)] *)
Definition unpack_HHB (buf : bytes) : result (Z * Z * Z) :=
  match buf with
  | [a1; a0; b1; b0; c] => Ok (256 * a1 + a0, 256 * b1 + b0, c)
  | _ => Raise struct_error
  end.

(** [struct.unpack('>HHHB', buf)] *)
Definition unpack_HHHB (buf : bytes) : result (Z * Z * Z * Z) :=
  match buf with
  | [a1; a0; b1; b0; c1; c0; d] =>
      Ok (256 * a1 + a0, 256 * b1 + b0, 256 * c1 + c0, d)
  | _ => Raise struct_error
  end.

End struct.

(** ** Constants of [defines] *)

(** Modelled from the spec: the module [modbus/defines.py] is imported by
    every source file but is not part of the sources.  The function codes and
    exception codes are the values the spec lists (sections 4.2 and 6); they
    agree with the literals [0x01], [0x03] and [0x05] that [modbus_frame.py]
    hard-codes.  The four block kinds are only compared with each other, so
    they are an enumeration. *)
Module defines.

Definition READ_COILS : Z := 0x01.
Definition READ_DISCRETE_INPUTS : Z := 0x02.
Definition READ_HOLDING_REGISTERS : Z := 0x03.
Definition READ_INPUT_REGISTERS : Z := 0x04.
Definition WRITE_SINGLE_COIL : Z := 0x05.
Definition WRITE_SINGLE_REGISTER : Z := 0x06.
Definition WRITE_MULTIPLE_COILS : Z := 0x0F.
Definition WRITE_MULTIPLE_REGISTERS : Z := 0x10.

Definition ILLEGAL_FUNCTION : Z := 1.
Definition ILLEGAL_DATA_ADDRESS : Z := 2.
Definition ILLEGAL_DATA_VALUE : Z := 3.
Definition SLAVE_DEVICE_FAILURE : Z := 4.

Inductive block_type : Type :=
| COILS
| DISCRETE_INPUTS
| HOLDING_REGISTERS
| INPUT_REGISTERS.

Definition block_type_eqb (a b : block_type) : bool :=
  match a, b with
  | COILS, COILS => true
  | DISCRETE_INPUTS, DISCRETE_INPUTS => true
  | HOLDING_REGISTERS, HOLDING_REGISTERS => true
  | INPUT_REGISTERS, INPUT_REGISTERS => true
  | _, _ => false
  end.

(** [block_type in [defines.COILS, defines.DISCRETE_INPUTS]] *)
Definition is_bit_type (t : block_type) : bool :=
  block_type_eqb t COILS || block_type_eqb t DISCRETE_INPUTS.

End defines.

(** ** Bit packing shared by the codecs *)

(** The loop
    [for i, status in enumerate(values): if status: buf[i // 8] |= 1 << (i % 8)]
    started at index [i]. *)
Fixpoint pack_bits_from (i : nat) (values : list pyval) (buf : list Z)
  : result (list Z) :=
  match values with
  | [] => Ok buf
  | status :: rest =>
      if truthy status then
        match nth_error buf (i / 8) with
        | None => Raise IndexError
        | Some b =>
            pack_bits_from (S i) rest
              (list_set buf (i / 8)
                 (Z.lor b (Z.shiftl 1 (Z.of_nat (i mod 8)))))
        end
      else pack_bits_from (S i) rest buf
  end.

(** [bytearray(byte_count)] followed by the packing loop.  The count is
    [(n + 7) // 8] for a length or an unpacked 16-bit quantity [n] at every
    call, so it is never negative. *)
Definition pack_bits (byte_count : Z) (values : list pyval) : result (list Z) :=
  pack_bits_from 0 values (repeat 0 (Z.to_nat byte_count)).

(** [for bit in range(8): out.append(bool((byte >> bit) & 1))] *)
Definition bits_of_byte (byte : Z) : list bool :=
  map (fun bit => negb (Z.land (Z.shiftr byte (Z.of_nat bit)) 1 =? 0))
      (seq 0 8).

(** [for byte in buf: for bit in range(8): ...] *)
Definition unpack_bits (buf : bytes) : list bool := flat_map bits_of_byte buf.

(** [for i in range(0, byte_count, 2): out.append(unpack('>H', buf[i:i+2])[0])];
    [n] counts the iterations left. *)
Fixpoint unpack_registers_from (n i : nat) (buf : bytes) : result (list Z) :=
  match n with
  | O => Ok []
  | S n' =>
      value <- struct.unpack_H (slice buf i (i + 2)) ;;
      rest <- unpack_registers_from n' (i + 2) buf ;;
      Ok (value :: rest)
  end.

(** Number of iterations of [range(0, byte_count, 2)]. *)
Definition range2_len (byte_count : Z) : nat := Z.to_nat ((byte_count + 1) / 2).

Definition unpack_registers (byte_count : Z) (buf : bytes) : result (list Z) :=
  unpack_registers_from (range2_len byte_count) 0 buf.

(** [for value in values: data += struct.pack('>H', value)] *)
Fixpoint pack_registers (values : list Z) : result bytes :=
  match values with
  | [] => Ok []
  | value :: rest =>
      x <- struct.pack_H value ;;
      xs <- pack_registers rest ;;
      Ok (x ++ xs)
  end.

(** ** [modbus_frame.py]: class [ModbusTCPFrame] *)
Module ModbusTCPFrame.

Record t : Type := mk {
  transaction_id : Z;
  protocol_id : Z;
  length : Z;
  unit_id : Z;
  function_code : Z;
  data : bytes
}.

Definition MBAP_HEADER_LENGTH : nat := 7.

Definition build_request (transaction_id unit_id function_code : Z)
           (data : bytes) : result bytes :=
  fc <- struct.pack_B function_code ;;
  let pdu := fc ++ data in
  let length := 1 + Z.of_nat (List.length pdu) in
  mbap_header <- struct.pack_HHHB transaction_id 0 length unit_id ;;
  Ok (mbap_header ++ pdu).

Definition parse_frame (frame : bytes) : option t :=
  if (List.length frame <? MBAP_HEADER_LENGTH + 1)%nat then None
  else
    match struct.unpack_HHHB (slice frame 0 MBAP_HEADER_LENGTH) with
    | Raise _ => None
    | Ok (transaction_id, protocol_id, length, unit_id) =>
        if negb (protocol_id =? 0) then None
        else
          let function_code := nth MBAP_HEADER_LENGTH frame 0 in
          let data := skipn (MBAP_HEADER_LENGTH + 1) frame in
          Some (mk transaction_id protocol_id length unit_id
                   function_code data)
    end.

Definition build_read_coils_request (transaction_id unit_id
                                     start_address quantity : Z)
  : result bytes :=
  data <- struct.pack_HH start_address quantity ;;
  build_request transaction_id unit_id 0x01 data.

Definition build_read_holding_registers_request
           (transaction_id unit_id start_address quantity : Z)
  : result bytes :=
  data <- struct.pack_HH start_address quantity ;;
  build_request transaction_id unit_id 0x03 data.

Definition build_write_single_coil_request
           (transaction_id unit_id address : Z) (value : bool)
  : result bytes :=
  let coil_value := if value then 0xFF00 else 0x0000 in
  data <- struct.pack_HH address coil_value ;;
  build_request transaction_id unit_id 0x05 data.

Definition parse_read_coils_response (frame : t) : option (list bool) :=
  if negb (function_code frame =? 0x01) then None
  else if (List.length (data frame) <? 1)%nat then None
  else
    let byte_count := nth 0 (data frame) 0 in
    let coil_bytes := slice (data frame) 1 (1 + Z.to_nat byte_count) in
    Some (unpack_bits coil_bytes).

(** [struct.unpack] on a short slice raises; the exception leaves the
    function, hence the [result] around the [option]. *)
Definition parse_read_holding_registers_response (frame : t)
  : result (option (list Z)) :=
  if negb (function_code frame =? 0x03) then Ok None
  else if (List.length (data frame) <? 1)%nat then Ok None
  else
    let byte_count := nth 0 (data frame) 0 in
    let register_data := slice (data frame) 1 (1 + Z.to_nat byte_count) in
    registers <- unpack_registers byte_count register_data ;;
    Ok (Some registers).

Definition build_read_coils_response (transaction_id unit_id : Z)
           (coil_status : list pyval) : result bytes :=
  let byte_count := (Z.of_nat (List.length coil_status) + 7) / 8 in
  coil_bytes <- pack_bits byte_count coil_status ;;
  bc <- struct.pack_B byte_count ;;
  build_request transaction_id unit_id 0x01 (bc ++ coil_bytes).

Definition build_read_holding_registers_response
           (transaction_id unit_id : Z) (register_values : list pyval)
  : result bytes :=
  let byte_count := Z.of_nat (List.length register_values) * 2 in
  bc <- struct.pack_B byte_count ;;
  regs <- pack_registers (map int_of register_values) ;;
  build_request transaction_id unit_id 0x03 (bc ++ regs).

Definition build_write_single_coil_response
           (transaction_id unit_id address : Z) (value : bool)
  : result bytes :=
  let coil_value := if value then 0xFF00 else 0x0000 in
  data <- struct.pack_HH address coil_value ;;
  build_request transaction_id unit_id 0x05 data.

Definition build_error_response (transaction_id unit_id function_code
                                 exception_code : Z) : result bytes :=
  let error_function_code := Z.lor function_code 0x80 in
  data <- struct.pack_B exception_code ;;
  build_request transaction_id unit_id error_function_code data.

End ModbusTCPFrame.

(** ** [modbus_frame.py]: class [ModbusCRC] *)
Module ModbusCRC.

(** One round of the inner loop. *)
Definition crc_round (crc : Z) : Z :=
  if negb (Z.land crc 0x0001 =? 0) then Z.lxor (Z.shiftr crc 1) 0xA001
  else Z.shiftr crc 1.

(** [for _ in range(8): ...] *)
Definition crc_rounds (crc : Z) : Z :=
  fold_left (fun c _ => crc_round c) (seq 0 8) crc.

(** The body of the outer loop for one byte. *)
Definition crc_byte (crc byte : Z) : Z := crc_rounds (Z.lxor crc byte).

Definition calculate_crc (data : bytes) : Z :=
  fold_left crc_byte data 0xFFFF.

Definition verify_crc (data : bytes) (crc : Z) : bool :=
  let calculated_crc := calculate_crc data in
  calculated_crc =? crc.

End ModbusCRC.


(** ** Python dictionaries

    A [dict] keeps its keys in insertion order and [Slave._find_block]
    scans [blocks.values()] in that order, so a dictionary is an
    association list with unique keys: assigning to a key that is present
    replaces the value in place, assigning to a new key appends. *)
Module dict.
Section Dict.
Context {K V : Type} (eqb : K -> K -> bool).

(** [d.get(k)] *)
Fixpoint get (d : list (K * V)) (k : K) : option V :=
  match d with
  | [] => None
  | (k', v) :: rest => if eqb k' k then Some v else get rest k
  end.

(** [k in d] *)
Definition contains (d : list (K * V)) (k : K) : bool :=
  match get d k with
  | Some _ => true
  | None => false
  end.

(** [d[k] = v] *)
Fixpoint set (d : list (K * V)) (k : K) (v : V) : list (K * V) :=
  match d with
  | [] => [(k, v)]
  | (k', v') :: rest =>
      if eqb k' k then (k', v) :: rest else (k', v') :: set rest k v
  end.

(** [del d[k]] for a key that is present *)
Fixpoint del (d : list (K * V)) (k : K) : list (K * V) :=
  match d with
  | [] => []
  | (k', v') :: rest => if eqb k' k then rest else (k', v') :: del rest k
  end.
End Dict.
End dict.

(** An argument that is either one value or a list/tuple of values
    ([isinstance(values, (list, tuple))]). *)
Inductive pyarg : Type :=
| Scalar (v : pyval)
| Seq (vs : list pyval).

(** [if not isinstance(values, (list, tuple)): values = [values]] *)
Definition as_list (values : pyarg) : list pyval :=
  match values with
  | Seq vs => vs
  | Scalar v => [v]
  end.

(** ** [modbus_tcp.py]: class [Databank] *)
Module Databank.

Record t : Type := mk {
  block_type : defines.block_type;
  starting_address : Z;
  size : Z;
  data : list pyval
}.

(** [Databank.__init__]; [[x] * size] is empty for a negative [size]. *)
Definition init (block_type : defines.block_type)
           (starting_address size : Z) : t :=
  mk block_type starting_address size
     (if defines.is_bit_type block_type
      then repeat (VBool false) (Z.to_nat size)
      else repeat (VInt 0) (Z.to_nat size)).

(** What one iteration stores: [bool(value)] or [value & 0xFFFF]. *)
Definition stored (block_type : defines.block_type) (value : pyval) : pyval :=
  if defines.is_bit_type block_type then VBool (truthy value)
  else VInt (Z.land (int_of value) 0xFFFF).

(** The loop of [set_values] from index [i] of [enumerate(values)].
    The block is changed in place: the block after the call is returned
    also when [data[idx] = ...] raises IndexError, which the guard
    [0 <= idx < size] allows only when [data] is shorter than [size]. *)
Fixpoint set_values_from (b : t) (address : Z) (i : nat)
         (values : list pyval) : t * result unit :=
  match values with
  | [] => (b, Ok tt)
  | value :: rest =>
      let idx := address - starting_address b + Z.of_nat i in
      if (0 <=? idx) && (idx <? size b) then
        if (Z.to_nat idx <? List.length (data b))%nat then
          set_values_from
            (mk (block_type b) (starting_address b) (size b)
                (list_set (data b) (Z.to_nat idx)
                   (stored (block_type b) value)))
            address (S i) rest
        else (b, Raise IndexError)
      else set_values_from b address (S i) rest
  end.

Definition set_values (b : t) (address : Z) (values : pyarg)
  : t * result unit :=
  set_values_from b address 0 (as_list values).

(** The default appended for an index outside the block. *)
Definition default (block_type : defines.block_type) : pyval :=
  if defines.is_bit_type block_type then VBool false else VInt 0.

(** The loop of [get_values] over the indexes [i], [i + 1], ... ([n] of
    them); [data[idx]] raises IndexError past the end of [data]. *)
Fixpoint get_values_from (b : t) (address : Z) (i n : nat)
  : result (list pyval) :=
  match n with
  | O => Ok []
  | S n' =>
      let idx := address - starting_address b + Z.of_nat i in
      x <- (if (0 <=? idx) && (idx <? size b) then
              match nth_error (data b) (Z.to_nat idx) with
              | Some v => Ok v
              | None => Raise IndexError
              end
            else Ok (default (block_type b))) ;;
      rest <- get_values_from b address (S i) n' ;;
      Ok (x :: rest)
  end.

(** [get_values]: [range(count)] is empty for [count <= 0]. *)
Definition get_values (b : t) (address count : Z) : result (list pyval) :=
  get_values_from b address 0 (Z.to_nat count).

End Databank.

(** ** [modbus_tcp.py]: class [Slave] *)
Module Slave.

Record t : Type := mk {
  slave_id : Z;
  blocks : list (string * Databank.t)
}.

Definition init (slave_id : Z) : t := mk slave_id [].

Definition add_block (s : t) (block_name : string)
           (block_type : defines.block_type) (starting_address size : Z) : t :=
  mk (slave_id s)
     (dict.set String.eqb (blocks s) block_name
        (Databank.init block_type starting_address size)).

Definition remove_block (s : t) (block_name : string) : t :=
  if dict.contains String.eqb (blocks s) block_name
  then mk (slave_id s) (dict.del String.eqb (blocks s) block_name)
  else s.

Definition remove_all_blocks (s : t) : t := mk (slave_id s) [].

(** The block is changed in place, so the dictionary keeps its entry. *)
Definition set_values (s : t) (block_name : string) (address : Z)
           (values : pyarg) : t * result unit :=
  match dict.get String.eqb (blocks s) block_name with
  | Some b =>
      let '(b', r) := Databank.set_values b address values in
      (mk (slave_id s) (dict.set String.eqb (blocks s) block_name b'), r)
  | None => (s, Ok tt)
  end.

Definition get_values (s : t) (block_name : string) (address count : Z)
  : result (list pyval) :=
  match dict.get String.eqb (blocks s) block_name with
  | Some b => Databank.get_values b address count
  | None => Ok []
  end.

Definition covers (block_type : defines.block_type) (address : Z)
           (entry : string * Databank.t) : bool :=
  let block := snd entry in
  defines.block_type_eqb (Databank.block_type block) block_type
  && ((Databank.starting_address block <=? address)
      && (address <? Databank.starting_address block + Databank.size block)).

(** The first block in dictionary order that covers the address, with
    the key it is stored under (the caller mutates it in place). *)
Definition _find_block (s : t) (block_type : defines.block_type)
           (address : Z) : option (string * Databank.t) :=
  find (covers block_type address) (blocks s).

Definition _get_values_by_type (s : t) (block_type : defines.block_type)
           (address count : Z) : result (list pyval) :=
  match _find_block s block_type address with
  | Some (_, block) => Databank.get_values block address count
  | None =>
      Ok (if defines.is_bit_type block_type
          then repeat (VBool false) (Z.to_nat count)
          else repeat (VInt 0) (Z.to_nat count))
  end.

Definition _set_values_by_type (s : t) (block_type : defines.block_type)
           (address : Z) (values : pyarg) : t * result bool :=
  match _find_block s block_type address with
  | Some (name, block) =>
      let '(block', r) := Databank.set_values block address values in
      (mk (slave_id s) (dict.set String.eqb (blocks s) name block'),
       _ <- r ;; Ok true)
  | None => (s, Ok false)
  end.

End Slave.

(** ** [modbus_tcp.py]: class [TcpServer] (request processing) *)
Module TcpServer.
Import ModbusTCPFrame.

Record t : Type := mk {
  _slaves : list (Z * Slave.t)
}.

Definition init : t := mk [].

Definition add_slave (srv : t) (slave_id : Z) : t * Slave.t :=
  let slave := Slave.init slave_id in
  (mk (dict.set Z.eqb (_slaves srv) slave_id slave), slave).

Definition remove_slave (srv : t) (slave_id : Z) : t :=
  if dict.contains Z.eqb (_slaves srv) slave_id
  then mk (dict.del Z.eqb (_slaves srv) slave_id)
  else srv.

Definition get_slave (srv : t) (slave_id : Z) : option Slave.t :=
  dict.get Z.eqb (_slaves srv) slave_id.

(** The reply every handler gives to a body that is too short. *)
Definition illegal_data_value (frame : ModbusTCPFrame.t) : result bytes :=
  build_error_response (transaction_id frame) (unit_id frame)
    (function_code frame) defines.ILLEGAL_DATA_VALUE.

Definition _handle_read_coils (frame : ModbusTCPFrame.t) (slave : Slave.t)
  : result bytes :=
  if (List.length (data frame) <? 4)%nat then illegal_data_value frame
  else
    p <- struct.unpack_HH (slice (data frame) 0 4) ;;
    let '(start_addr, quantity) := p in
    values <-
      Slave._get_values_by_type slave defines.COILS start_addr quantity ;;
    build_read_coils_response (transaction_id frame) (unit_id frame) values.

Definition _handle_read_discrete_inputs (frame : ModbusTCPFrame.t)
           (slave : Slave.t) : result bytes :=
  if (List.length (data frame) <? 4)%nat then illegal_data_value frame
  else
    p <- struct.unpack_HH (slice (data frame) 0 4) ;;
    let '(start_addr, quantity) := p in
    values <-
      Slave._get_values_by_type slave defines.DISCRETE_INPUTS
        start_addr quantity ;;
    let byte_count := (quantity + 7) / 8 in
    input_bytes <- pack_bits byte_count values ;;
    bc <- struct.pack_B byte_count ;;
    build_request (transaction_id frame) (unit_id frame)
      (function_code frame) (bc ++ input_bytes).

Definition _handle_read_holding_registers (frame : ModbusTCPFrame.t)
           (slave : Slave.t) : result bytes :=
  if (List.length (data frame) <? 4)%nat then illegal_data_value frame
  else
    p <- struct.unpack_HH (slice (data frame) 0 4) ;;
    let '(start_addr, quantity) := p in
    values <-
      Slave._get_values_by_type slave defines.HOLDING_REGISTERS
        start_addr quantity ;;
    build_read_holding_registers_response
      (transaction_id frame) (unit_id frame) values.

Definition _handle_read_input_registers (frame : ModbusTCPFrame.t)
           (slave : Slave.t) : result bytes :=
  if (List.length (data frame) <? 4)%nat then illegal_data_value frame
  else
    p <- struct.unpack_HH (slice (data frame) 0 4) ;;
    let '(start_addr, quantity) := p in
    values <-
      Slave._get_values_by_type slave defines.INPUT_REGISTERS
        start_addr quantity ;;
    let byte_count := Z.of_nat (List.length values) * 2 in
    bc <- struct.pack_B byte_count ;;
    regs <- pack_registers (map int_of values) ;;
    build_request (transaction_id frame) (unit_id frame)
      (function_code frame) (bc ++ regs).

(** The write handlers change the slave before they build the reply, so
    they return the slave together with the reply or the exception. *)
Definition _handle_write_single_coil (frame : ModbusTCPFrame.t)
           (slave : Slave.t) : Slave.t * result bytes :=
  if (List.length (data frame) <? 4)%nat then (slave, illegal_data_value frame)
  else
    match struct.unpack_HH (slice (data frame) 0 4) with
    | Raise e => (slave, Raise e)
    | Ok (address, coil_value) =>
        if negb ((coil_value =? 0x0000) || (coil_value =? 0xFF00))
        then (slave, illegal_data_value frame)
        else
          let value := coil_value =? 0xFF00 in
          let '(slave', r) :=
            Slave._set_values_by_type slave defines.COILS address
              (Seq [VBool value]) in
          (slave',
           _ <- r ;;
           build_write_single_coil_response
             (transaction_id frame) (unit_id frame) address value)
    end.

Definition _handle_write_single_register (frame : ModbusTCPFrame.t)
           (slave : Slave.t) : Slave.t * result bytes :=
  if (List.length (data frame) <? 4)%nat then (slave, illegal_data_value frame)
  else
    match struct.unpack_HH (slice (data frame) 0 4) with
    | Raise e => (slave, Raise e)
    | Ok (address, value) =>
        let '(slave', r) :=
          Slave._set_values_by_type slave defines.HOLDING_REGISTERS
            address (Seq [VInt value]) in
        (slave',
         _ <- r ;;
         d <- struct.pack_HH address value ;;
         build_request (transaction_id frame) (unit_id frame)
           (function_code frame) d)
    end.

(** [for byte in coil_bytes: for bit in range(8):
      if len(values) < quantity: values.append(bool((byte >> bit) & 1))] *)
Definition take_bits (quantity : Z) (coil_bytes : bytes) : list bool :=
  fold_left
    (fun values byte =>
       fold_left
         (fun values bit =>
            if Z.of_nat (List.length values) <? quantity
            then values ++ [negb (Z.land (Z.shiftr byte (Z.of_nat bit)) 1 =? 0)]
            else values)
         (seq 0 8) values)
    coil_bytes [].

Definition _handle_write_multiple_coils (frame : ModbusTCPFrame.t)
           (slave : Slave.t) : Slave.t * result bytes :=
  if (List.length (data frame) <? 5)%nat then (slave, illegal_data_value frame)
  else
    match struct.unpack_HHB (slice (data frame) 0 5) with
    | Raise e => (slave, Raise e)
    | Ok (start_addr, quantity, byte_count) =>
        let coil_bytes := slice (data frame) 5 (5 + Z.to_nat byte_count) in
        let values := map VBool (take_bits quantity coil_bytes) in
        let '(slave', r) :=
          Slave._set_values_by_type slave defines.COILS start_addr
            (Seq values) in
        (slave',
         _ <- r ;;
         d <- struct.pack_HH start_addr quantity ;;
         build_request (transaction_id frame) (unit_id frame)
           (function_code frame) d)
    end.

Definition _handle_write_multiple_registers (frame : ModbusTCPFrame.t)
           (slave : Slave.t) : Slave.t * result bytes :=
  if (List.length (data frame) <? 5)%nat then (slave, illegal_data_value frame)
  else
    match struct.unpack_HHB (slice (data frame) 0 5) with
    | Raise e => (slave, Raise e)
    | Ok (start_addr, quantity, byte_count) =>
        let register_data :=
          slice (data frame) 5 (5 + Z.to_nat byte_count) in
        match unpack_registers byte_count register_data with
        | Raise e => (slave, Raise e)
        | Ok values =>
            let '(slave', r) :=
              Slave._set_values_by_type slave
                defines.HOLDING_REGISTERS start_addr
                (Seq (map VInt values)) in
            (slave',
             _ <- r ;;
             d <- struct.pack_HH start_addr quantity ;;
             build_request (transaction_id frame) (unit_id frame)
               (function_code frame) d)
        end
    end.

(** The [if]/[elif] chain on the function code inside the [try]. *)
Definition dispatch (frame : ModbusTCPFrame.t) (slave : Slave.t)
  : Slave.t * result bytes :=
  let fc := function_code frame in
  if fc =? defines.READ_COILS then
    (slave, _handle_read_coils frame slave)
  else if fc =? defines.READ_DISCRETE_INPUTS then
    (slave, _handle_read_discrete_inputs frame slave)
  else if fc =? defines.READ_HOLDING_REGISTERS then
    (slave, _handle_read_holding_registers frame slave)
  else if fc =? defines.READ_INPUT_REGISTERS then
    (slave, _handle_read_input_registers frame slave)
  else if fc =? defines.WRITE_SINGLE_COIL then
    _handle_write_single_coil frame slave
  else if fc =? defines.WRITE_SINGLE_REGISTER then
    _handle_write_single_register frame slave
  else if fc =? defines.WRITE_MULTIPLE_COILS then
    _handle_write_multiple_coils frame slave
  else if fc =? defines.WRITE_MULTIPLE_REGISTERS then
    _handle_write_multiple_registers frame slave
  else
    (slave,
     build_error_response (transaction_id frame) (unit_id frame)
       (function_code frame) defines.ILLEGAL_FUNCTION).

(** [_process_request]: [None] for a frame that does not parse, the
    [SLAVE_DEVICE_FAILURE] reply for an unknown unit and for any
    exception a handler raises. *)
Definition _process_request (srv : t) (request : bytes)
  : t * result (option bytes) :=
  match parse_frame request with
  | None => (srv, Ok None)
  | Some frame =>
      let failure :=
        r <- build_error_response (transaction_id frame) (unit_id frame)
               (function_code frame) defines.SLAVE_DEVICE_FAILURE ;;
        Ok (Some r) in
      match dict.get Z.eqb (_slaves srv) (unit_id frame) with
      | None => (srv, failure)
      | Some slave =>
          let '(slave', reply) := dispatch frame slave in
          let srv' :=
            mk (dict.set Z.eqb (_slaves srv) (unit_id frame) slave') in
          match reply with
          | Ok response => (srv', Ok (Some response))
          | Raise _ => (srv', failure)
          end
      end
  end.

End TcpServer.

(** ** [modbus_tcp.py]: class [TcpMaster] *)
Module TcpMaster.
Import ModbusTCPFrame.

Record t : Type := mk {
  _transaction_id : Z
}.

Definition init : t := mk 0.

Definition _get_transaction_id (m : t) : t * Z :=
  let tid := (_transaction_id m + 1) mod 65536 in
  (mk tid, tid).

(** Reads exactly [n] bytes from what the peer has sent; [None] when the
    stream ends first ([recv] returns an empty chunk or times out, both
    of which end the attempt with an exception). *)
Definition recv_exact (n : nat) (stream : bytes) : option (bytes * bytes) :=
  if (List.length stream <? n)%nat then None
  else Some (firstn n stream, skipn n stream).

(** The receiving part of one attempt: the 7-byte header, then
    [length - 1] more bytes. *)
Definition receive (stream : bytes) : option bytes :=
  match recv_exact 7 stream with
  | None => None
  | Some (header, rest) =>
      match struct.unpack_H (slice header 4 6) with
      | Raise _ => None
      | Ok length =>
          let remaining := length - 1 in
          if 0 <? remaining then
            match recv_exact (Z.to_nat remaining) rest with
            | None => None
            | Some (body, _) => Some (header ++ body)
            end
          else Some header
      end
  end.

Section Transport.
(** The network: the bytes the peer sends back on attempt [n] after the
    request was sent, [None] when [open] or [sendall] raises. *)
Variable peer : nat -> bytes -> option bytes.

(** The attempts [attempt], [attempt + 1], ... of the retry loop, [n]
    of them left. *)
Fixpoint _send_receive_from (retry_count attempt n : nat)
         (request : bytes) : result bytes :=
  match n with
  | O => Raise (CommunicationFailed retry_count)
  | S n' =>
      match peer attempt request with
      | None => _send_receive_from retry_count (S attempt) n' request
      | Some stream =>
          match receive stream with
          | Some data => Ok data
          | None => _send_receive_from retry_count (S attempt) n' request
          end
      end
  end.

Definition _send_receive (request : bytes) (retry_count : nat)
  : result bytes :=
  _send_receive_from retry_count 0 retry_count request.

(** The steps every branch of [execute] repeats: send, parse the
    response frame, reject a frame that does not parse and an
    exception response. *)
Definition transact (request : bytes) : result ModbusTCPFrame.t :=
  response <- _send_receive request 3 ;;
  match parse_frame response with
  | None => Raise FrameParseFailed
  | Some frame =>
      if negb (Z.land (function_code frame) 0x80 =? 0) then
        match data frame with
        | code :: _ => Raise (ModbusException code)
        | [] => Raise UnknownError
        end
      else Ok frame
  end.

(** [if len(frame.data) >= 4: return struct.unpack('>HH', frame.data[:4])]
    and the fallback pair otherwise. *)
Definition echo_pair (frame : ModbusTCPFrame.t) (fallback : Z * Z)
  : result (list pyval) :=
  if (4 <=? List.length (data frame))%nat then
    p <- struct.unpack_HH (slice (data frame) 0 4) ;;
    Ok [VInt (fst p); VInt (snd p)]
  else Ok [VInt (fst fallback); VInt (snd fallback)].

(** The register loop of the READ_INPUT_REGISTERS branch:
    [for i in range(0, byte_count, 2): if i + 1 < len(register_data): ...] *)
Fixpoint guarded_registers_from (n i : nat) (buf : bytes)
  : result (list Z) :=
  match n with
  | O => Ok []
  | S n' =>
      if (i + 1 <? List.length buf)%nat then
        value <- struct.unpack_H (slice buf i (i + 2)) ;;
        rest <- guarded_registers_from n' (i + 2) buf ;;
        Ok (value :: rest)
      else guarded_registers_from n' (i + 2) buf
  end.

(** [bool(output_value)]: a list or tuple is true when it is not empty. *)
Definition truthy_arg (a : pyarg) : bool :=
  match a with
  | Scalar v => truthy v
  | Seq [] => false
  | Seq (_ :: _) => true
  end.

(** [output_value & 0xFFFF]: a list or tuple has no [&]. *)
Definition and_ffff (a : pyarg) : result Z :=
  match a with
  | Scalar v => Ok (Z.land (int_of v) 0xFFFF)
  | Seq _ => Raise TypeError
  end.

(** The body of the [try] block after the transaction id is allocated. *)
Definition execute_body (transaction_id slave function_code
                         starting_address quantity_of_x : Z)
           (output_value : pyarg) : result (list pyval) :=
  if function_code =? defines.READ_COILS then
    request <- build_read_coils_request transaction_id slave
                 starting_address quantity_of_x ;;
    frame <- transact request ;;
    match parse_read_coils_response frame with
    | None => Raise CoilParseFailed
    | Some coils =>
        Ok (map VBool (firstn (Z.to_nat quantity_of_x) coils))
    end
  else if function_code =? defines.READ_HOLDING_REGISTERS then
    request <- build_read_holding_registers_request transaction_id slave
                 starting_address quantity_of_x ;;
    frame <- transact request ;;
    parsed <- parse_read_holding_registers_response frame ;;
    match parsed with
    | None => Raise RegisterParseFailed
    | Some registers =>
        Ok (map VInt (firstn (Z.to_nat quantity_of_x) registers))
    end
  else if function_code =? defines.READ_INPUT_REGISTERS then
    d <- struct.pack_HH starting_address quantity_of_x ;;
    request <- build_request transaction_id slave function_code d ;;
    frame <- transact request ;;
    if (List.length (data frame) <? 1)%nat then Raise EmptyResponseData
    else
      let byte_count := nth 0 (data frame) 0 in
      let register_data :=
        slice (data frame) 1 (1 + Z.to_nat byte_count) in
      registers <- guarded_registers_from (range2_len byte_count) 0
                     register_data ;;
      Ok (map VInt (firstn (Z.to_nat quantity_of_x) registers))
  else if function_code =? defines.READ_DISCRETE_INPUTS then
    d <- struct.pack_HH starting_address quantity_of_x ;;
    request <- build_request transaction_id slave function_code d ;;
    frame <- transact request ;;
    if (List.length (data frame) <? 1)%nat then Raise EmptyResponseData
    else
      let byte_count := nth 0 (data frame) 0 in
      let input_bytes := slice (data frame) 1 (1 + Z.to_nat byte_count) in
      Ok (map VBool
            (firstn (Z.to_nat quantity_of_x) (unpack_bits input_bytes)))
  else if function_code =? defines.WRITE_SINGLE_COIL then
    let value := truthy_arg output_value in
    request <- build_write_single_coil_request transaction_id slave
                 starting_address value ;;
    frame <- transact request ;;
    echo_pair frame (starting_address, if value then 0xFF00 else 0x0000)
  else if function_code =? defines.WRITE_SINGLE_REGISTER then
    masked <- and_ffff output_value ;;
    d <- struct.pack_HH starting_address masked ;;
    request <- build_request transaction_id slave function_code d ;;
    frame <- transact request ;;
    echo_pair frame (starting_address, masked)
  else if function_code =? defines.WRITE_MULTIPLE_COILS then
    let output_value := as_list output_value in
    let byte_count := (Z.of_nat (List.length output_value) + 7) / 8 in
    coil_bytes <- pack_bits byte_count output_value ;;
    h <- struct.pack_HHB starting_address
           (Z.of_nat (List.length output_value)) byte_count ;;
    request <- build_request transaction_id slave function_code
                 (h ++ coil_bytes) ;;
    frame <- transact request ;;
    echo_pair frame (starting_address, Z.of_nat (List.length output_value))
  else if function_code =? defines.WRITE_MULTIPLE_REGISTERS then
    let output_value := as_list output_value in
    let byte_count := Z.of_nat (List.length output_value) * 2 in
    h <- struct.pack_HHB starting_address
           (Z.of_nat (List.length output_value)) byte_count ;;
    regs <- pack_registers
              (map (fun value => Z.land (int_of value) 0xFFFF) output_value) ;;
    request <- build_request transaction_id slave function_code
                 (h ++ regs) ;;
    frame <- transact request ;;
    echo_pair frame (starting_address, Z.of_nat (List.length output_value))
  else Raise (UnsupportedFunction function_code).

(** [execute]: every exception of the body is re-raised wrapped. *)
Definition execute (m : t) (slave function_code starting_address
                            quantity_of_x : Z) (output_value : pyarg)
  : t * result (list pyval) :=
  let '(m', transaction_id) := _get_transaction_id m in
  match execute_body transaction_id slave function_code starting_address
          quantity_of_x output_value with
  | Ok values => (m', Ok values)
  | Raise e => (m', Raise (ExecuteFailed e))
  end.

End Transport.
End TcpMaster.

(** ** [modbus_rtu.py]: class [RtuMaster] *)
Module RtuMaster.

Definition _build_request (slave function_code : Z) (data : bytes)
  : result bytes :=
  h <- struct.pack_BB slave function_code ;;
  let frame := h ++ data in
  let crc := ModbusCRC.calculate_crc frame in
  c <- struct.pack_H_le crc ;;
  Ok (frame ++ c).

Definition _parse_response (response : bytes) (slave : Z)
  : option (Z * bytes) :=
  let n := List.length response in
  if (n <? 5)%nat then None
  else
    let resp_slave := nth 0 response 0 in
    if negb (resp_slave =? slave) then None
    else
      match struct.unpack_H_le (skipn (n - 2) response) with
      | Raise _ => None
      | Ok crc_received =>
          let crc_calculated :=
            ModbusCRC.calculate_crc (firstn (n - 2) response) in
          if negb (crc_received =? crc_calculated) then None
          else
            let function_code := nth 1 response 0 in
            let data := slice response 2 (n - 2) in
            Some (function_code, data)
      end.

Section Transport.
(** The serial line: the bytes collected after the request was written,
    until the line falls silent or the timeout expires; [None] when the
    port raises (caught inside [_send_receive]). *)
Variable port : bytes -> option bytes.

Definition _send_receive (request : bytes) : option bytes :=
  match port request with
  | None => None
  | Some response =>
      if (5 <=? List.length response)%nat then Some response else None
  end.

(** [response = self._send_receive(request)] and the two nested [if]s:
    the parsed function code and data, when there are any. *)
Definition exchange (slave function_code : Z) (data : bytes)
  : result (option (Z * bytes)) :=
  request <- _build_request slave function_code data ;;
  match _send_receive request with
  | None => Ok None
  | Some response => Ok (_parse_response response slave)
  end.

Definition read_bits (quantity_of_x : Z) (resp_data : bytes)
  : list pyval :=
  if (1 <=? List.length resp_data)%nat then
    let byte_count := nth 0 resp_data 0 in
    let coil_bytes := slice resp_data 1 (1 + Z.to_nat byte_count) in
    map VBool (firstn (Z.to_nat quantity_of_x) (unpack_bits coil_bytes))
  else [].

Definition read_registers (quantity_of_x : Z) (resp_data : bytes)
  : result (list pyval) :=
  if (1 <=? List.length resp_data)%nat then
    let byte_count := nth 0 resp_data 0 in
    let register_data := slice resp_data 1 (1 + Z.to_nat byte_count) in
    registers <- unpack_registers byte_count register_data ;;
    Ok (map VInt (firstn (Z.to_nat quantity_of_x) registers))
  else Ok [].

Definition echo_pair (resp_data : bytes) : result (list pyval) :=
  if (4 <=? List.length resp_data)%nat then
    p <- struct.unpack_HH (slice resp_data 0 4) ;;
    Ok [VInt (fst p); VInt (snd p)]
  else Ok [].

(** The common shape of a branch: an exception response (bit 0x80 of
    the function code) returns the empty tuple, like every other
    failure; [decode] is the branch's own decoding. *)
Definition branch (slave function_code : Z) (data : bytes)
           (decode : bytes -> result (list pyval)) : result (list pyval) :=
  r <- exchange slave function_code data ;;
  match r with
  | None => Ok []
  | Some (func_code, resp_data) =>
      if negb (Z.land func_code 0x80 =? 0) then Ok []
      else decode resp_data
  end.

Definition execute (slave function_code starting_address
                    quantity_of_x : Z) (output_value : pyarg)
  : result (list pyval) :=
  if function_code =? defines.READ_COILS then
    d <- struct.pack_HH starting_address quantity_of_x ;;
    branch slave function_code d
      (fun resp_data => Ok (read_bits quantity_of_x resp_data))
  else if function_code =? defines.READ_HOLDING_REGISTERS then
    d <- struct.pack_HH starting_address quantity_of_x ;;
    branch slave function_code d (read_registers quantity_of_x)
  else if function_code =? defines.READ_INPUT_REGISTERS then
    d <- struct.pack_HH starting_address quantity_of_x ;;
    branch slave function_code d (read_registers quantity_of_x)
  else if function_code =? defines.READ_DISCRETE_INPUTS then
    d <- struct.pack_HH starting_address quantity_of_x ;;
    branch slave function_code d
      (fun resp_data => Ok (read_bits quantity_of_x resp_data))
  else if function_code =? defines.WRITE_SINGLE_COIL then
    let value :=
      if TcpMaster.truthy_arg output_value then 0xFF00 else 0x0000 in
    d <- struct.pack_HH starting_address value ;;
    branch slave function_code d echo_pair
  else if function_code =? defines.WRITE_SINGLE_REGISTER then
    masked <- TcpMaster.and_ffff output_value ;;
    d <- struct.pack_HH starting_address masked ;;
    branch slave function_code d echo_pair
  else if function_code =? defines.WRITE_MULTIPLE_COILS then
    let output_value := as_list output_value in
    let byte_count := (Z.of_nat (List.length output_value) + 7) / 8 in
    coil_bytes <- pack_bits byte_count output_value ;;
    h <- struct.pack_HHB starting_address
           (Z.of_nat (List.length output_value)) byte_count ;;
    branch slave function_code (h ++ coil_bytes) echo_pair
  else if function_code =? defines.WRITE_MULTIPLE_REGISTERS then
    let output_value := as_list output_value in
    let byte_count := Z.of_nat (List.length output_value) * 2 in
    h <- struct.pack_HHB starting_address
           (Z.of_nat (List.length output_value)) byte_count ;;
    regs <- pack_registers
              (map (fun value => Z.land (int_of value) 0xFFFF) output_value) ;;
    branch slave function_code (h ++ regs) echo_pair
  else Ok [].

End Transport.
End RtuMaster.


(** ** Specification vocabulary *)

(** The data vector of a block holds [size] elements. *)
Definition block_length_ok (b : Databank.t) : Prop :=
  Z.of_nat (List.length (Databank.data b)) = Databank.size b.

(** Every index the guard [0 <= idx < size] lets through is an index of the
    data vector.  [__init__] establishes this for every size (a negative
    size gives an empty vector) and [set_values] keeps the length. *)
Definition block_indexable (b : Databank.t) : Prop :=
  Databank.size b <= Z.of_nat (List.length (Databank.data b)).

(** The block invariant: [size] elements, booleans in a coil or
    discrete-input block, 16-bit integers in a register block. *)
Definition block_inv (b : Databank.t) : Prop :=
  block_length_ok b /\
  if defines.is_bit_type (Databank.block_type b)
  then Forall is_bool (Databank.data b)
  else Forall is_u16 (Databank.data b).

(** What a read returns for offset [i] of the request: the stored element
    when [address - starting_address + i] lies in the block, the kind's
    default otherwise. *)
Definition element (b : Databank.t) (address : Z) (i : nat) : pyval :=
  let idx := address - Databank.starting_address b + Z.of_nat i in
  if (0 <=? idx) && (idx <? Databank.size b)
  then nth (Z.to_nat idx) (Databank.data b)
         (Databank.default (Databank.block_type b))
  else Databank.default (Databank.block_type b).

(** Two ranges [start, start + size) share an address. *)
Definition ranges_overlap (start1 size1 start2 size2 : Z) : Prop :=
  exists a, start1 <= a < start1 + size1 /\ start2 <= a < start2 + size2.

(** Whether the packing loop started at index [i] sets bit [j] of byte [k]:
    element [8k + j - i] of [values] exists and is true. *)
Definition packed_bit (i : nat) (values : list pyval) (k : nat) (j : Z)
  : bool :=
  let m := 8 * Z.of_nat k + j - Z.of_nat i in
  (0 <=? j) && (j <? 8) && (0 <=? m) && (m <? Z.of_nat (List.length values))
  && truthy (nth (Z.to_nat m) values (VBool false)).

(** Every block of the slave satisfies the block invariant. *)
Definition slave_inv (s : Slave.t) : Prop :=
  Forall (fun entry => block_inv (snd entry)) (Slave.blocks s).

(** The byte count a read response needs for a quantity: one bit per coil
    or discrete input, two bytes per register. *)
Definition response_byte_count (function_code quantity : Z) : Z :=
  if function_code <=? 2 then (quantity + 7) / 8 else 2 * quantity.

(** The frame the server sends back, when it sends one that parses. *)
Definition server_reply (srv : TcpServer.t) (request : bytes)
  : option ModbusTCPFrame.t :=
  match snd (TcpServer._process_request srv request) with
  | Ok (Some response) => ModbusTCPFrame.parse_frame response
  | _ => None
  end.

(** An exception response to a request with function code [fc]. *)
Definition exception_reply (request : ModbusTCPFrame.t) (code : Z)
  : ModbusTCPFrame.t :=
  ModbusTCPFrame.mk (ModbusTCPFrame.transaction_id request) 0 3
    (ModbusTCPFrame.unit_id request)
    (Z.lor (ModbusTCPFrame.function_code request) 128) [code].

(** What a read handler computes for a well-formed body: the normal
    response with [byte_count] data bytes when the count fits in the count
    byte, an exception (caught by [_process_request]) when it does not. *)
Definition read_outcome (tid uid fc byte_count : Z) (r : result bytes) : Prop :=
  if byte_count <=? 255 then
    exists body,
      Z.of_nat (List.length body) = byte_count /\
      r = ModbusTCPFrame.build_request tid uid fc ([byte_count] ++ body)
  else exists e, r = Raise e.

(** A server with slave 1 holding 16 coils at 0 and 200 holding registers
    at 0, all at their defaults. *)
Definition example_server : TcpServer.t :=
  let slave :=
    Slave.add_block
      (Slave.add_block (Slave.init 1) "c" defines.COILS 0 16)
      "h" defines.HOLDING_REGISTERS 0 200 in
  TcpServer.mk [(1, slave)].

(** The MBAP frame of a read request: transaction 1, unit 1. *)
Definition read_request (function_code address quantity : Z) : bytes :=
  [0; 1; 0; 0; 0; 6; 1; function_code;
   address / 256; address mod 256; quantity / 256; quantity mod 256].

(** A peer that answers every request, on every attempt, with one fixed
    byte stream. *)
Definition constant_peer (stream : bytes) : nat -> bytes -> option bytes :=
  fun _ _ => Some stream.

(** A read-coils response from unit 77 with transaction id 999
    ([0x03E7]): one data byte, coil 0 on. *)
Definition foreign_response : bytes := [3; 231; 0; 0; 0; 4; 77; 1; 1; 1].






(** ** [modbus_rtu.py]: class [RtuServer] (request processing) *)
Module RtuServer.

Record t : Type := mk {
  _slaves : list (Z * Slave.t)
}.

Definition add_slave (srv : t) (slave_id : Z) : t * Slave.t :=
  let slave := Slave.init slave_id in
  (mk (dict.set Z.eqb (_slaves srv) slave_id slave), slave).

(** [RtuServer.__init__]: the default slave is added when [slave_id > 0]. *)
Definition init (slave_id : Z) : t :=
  if 0 <? slave_id then fst (add_slave (mk []) slave_id) else mk [].

Definition remove_slave (srv : t) (slave_id : Z) : t :=
  if dict.contains Z.eqb (_slaves srv) slave_id
  then mk (dict.del Z.eqb (_slaves srv) slave_id)
  else srv.

Definition get_slave (srv : t) (slave_id : Z) : option Slave.t :=
  dict.get Z.eqb (_slaves srv) slave_id.

(** The packed bits of a bit read: [byte_count] comes from the quantity. *)
Definition bit_response (quantity : Z) (values : list pyval) : result bytes :=
  let byte_count := (quantity + 7) / 8 in
  coil_bytes <- pack_bits byte_count values ;;
  bc <- struct.pack_B byte_count ;;
  Ok (bc ++ coil_bytes).

(** The registers of a register read: [byte_count] comes from the values. *)
Definition register_response (values : list pyval) : result bytes :=
  let byte_count := Z.of_nat (List.length values) * 2 in
  bc <- struct.pack_B byte_count ;;
  regs <- pack_registers (map int_of values) ;;
  Ok (bc ++ regs).

(** The [if]/[elif] chain inside the [try]: the slave after the branch,
    and the function code and [response_data] it leaves ([None] when the
    branch assigns nothing), or the exception it raises. *)
Definition handle (slave : Slave.t) (function_code : Z) (data : bytes)
  : Slave.t * result (Z * option bytes) :=
  if function_code =? defines.READ_COILS then
    if (4 <=? List.length data)%nat then
      (slave,
       p <- struct.unpack_HH (slice data 0 4) ;;
       let '(start_addr, quantity) := p in
       values <- Slave._get_values_by_type slave defines.COILS
                   start_addr quantity ;;
       r <- bit_response quantity values ;;
       Ok (function_code, Some r))
    else (slave, Ok (function_code, None))
  else if function_code =? defines.READ_DISCRETE_INPUTS then
    if (4 <=? List.length data)%nat then
      (slave,
       p <- struct.unpack_HH (slice data 0 4) ;;
       let '(start_addr, quantity) := p in
       values <- Slave._get_values_by_type slave defines.DISCRETE_INPUTS
                   start_addr quantity ;;
       r <- bit_response quantity values ;;
       Ok (function_code, Some r))
    else (slave, Ok (function_code, None))
  else if function_code =? defines.READ_HOLDING_REGISTERS then
    if (4 <=? List.length data)%nat then
      (slave,
       p <- struct.unpack_HH (slice data 0 4) ;;
       let '(start_addr, quantity) := p in
       values <- Slave._get_values_by_type slave defines.HOLDING_REGISTERS
                   start_addr quantity ;;
       r <- register_response values ;;
       Ok (function_code, Some r))
    else (slave, Ok (function_code, None))
  else if function_code =? defines.READ_INPUT_REGISTERS then
    if (4 <=? List.length data)%nat then
      (slave,
       p <- struct.unpack_HH (slice data 0 4) ;;
       let '(start_addr, quantity) := p in
       values <- Slave._get_values_by_type slave defines.INPUT_REGISTERS
                   start_addr quantity ;;
       r <- register_response values ;;
       Ok (function_code, Some r))
    else (slave, Ok (function_code, None))
  else if function_code =? defines.WRITE_SINGLE_COIL then
    if (4 <=? List.length data)%nat then
      match struct.unpack_HH (slice data 0 4) with
      | Raise e => (slave, Raise e)
      | Ok (address, coil_value) =>
          if (coil_value =? 0x0000) || (coil_value =? 0xFF00) then
            let value := coil_value =? 0xFF00 in
            let '(slave', r) :=
              Slave._set_values_by_type slave defines.COILS address
                (Seq [VBool value]) in
            (slave', _ <- r ;; Ok (function_code, Some (slice data 0 4)))
          else (slave, Ok (function_code, None))
      end
    else (slave, Ok (function_code, None))
  else if function_code =? defines.WRITE_SINGLE_REGISTER then
    if (4 <=? List.length data)%nat then
      match struct.unpack_HH (slice data 0 4) with
      | Raise e => (slave, Raise e)
      | Ok (address, value) =>
          let '(slave', r) :=
            Slave._set_values_by_type slave defines.HOLDING_REGISTERS
              address (Seq [VInt value]) in
          (slave', _ <- r ;; Ok (function_code, Some (slice data 0 4)))
      end
    else (slave, Ok (function_code, None))
  else if function_code =? defines.WRITE_MULTIPLE_COILS then
    if (5 <=? List.length data)%nat then
      match struct.unpack_HHB (slice data 0 5) with
      | Raise e => (slave, Raise e)
      | Ok (start_addr, quantity, byte_count) =>
          let coil_bytes := slice data 5 (5 + Z.to_nat byte_count) in
          let values := map VBool (TcpServer.take_bits quantity coil_bytes) in
          let '(slave', r) :=
            Slave._set_values_by_type slave defines.COILS start_addr
              (Seq values) in
          (slave',
           _ <- r ;;
           d <- struct.pack_HH start_addr quantity ;;
           Ok (function_code, Some d))
      end
    else (slave, Ok (function_code, None))
  else if function_code =? defines.WRITE_MULTIPLE_REGISTERS then
    if (5 <=? List.length data)%nat then
      match struct.unpack_HHB (slice data 0 5) with
      | Raise e => (slave, Raise e)
      | Ok (start_addr, quantity, byte_count) =>
          let register_data := slice data 5 (5 + Z.to_nat byte_count) in
          match unpack_registers byte_count register_data with
          | Raise e => (slave, Raise e)
          | Ok values =>
              let '(slave', r) :=
                Slave._set_values_by_type slave defines.HOLDING_REGISTERS
                  start_addr (Seq (map VInt values)) in
              (slave',
               _ <- r ;;
               d <- struct.pack_HH start_addr quantity ;;
               Ok (function_code, Some d))
          end
      end
    else (slave, Ok (function_code, None))
  else
    (slave,
     r <- struct.pack_B defines.ILLEGAL_FUNCTION ;;
     Ok (Z.lor function_code 0x80, Some r)).

(** [frame = struct.pack(...) + ...; crc = calculate_crc(frame);
     return frame + struct.pack('<H', crc)] *)
Definition with_crc (frame : result bytes) : result bytes :=
  f <- frame ;;
  c <- struct.pack_H_le (ModbusCRC.calculate_crc f) ;;
  Ok (f ++ c).

(** The [try] block of [_process_request] with its [except] clause, for
    the slave found: the reply built from what the branch leaves, [None]
    when it leaves no [response_data], the SLAVE_DEVICE_FAILURE frame when
    the block raises.  The [except] clause sends [function_code | 0x80];
    after the branch for an unknown code has set bit 0x80 itself this is
    the same value as for the request's code, so the request's code is
    used. *)
Definition answer (srv : t) (slave_addr function_code : Z) (data : bytes)
           (slave : Slave.t) : t * result (option bytes) :=
  let '(slave', outcome) := handle slave function_code data in
  let srv' := mk (dict.set Z.eqb (_slaves srv) slave_addr slave') in
  let attempt :=
    o <- outcome ;;
    let '(fc, response_data) := o in
    match response_data with
    | Some ((_ :: _) as rd) =>
        h <- struct.pack_BB slave_addr fc ;;
        r <- with_crc (Ok (h ++ rd)) ;;
        Ok (Some r)
    | _ => Ok None
    end in
  match attempt with
  | Ok reply => (srv', Ok reply)
  | Raise _ =>
      (srv',
       r <- with_crc
              (struct.pack_BBB slave_addr (Z.lor function_code 0x80)
                 defines.SLAVE_DEVICE_FAILURE) ;;
       Ok (Some r))
  end.

(** [_process_request]: [None] (no reply) for a short frame, a CRC
    mismatch and an unknown slave. *)
Definition _process_request (srv : t) (request : bytes)
  : t * result (option bytes) :=
  let n := List.length request in
  if (n <? 5)%nat then (srv, Ok None)
  else
    let slave_addr := nth 0 request 0 in
    let function_code := nth 1 request 0 in
    let data := slice request 2 (n - 2) in
    match struct.unpack_H_le (skipn (n - 2) request) with
    | Raise e => (srv, Raise e)
    | Ok crc_received =>
        let crc_calculated :=
          ModbusCRC.calculate_crc (firstn (n - 2) request) in
        if negb (crc_received =? crc_calculated) then (srv, Ok None)
        else
          match dict.get Z.eqb (_slaves srv) slave_addr with
          | None => (srv, Ok None)
          | Some slave => answer srv slave_addr function_code data slave
          end
    end.

End RtuServer.

(** ** The two ends put together *)

(** [TcpServer._handle_client] for one request: the handler reads the
    7-byte header and [length - 1] more bytes from what the client sent
    (the same loop as the master's), processes the frame and sends the
    reply back when there is one. *)
Definition tcp_serve (srv : TcpServer.t) (sent : bytes)
  : TcpServer.t * option bytes :=
  match TcpMaster.receive sent with
  | None => (srv, None)
  | Some request =>
      match TcpServer._process_request srv request with
      | (srv', Ok (Some response)) => (srv', Some response)
      | (srv', _) => (srv', None)
      end
  end.

(** A TCP peer that is this server, in the state [srv] at every attempt. *)
Definition tcp_loopback (srv : TcpServer.t) : nat -> bytes -> option bytes :=
  fun _ request => snd (tcp_serve srv request).

(** An RTU server with slave 1 holding 16 coils at 0 and 200 holding
    registers at 0, all at their defaults. *)
Definition example_rtu_server : RtuServer.t :=
  let slave :=
    Slave.add_block
      (Slave.add_block (Slave.init 1) "c" defines.COILS 0 16)
      "h" defines.HOLDING_REGISTERS 0 200 in
  RtuServer.mk [(1, slave)].

(** A serial line with this server at the other end, in the state [srv]:
    the request reaches the server as one frame ([_run_server] hands the
    buffer to [_process_request] once the line has been silent for 3.5
    character times) and the master collects what the server writes,
    nothing when the server stays silent or its loop catches an
    exception. *)
Definition rtu_loopback (srv : RtuServer.t) : bytes -> option bytes :=
  fun request =>
    match snd (RtuServer._process_request srv request) with
    | Ok (Some response) => Some response
    | _ => Some []
    end.

(** [n] consecutive calls of [_get_transaction_id]. *)
Fixpoint allocate (n : nat) (m : TcpMaster.t) : TcpMaster.t * list Z :=
  match n with
  | O => (m, [])
  | S n' =>
      let '(m1, tid) := TcpMaster._get_transaction_id m in
      let '(m2, tids) := allocate n' m1 in
      (m2, tid :: tids)
  end.


(** The keys of a dictionary are distinct (what a Python [dict]
    guarantees and the operations of [dict] keep). *)
Definition unique_keys {K V : Type} (d : list (K * V)) : Prop :=
  NoDup (map fst d).

(** What a read of [count] elements at [address] returns after [values]
    were written at the same address: the stored form of the value written
    at an index inside the block, the kind's default outside. *)
Definition read_back (b : Databank.t) (address : Z) (values : list pyval)
  : list pyval :=
  map (fun i =>
         let idx := address - Databank.starting_address b + Z.of_nat i in
         if (0 <=? idx) && (idx <? Databank.size b)
         then Databank.stored (Databank.block_type b)
                (nth i values (VBool false))
         else Databank.default (Databank.block_type b))
      (seq 0 (List.length values)).

(** A handler's reply, when it returns one, is a frame built for the
    request's transaction and unit, with the request's function code or
    that code with bit 0x80 set. *)
Definition reply_shape (tid uid fc : Z) (r : result bytes) : Prop :=
  match r with
  | Raise _ => True
  | Ok buf =>
      exists fc' d,
        ModbusTCPFrame.build_request tid uid fc' d = Ok buf /\
        (fc' = fc \/ fc' = Z.lor fc 0x80)
  end.

(** The names, kinds and ranges of a slave's blocks. *)
Definition layout (s : Slave.t)
  : list (string * defines.block_type * Z * Z) :=
  map (fun entry =>
         (fst entry, Databank.block_type (snd entry),
          Databank.starting_address (snd entry), Databank.size (snd entry)))
      (Slave.blocks s).

(** The server's invariant: distinct slave identifiers, and in every slave
    distinct block names and blocks that satisfy the block invariant. *)
Definition server_inv (srv : TcpServer.t) : Prop :=
  unique_keys (TcpServer._slaves srv) /\
  Forall (fun entry =>
            slave_inv (snd entry) /\ unique_keys (Slave.blocks (snd entry)))
         (TcpServer._slaves srv).
(** * Properties *)

(** Replaces the names of the function codes by their values. *)
Ltac unfold_codes :=
  cbv [defines.READ_COILS defines.READ_DISCRETE_INPUTS
       defines.READ_HOLDING_REGISTERS defines.READ_INPUT_REGISTERS
       defines.WRITE_SINGLE_COIL defines.WRITE_SINGLE_REGISTER
       defines.WRITE_MULTIPLE_COILS defines.WRITE_MULTIPLE_REGISTERS] in *.

(** ** The [struct] helpers *)

Lemma pack_B_ok v : 0 <= v <= 255 -> struct.pack_B v = Ok [v].
Proof.
  intros H. unfold struct.pack_B.
  replace (0 <=? v) with true by (symmetry; apply Z.leb_le; lia).
  replace (v <=? 255) with true by (symmetry; apply Z.leb_le; lia).
  reflexivity.
Qed.

Lemma pack_B_raise v : ~ 0 <= v <= 255 -> struct.pack_B v = Raise struct_error.
Proof.
  intros H. unfold struct.pack_B.
  destruct (0 <=? v) eqn:E1; destruct (v <=? 255) eqn:E2; try reflexivity.
  apply Z.leb_le in E1. apply Z.leb_le in E2. lia.
Qed.

Lemma pack_H_ok v :
  0 <= v <= 65535 -> struct.pack_H v = Ok [v / 256; v mod 256].
Proof.
  intros H. unfold struct.pack_H.
  replace (0 <=? v) with true by (symmetry; apply Z.leb_le; lia).
  replace (v <=? 65535) with true by (symmetry; apply Z.leb_le; lia).
  reflexivity.
Qed.

Lemma div_mod_256 v : 256 * (v / 256) + v mod 256 = v.
Proof. symmetry. apply Z.div_mod. lia. Qed.

Lemma pack_H_bytes v :
  0 <= v <= 65535 -> is_byte (v / 256) /\ is_byte (v mod 256).
Proof.
  intros H. unfold is_byte. split.
  - split.
    + apply Z.div_pos; lia.
    + assert (v / 256 < 256) by (apply Z.div_lt_upper_bound; lia). lia.
  - pose proof (Z.mod_pos_bound v 256). lia.
Qed.

(** ** The MBAP frame *)

Lemma build_request_ok tid u fc d :
  0 <= tid <= 65535 -> 0 <= u <= 255 -> 0 <= fc <= 255 ->
  Z.of_nat (List.length d) + 2 <= 65535 ->
  ModbusTCPFrame.build_request tid u fc d =
    Ok ([tid / 256; tid mod 256; 0; 0;
         (2 + Z.of_nat (List.length d)) / 256;
         (2 + Z.of_nat (List.length d)) mod 256; u; fc] ++ d).
Proof.
  intros Ht Hu Hf Hl. unfold ModbusTCPFrame.build_request.
  rewrite (pack_B_ok fc Hf). cbn [bind].
  unfold struct.pack_HHHB.
  rewrite (pack_H_ok tid Ht). cbn [bind].
  rewrite (pack_H_ok 0) by lia. cbn [bind].
  replace (1 + Z.of_nat (List.length ([fc] ++ d)))
    with (2 + Z.of_nat (List.length d))
    by (cbn [List.length app]; lia).
  rewrite (pack_H_ok (2 + Z.of_nat (List.length d))) by lia. cbn [bind].
  rewrite (pack_B_ok u Hu). cbn [bind]. reflexivity.
Qed.

Lemma parse_frame_header a1 a0 b1 b0 c1 c0 u fc d :
  ModbusTCPFrame.parse_frame
    (a1 :: a0 :: b1 :: b0 :: c1 :: c0 :: u :: fc :: d) =
    if negb (256 * b1 + b0 =? 0) then None
    else Some (ModbusTCPFrame.mk (256 * a1 + a0) (256 * b1 + b0)
                 (256 * c1 + c0) u fc d).
Proof. reflexivity. Qed.

Lemma parse_frame_short buf :
  (List.length buf < 8)%nat -> ModbusTCPFrame.parse_frame buf = None.
Proof.
  intros H. unfold ModbusTCPFrame.parse_frame.
  replace (List.length buf <? ModbusTCPFrame.MBAP_HEADER_LENGTH + 1)%nat
    with true; [reflexivity|].
  symmetry. apply Nat.ltb_lt. exact H.
Qed.

Lemma long_buffer (buf : bytes) :
  (8 <= List.length buf)%nat ->
  exists a1 a0 b1 b0 c1 c0 u fc d,
    buf = a1 :: a0 :: b1 :: b0 :: c1 :: c0 :: u :: fc :: d.
Proof.
  intros H.
  destruct buf as [|a1 [|a0 [|b1 [|b0 [|c1 [|c0 [|u [|fc d]]]]]]]];
    cbn in H; try lia.
  repeat eexists.
Qed.

Lemma parse_build_request tid u fc d buf :
  0 <= tid <= 65535 -> 0 <= u <= 255 -> 0 <= fc <= 255 ->
  Z.of_nat (List.length d) + 2 <= 65535 ->
  ModbusTCPFrame.build_request tid u fc d = Ok buf ->
  ModbusTCPFrame.parse_frame buf =
    Some (ModbusTCPFrame.mk tid 0 (2 + Z.of_nat (List.length d)) u fc d).
Proof.
  intros Ht Hu Hf Hl Hb.
  rewrite (build_request_ok tid u fc d Ht Hu Hf Hl) in Hb.
  injection Hb as <-.
  cbn [app]. rewrite parse_frame_header.
  rewrite !div_mod_256. reflexivity.
Qed.

(** C3: a frame built by [build_request] from field values that fit the
    MBAP fields (16-bit transaction id and length, 8-bit unit id and
    function code) parses back to exactly those fields, protocol id 0 and
    length [1 + len(PDU) = 2 + len(data)]; and [parse_frame] returns [None]
    for every buffer whose protocol id bytes are not zero. *)
Theorem parse_frame_build_request_roundtrip :
  (forall tid u fc d,
      0 <= tid <= 65535 -> 0 <= u <= 255 -> 0 <= fc <= 255 ->
      Z.of_nat (List.length d) + 2 <= 65535 ->
      exists buf,
        ModbusTCPFrame.build_request tid u fc d = Ok buf /\
        ModbusTCPFrame.parse_frame buf =
          Some (ModbusTCPFrame.mk tid 0 (2 + Z.of_nat (List.length d))
                  u fc d) /\
        2 + Z.of_nat (List.length d) =
          1 + Z.of_nat (List.length (fc :: d))) /\
  (forall buf,
      256 * nth 2 buf 0 + nth 3 buf 0 <> 0 ->
      ModbusTCPFrame.parse_frame buf = None).
Proof.
  split.
  - intros tid u fc d Ht Hu Hf Hl.
    eexists. split; [apply build_request_ok; assumption|]. split.
    + eapply parse_build_request; eauto using build_request_ok.
    + cbn [List.length]. lia.
  - intros buf Hp.
    destruct (Nat.lt_ge_cases (List.length buf) 8) as [Hs|Hs].
    + apply parse_frame_short. exact Hs.
    + destruct (long_buffer buf Hs)
        as [a1 [a0 [b1 [b0 [c1 [c0 [u [fc [d ->]]]]]]]]].
      rewrite parse_frame_header. cbn [nth] in Hp.
      destruct (256 * b1 + b0 =? 0) eqn:E; [|reflexivity].
      apply Z.eqb_eq in E. contradiction.
Qed.

Lemma parse_frame_build_request_roundtrip_witness :
  exists buf,
    ModbusTCPFrame.build_request 1 1 3 [0; 0; 0; 1] = Ok buf /\
    ModbusTCPFrame.parse_frame buf =
      Some (ModbusTCPFrame.mk 1 0 6 1 3 [0; 0; 0; 1]).
Proof.
  destruct parse_frame_build_request_roundtrip as [H _].
  destruct (H 1 1 3 [0; 0; 0; 1]) as [buf [Hb [Hp _]]]; cbn; try lia.
  exists buf. split; [exact Hb | exact Hp].
Defined.

(** ** CRC-16 *)

(** C9 as stated fails: the CRC of the example frame is not [0xA880]. *)
Lemma calculate_crc_example_is_not_A880 :
  ModbusCRC.calculate_crc [1; 4; 2; 255; 255] <> 0xA880.
Proof. vm_compute. discriminate. Qed.

(** C9 (amended): with initial value [0xFFFF] and polynomial [0xA001] the
    CRC of [01 04 02 FF FF] is [0x80B8] (sent low byte first: [B8 80]), and
    [verify_crc buf crc] is true exactly when [calculate_crc buf] is [crc]. *)
Theorem calculate_crc_example_and_verify :
  ModbusCRC.calculate_crc [] = 0xFFFF /\
  ModbusCRC.calculate_crc [1; 4; 2; 255; 255] = 0x80B8 /\
  struct.pack_H_le (ModbusCRC.calculate_crc [1; 4; 2; 255; 255]) =
    Ok [0xB8; 0x80] /\
  forall buf crc,
    ModbusCRC.verify_crc buf crc = true <-> ModbusCRC.calculate_crc buf = crc.
Proof.
  repeat split; try reflexivity.
  - unfold ModbusCRC.verify_crc. apply Z.eqb_eq.
  - unfold ModbusCRC.verify_crc. apply Z.eqb_eq.
Qed.

(** ** The data block *)

Lemma get_values_from_spec b address :
  block_indexable b ->
  forall n i,
  exists res,
    Databank.get_values_from b address i n = Ok res /\
    List.length res = n /\
    forall k, (k < n)%nat -> nth_error res k = Some (element b address (i + k)).
Proof.
  intros Hlen. induction n as [|n IH]; intros i.
  - exists []. repeat split. intros k Hk. lia.
  - destruct (IH (S i)) as [rest [Hrest [Hl Hnth]]].
    exists (element b address i :: rest).
    cbn [Databank.get_values_from]. rewrite Hrest.
    split; [|split].
    + unfold element.
      destruct ((0 <=? address - Databank.starting_address b + Z.of_nat i)
                && (address - Databank.starting_address b + Z.of_nat i
                    <? Databank.size b)) eqn:G; [|reflexivity].
      apply andb_prop in G. destruct G as [G1 G2].
      apply Z.leb_le in G1. apply Z.ltb_lt in G2.
      rewrite (nth_error_nth' _ (Databank.default (Databank.block_type b)))
        by (unfold block_indexable in Hlen; lia).
      reflexivity.
    + cbn [List.length]. lia.
    + intros [|k] Hk.
      * rewrite Nat.add_0_r. reflexivity.
      * cbn [nth_error]. rewrite Hnth by lia.
        f_equal. f_equal. lia.
Qed.

Lemma init_block_indexable bt start size :
  block_indexable (Databank.init bt start size).
Proof.
  unfold block_indexable, Databank.init.
  cbn [Databank.data Databank.size].
  destruct (defines.is_bit_type bt); rewrite repeat_length; lia.
Qed.

(** C7: on every block (built by [__init__], written by [set_values]: the
    data vector has an element for each index below [size]), a read of
    [count >= 0] elements returns [count] values, the i-th being the stored
    value at index [address - starting_address + i] when that index is in
    [0, size) and the kind's default ([False] or [0]) otherwise; a holding
    block at 10 of size 4 holding [11, 22, 33, 44] read at 12 with count 4
    gives [33, 44, 0, 0], directly and through [_get_values_by_type]. *)
Theorem get_values_elements :
  (forall b address count,
      block_indexable b -> 0 <= count ->
      exists res,
        Databank.get_values b address count = Ok res /\
        Z.of_nat (List.length res) = count /\
        forall i, (Z.of_nat i < count) ->
          nth_error res i =
            Some (let idx :=
                    address - Databank.starting_address b + Z.of_nat i in
                  if (0 <=? idx) && (idx <? Databank.size b)
                  then nth (Z.to_nat idx) (Databank.data b)
                         (Databank.default (Databank.block_type b))
                  else if defines.is_bit_type (Databank.block_type b)
                       then VBool false else VInt 0)) /\
  (let s0 :=
     Slave.add_block (Slave.init 1) "h" defines.HOLDING_REGISTERS 10 4 in
   let s1 := fst (Slave.set_values s0 "h" 10
                    (Seq [VInt 11; VInt 22; VInt 33; VInt 44])) in
   Slave.get_values s1 "h" 12 4 = Ok [VInt 33; VInt 44; VInt 0; VInt 0] /\
   Slave._get_values_by_type s1 defines.HOLDING_REGISTERS 12 4 =
     Ok [VInt 33; VInt 44; VInt 0; VInt 0] /\
   Databank.get_values
     (Databank.mk defines.HOLDING_REGISTERS 10 4
        [VInt 11; VInt 22; VInt 33; VInt 44]) 12 4 =
     Ok [VInt 33; VInt 44; VInt 0; VInt 0]).
Proof.
  split.
  - intros b address count Hlen Hc.
    destruct (get_values_from_spec b address Hlen (Z.to_nat count) 0%nat)
      as [res [Hres [Hl Hnth]]].
    exists res. split; [exact Hres|]. split; [lia|].
    intros i Hi. rewrite Hnth by lia. reflexivity.
  - repeat split; reflexivity.
Qed.

Lemma get_values_elements_witness :
  exists res,
    Databank.get_values
      (Databank.mk defines.COILS 3 2 [VBool true; VBool true]) 2 4 = Ok res /\
    Z.of_nat (List.length res) = 4.
Proof.
  destruct get_values_elements as [H _].
  destruct (H (Databank.mk defines.COILS 3 2 [VBool true; VBool true]) 2 4)
    as [res [Hres [Hl _]]].
  - unfold block_indexable. cbn. lia.
  - lia.
  - exists res. split; assumption.
Defined.

Lemma list_set_length {A : Type} (l : list A) k v :
  List.length (list_set l k v) = List.length l.
Proof.
  revert k. induction l as [|h t IH]; intros [|k]; cbn; auto.
Qed.

Lemma list_set_nth_error {A : Type} (l : list A) k v j :
  (k < List.length l)%nat ->
  nth_error (list_set l k v) j =
    if (j =? k)%nat then Some v else nth_error l j.
Proof.
  revert k j. induction l as [|h t IH]; intros k j Hk; cbn in Hk; [lia|].
  destruct k as [|k]; destruct j as [|j]; cbn; try reflexivity.
  apply IH. lia.
Qed.

Lemma list_set_Forall {A : Type} (P : A -> Prop) (l : list A) k v :
  Forall P l -> P v -> Forall P (list_set l k v).
Proof.
  intros Hl Hv. revert k. induction Hl as [|h t Hh Ht IH]; intros k.
  - destruct k; constructor.
  - destruct k as [|k]; cbn; constructor; auto.
Qed.

Lemma stored_inv bt value :
  if defines.is_bit_type bt
  then is_bool (Databank.stored bt value)
  else is_u16 (Databank.stored bt value).
Proof.
  unfold Databank.stored. destruct (defines.is_bit_type bt).
  - eexists. reflexivity.
  - eexists. split; [reflexivity|].
    change (Z.land (int_of value) 65535)
      with (Z.land (int_of value) (Z.ones 16)).
    rewrite Z.land_ones by lia.
    pose proof (Z.mod_pos_bound (int_of value) (2 ^ 16) ltac:(lia)) as Hb.
    change (2 ^ 16) with 65536 in *. lia.
Qed.

Ltac split_tests :=
  repeat match goal with
         | |- context [?a <=? ?b] => destruct (Z.leb_spec a b)
         | |- context [?a <? ?b] => destruct (Z.ltb_spec a b)
         | |- context [(?a =? ?b)%nat] => destruct (Nat.eqb_spec a b)
         end;
  cbn [andb].

(** What [set_values] leaves at index [j] of the data vector: the value
    written by the element of [values] that maps to [j], if there is one
    and [j] lies in the block, and the old content otherwise. *)
Lemma set_values_from_spec address values :
  forall b i,
    block_inv b ->
    exists b',
      Databank.set_values_from b address i values = (b', Ok tt) /\
      block_inv b' /\
      Databank.block_type b' = Databank.block_type b /\
      Databank.starting_address b' = Databank.starting_address b /\
      Databank.size b' = Databank.size b /\
      forall j,
        nth_error (Databank.data b') j =
          let k := Z.of_nat j
                   - (address - Databank.starting_address b + Z.of_nat i) in
          if (0 <=? k) && (k <? Z.of_nat (List.length values))
             && (Z.of_nat j <? Databank.size b)
          then option_map (Databank.stored (Databank.block_type b))
                 (nth_error values (Z.to_nat k))
          else nth_error (Databank.data b) j.
Proof.
  induction values as [|value rest IH]; intros b i Hinv.
  - exists b. cbn [Databank.set_values_from List.length].
    repeat split; try assumption; try apply Hinv.
    intros j. cbn zeta. split_tests; try reflexivity. cbn in *. lia.
  - cbn [Databank.set_values_from]. cbv zeta.
    destruct Hinv as [Hlen Hty]. pose proof Hlen as Hlen'.
    unfold block_length_ok in Hlen'.
    destruct ((0 <=? address - Databank.starting_address b + Z.of_nat i)
              && (address - Databank.starting_address b + Z.of_nat i
                  <? Databank.size b)) eqn:G.
    + apply andb_prop in G. destruct G as [G1 G2].
      apply Z.leb_le in G1. apply Z.ltb_lt in G2.
      replace (Z.to_nat (address - Databank.starting_address b + Z.of_nat i)
               <? List.length (Databank.data b))%nat with true
        by (symmetry; apply Nat.ltb_lt; lia).
      match goal with
      | |- context [Databank.set_values_from ?x _ _ _] => set (b1 := x)
      end.
      assert (Hinv1 : block_inv b1).
      { split.
        - unfold block_length_ok, b1. cbn. rewrite list_set_length. exact Hlen.
        - unfold b1. cbn [Databank.block_type Databank.data].
          pose proof (stored_inv (Databank.block_type b) value) as Hs.
          destruct (defines.is_bit_type (Databank.block_type b));
            apply list_set_Forall; assumption. }
      destruct (IH b1 (S i) Hinv1)
        as [b' [Hrun [Hinv' [Hbt [Hst [Hsz Hnth]]]]]].
      exists b'. split; [exact Hrun|]. split; [exact Hinv'|].
      split; [exact Hbt|]. split; [exact Hst|]. split; [exact Hsz|].
      intros j. rewrite Hnth. cbn zeta.
      unfold b1. cbn [Databank.block_type Databank.starting_address
                       Databank.size Databank.data].
      rewrite list_set_nth_error by lia.
      cbn [List.length]. rewrite !Nat2Z.inj_succ.
      split_tests; try lia; try reflexivity.
      * replace (Z.to_nat (Z.of_nat j - (address - Databank.starting_address b
                                         + Z.of_nat i)))
          with (S (Z.to_nat (Z.of_nat j - (address - Databank.starting_address b
                                           + Z.succ (Z.of_nat i))))) by lia.
        reflexivity.
      * replace (Z.to_nat (Z.of_nat j - (address - Databank.starting_address b
                                         + Z.of_nat i))) with 0%nat by lia.
        reflexivity.
    + destruct (IH b (S i) (conj Hlen Hty))
        as [b' [Hrun [Hinv' [Hbt [Hst [Hsz Hnth]]]]]].
      exists b'. split; [exact Hrun|]. split; [exact Hinv'|].
      split; [exact Hbt|]. split; [exact Hst|]. split; [exact Hsz|].
      intros j. rewrite Hnth. cbn zeta.
      cbn [List.length]. rewrite !Nat2Z.inj_succ.
      apply andb_false_iff in G.
      assert (Hout : ~ (0 <= address - Databank.starting_address b + Z.of_nat i
                        < Databank.size b)).
      { destruct G as [G|G]; [apply Z.leb_gt in G|apply Z.ltb_ge in G]; lia. }
      split_tests; try lia; try reflexivity.
      replace (Z.to_nat (Z.of_nat j - (address - Databank.starting_address b
                                       + Z.of_nat i)))
        with (S (Z.to_nat (Z.of_nat j - (address - Databank.starting_address b
                                         + Z.succ (Z.of_nat i))))) by lia.
      reflexivity.
Qed.

Lemma init_block_inv bt start size :
  0 <= size -> block_inv (Databank.init bt start size).
Proof.
  intros Hs. unfold block_inv, block_length_ok, Databank.init.
  cbn [Databank.data Databank.size Databank.block_type].
  destruct (defines.is_bit_type bt); rewrite repeat_length; (split; [lia|]);
    apply Forall_forall; intros x Hx; apply repeat_spec in Hx; subst.
  - exists false. reflexivity.
  - exists 0. split; [reflexivity|lia].
Qed.

(** C8: [__init__] establishes the block invariant for every size
    [>= 0] (data length equal to [size], booleans in a bit block, integers
    in [0, 0xFFFF] in a register block), and [set_values] on a block that
    satisfies it does not raise and leaves a block that satisfies it again;
    the element at an index [j] of the block that some written value maps
    to is [bool(value)] or [value & 0xFFFF], every other element is
    unchanged, and a write whose indexes all lie outside [0, size) leaves
    the block as it was. *)
Theorem set_values_preserves_block_inv :
  (forall block_type starting_address size,
      0 <= size ->
      block_inv (Databank.init block_type starting_address size)) /\
  (forall b address values,
      block_inv b ->
      exists b',
        Databank.set_values b address values = (b', Ok tt) /\
        block_inv b' /\
        Databank.size b' = Databank.size b /\
        (forall j,
            nth_error (Databank.data b') j =
              let k := Z.of_nat j - (address - Databank.starting_address b) in
              if (0 <=? k) && (k <? Z.of_nat (List.length (as_list values)))
                 && (Z.of_nat j <? Databank.size b)
              then option_map
                     (fun value =>
                        if defines.is_bit_type (Databank.block_type b)
                        then VBool (truthy value)
                        else VInt (Z.land (int_of value) 0xFFFF))
                     (nth_error (as_list values) (Z.to_nat k))
              else nth_error (Databank.data b) j) /\
        ((forall i, (i < List.length (as_list values))%nat ->
                    ~ 0 <= address - Databank.starting_address b + Z.of_nat i
                      < Databank.size b) ->
         b' = b)).
Proof.
  split; [exact init_block_inv|].
  intros b address values Hinv.
  destruct (set_values_from_spec address (as_list values) b 0%nat Hinv)
    as [b' [Hrun [Hinv' [Hbt [Hst [Hsz Hnth]]]]]].
  exists b'. split; [exact Hrun|]. split; [exact Hinv'|]. split; [exact Hsz|].
  assert (Hnth' : forall j,
             nth_error (Databank.data b') j =
               let k := Z.of_nat j - (address - Databank.starting_address b) in
               if (0 <=? k) && (k <? Z.of_nat (List.length (as_list values)))
                  && (Z.of_nat j <? Databank.size b)
               then option_map (Databank.stored (Databank.block_type b))
                      (nth_error (as_list values) (Z.to_nat k))
               else nth_error (Databank.data b) j).
  { intros j. rewrite Hnth. cbn zeta.
    replace (address - Databank.starting_address b + Z.of_nat 0)
      with (address - Databank.starting_address b) by (cbn; lia).
    reflexivity. }
  split.
  - intros j. rewrite Hnth'. cbn zeta. unfold Databank.stored.
    destruct (defines.is_bit_type (Databank.block_type b)); reflexivity.
  - intros Hout.
    assert (Hdata : Databank.data b' = Databank.data b).
    { apply nth_error_ext. intros j. rewrite Hnth'. cbn zeta.
      split_tests; try reflexivity.
      exfalso.
      apply (Hout (Z.to_nat (Z.of_nat j
                             - (address - Databank.starting_address b)))); lia. }
    destruct b', b. cbn in *. subst. reflexivity.
Qed.

Lemma set_values_preserves_block_inv_witness :
  exists b',
    Databank.set_values (Databank.init defines.HOLDING_REGISTERS 10 4) 12
      (Seq [VInt 65537; VInt (-1); VInt 7]) = (b', Ok tt) /\
    block_inv b' /\
    Databank.data b' = [VInt 0; VInt 0; VInt 1; VInt 65535].
Proof.
  destruct set_values_preserves_block_inv as [Hinit Hset].
  destruct (Hset (Databank.init defines.HOLDING_REGISTERS 10 4) 12
              (Seq [VInt 65537; VInt (-1); VInt 7]))
    as [b' [Hrun [Hinv _]]].
  - apply Hinit. lia.
  - exists b'. split; [exact Hrun|]. split; [exact Hinv|].
    apply (f_equal (fun p => Databank.data (fst p))) in Hrun.
    symmetry. exact Hrun.
Defined.

(** ** Dictionaries *)

Lemma dict_get_set_string {V : Type} (d : list (string * V)) k v q :
  dict.get String.eqb (dict.set String.eqb d k v) q =
    if String.eqb k q then Some v else dict.get String.eqb d q.
Proof.
  induction d as [|[k' v'] rest IH]; cbn.
  - reflexivity.
  - destruct (String.eqb_spec k' k) as [->|Hne]; cbn.
    + destruct (String.eqb k q); reflexivity.
    + rewrite IH.
      destruct (String.eqb_spec k' q) as [->|Hne'].
      * destruct (String.eqb_spec k q) as [->|]; [contradiction|reflexivity].
      * reflexivity.
Qed.

(** ** The slave *)

(** C5 as stated fails: [add_block] accepts a block that overlaps an
    existing block of the same kind, and a block that ends past address
    65535; both times the mapping gains the new block. *)
Lemma add_block_accepts_overlap_and_overflow :
  let s0 := Slave.add_block (Slave.init 1) "a" defines.COILS 0 10 in
  ranges_overlap 0 10 5 10 /\
  Slave.blocks (Slave.add_block s0 "b" defines.COILS 5 10) <> Slave.blocks s0 /\
  dict.get String.eqb
    (Slave.blocks (Slave.add_block s0 "b" defines.COILS 5 10)) "b"%string =
    Some (Databank.init defines.COILS 5 10) /\
  65530 + 10 > 65536 /\
  Slave.blocks (Slave.add_block s0 "c" defines.COILS 65530 10)
    <> Slave.blocks s0 /\
  dict.get String.eqb
    (Slave.blocks (Slave.add_block s0 "c" defines.COILS 65530 10)) "c"%string =
    Some (Databank.init defines.COILS 65530 10).
Proof.
  cbv zeta. split; [exists 5; lia|].
  split; [cbn; discriminate|]. split; [reflexivity|].
  split; [lia|]. split; [cbn; discriminate|reflexivity].
Qed.

(** C5 (amended): [add_block] checks nothing and cannot fail: whatever the
    kind, start and size, and whatever blocks exist, the name is bound to a
    fresh block of that kind, start and size filled with defaults, and every
    other name keeps its block. *)
Theorem add_block_always_binds :
  forall s block_name block_type starting_address size q,
    Slave.slave_id (Slave.add_block s block_name block_type
                      starting_address size) = Slave.slave_id s /\
    dict.get String.eqb
      (Slave.blocks (Slave.add_block s block_name block_type
                       starting_address size)) q =
      if String.eqb block_name q
      then Some (Databank.init block_type starting_address size)
      else dict.get String.eqb (Slave.blocks s) q.
Proof.
  intros. split; [reflexivity|].
  unfold Slave.add_block. cbn [Slave.blocks].
  apply dict_get_set_string.
Qed.

(** C10: for a name that is not a key of the slave's block dictionary,
    [Slave.get_values] returns the empty list and [Slave.set_values] leaves
    the slave as it is, and neither raises. *)
Theorem unregistered_block_get_set :
  forall s block_name address count values,
    dict.contains String.eqb (Slave.blocks s) block_name = false ->
    Slave.get_values s block_name address count = Ok [] /\
    Slave.set_values s block_name address values = (s, Ok tt).
Proof.
  intros s block_name address count values Hn.
  unfold dict.contains in Hn.
  unfold Slave.get_values, Slave.set_values.
  destruct (dict.get String.eqb (Slave.blocks s) block_name);
    [discriminate|split; reflexivity].
Qed.

Lemma unregistered_block_get_set_witness :
  let s := Slave.add_block (Slave.init 1) "h" defines.HOLDING_REGISTERS 0 8 in
  Slave.get_values s "x" 0 3 = Ok [] /\
  Slave.set_values s "x" 0 (Seq [VInt 5]) = (s, Ok tt).
Proof.
  cbv zeta.
  apply (unregistered_block_get_set
           (Slave.add_block (Slave.init 1) "h" defines.HOLDING_REGISTERS 0 8)
           "x" 0 3 (Seq [VInt 5])).
  reflexivity.
Defined.

(** ** Bit packing *)

Lemma bit_test_testbit byte bit :
  negb (Z.land (Z.shiftr byte (Z.of_nat bit)) 1 =? 0) =
    Z.testbit byte (Z.of_nat bit).
Proof.
  rewrite Z.testbit_odd.
  change 1 with (Z.ones 1). rewrite Z.land_ones by lia.
  change (2 ^ 1) with 2. rewrite Zmod_odd.
  destruct (Z.odd (Z.shiftr byte (Z.of_nat bit))); reflexivity.
Qed.

Lemma bits_of_byte_length byte : List.length (bits_of_byte byte) = 8%nat.
Proof. reflexivity. Qed.

Lemma bits_of_byte_nth byte j :
  (j < 8)%nat ->
  nth_error (bits_of_byte byte) j = Some (Z.testbit byte (Z.of_nat j)).
Proof.
  intros Hj. unfold bits_of_byte.
  rewrite nth_error_map, nth_error_seq.
  replace (j <? 8)%nat with true by (symmetry; apply Nat.ltb_lt; exact Hj).
  cbn [option_map Nat.add]. rewrite bit_test_testbit. reflexivity.
Qed.

Lemma unpack_bits_length buf :
  List.length (unpack_bits buf) = (8 * List.length buf)%nat.
Proof.
  induction buf as [|h t IH]; [reflexivity|].
  unfold unpack_bits in *. cbn [flat_map].
  rewrite length_app, IH, bits_of_byte_length. cbn [List.length]. lia.
Qed.

Lemma unpack_bits_nth buf :
  forall k j,
    (k < List.length buf)%nat -> (j < 8)%nat ->
    nth_error (unpack_bits buf) (8 * k + j) =
      Some (Z.testbit (nth k buf 0) (Z.of_nat j)).
Proof.
  induction buf as [|h t IH]; intros k j Hk Hj; cbn [List.length] in Hk; [lia|].
  unfold unpack_bits in *. cbn [flat_map].
  destruct k as [|k].
  - rewrite nth_error_app1 by (rewrite bits_of_byte_length; lia).
    cbn [nth]. replace (8 * 0 + j)%nat with j by lia.
    apply bits_of_byte_nth. exact Hj.
  - rewrite nth_error_app2 by (rewrite bits_of_byte_length; lia).
    rewrite bits_of_byte_length.
    replace (8 * S k + j - 8)%nat with (8 * k + j)%nat by lia.
    cbn [nth]. apply IH; lia.
Qed.

Lemma list_set_nth (l : list Z) p x k :
  (p < List.length l)%nat ->
  nth k (list_set l p x) 0 = if (k =? p)%nat then x else nth k l 0.
Proof.
  revert p k. induction l as [|h t IH]; intros p k Hp; cbn in Hp; [lia|].
  destruct p as [|p]; destruct k as [|k]; cbn; try reflexivity.
  apply IH. lia.
Qed.

Lemma packed_bit_nil i k j : packed_bit i [] k j = false.
Proof.
  unfold packed_bit. cbn [List.length]. split_tests; try reflexivity.
  cbn in *. lia.
Qed.

Lemma packed_bit_cons i v rest k j :
  packed_bit i (v :: rest) k j =
    ((8 * Z.of_nat k + j =? Z.of_nat i) && (0 <=? j) && (j <? 8) && truthy v)
    || packed_bit (S i) rest k j.
Proof.
  unfold packed_bit. cbv zeta. cbn [List.length].
  rewrite !Nat2Z.inj_succ.
  destruct (Z.eqb_spec (8 * Z.of_nat k + j) (Z.of_nat i)) as [He|Hne].
  - replace (8 * Z.of_nat k + j - Z.of_nat i) with 0 by lia.
    cbn [Z.to_nat nth].
    split_tests; cbn [orb]; try lia; try reflexivity.
    all: try (destruct (truthy v); reflexivity).
  - cbn [andb orb].
    split_tests; try lia; try reflexivity.
    replace (Z.to_nat (8 * Z.of_nat k + j - Z.of_nat i))
      with (S (Z.to_nat (8 * Z.of_nat k + j - Z.succ (Z.of_nat i)))) by lia.
    reflexivity.
Qed.

Lemma testbit_set_bit b r j :
  Z.testbit (Z.lor b (Z.shiftl 1 (Z.of_nat r))) j =
    Z.testbit b j || (j =? Z.of_nat r).
Proof.
  rewrite Z.lor_spec, Z.shiftl_1_l.
  rewrite Z.pow2_bits_eqb by lia.
  rewrite (Z.eqb_sym (Z.of_nat r) j). reflexivity.
Qed.

(** The packing loop never indexes past the buffer when the buffer has a
    byte for every index, and it ors exactly the bits of the true values. *)
Lemma pack_bits_from_spec values :
  forall i buf,
    (i + List.length values <= 8 * List.length buf)%nat ->
    exists out,
      pack_bits_from i values buf = Ok out /\
      List.length out = List.length buf /\
      forall k j,
        Z.testbit (nth k out 0) j =
          Z.testbit (nth k buf 0) j || packed_bit i values k j.
Proof.
  induction values as [|v rest IH]; intros i buf Hlen.
  - exists buf. split; [reflexivity|]. split; [reflexivity|].
    intros k j. rewrite packed_bit_nil, orb_false_r. reflexivity.
  - cbn [List.length] in Hlen. cbn [pack_bits_from].
    pose proof (Nat.div_mod_eq i 8) as Hdm.
    pose proof (Nat.mod_upper_bound i 8 ltac:(lia)) as Hr.
    destruct (truthy v) eqn:Hv.
    + assert (Hq : (i / 8 < List.length buf)%nat) by lia.
      rewrite (nth_error_nth' buf 0 Hq).
      set (buf' := list_set buf (i / 8) _).
      destruct (IH (S i) buf') as [out [Hrun [Hl Hbits]]].
      { unfold buf'. rewrite list_set_length. lia. }
      exists out. split; [exact Hrun|].
      split; [rewrite Hl; unfold buf'; apply list_set_length|].
      intros k j. rewrite Hbits, packed_bit_cons, Hv.
      unfold buf'. rewrite list_set_nth by exact Hq.
      destruct (Nat.eqb_spec k (i / 8)) as [->|Hk].
      * rewrite testbit_set_bit.
        destruct (Z.testbit (nth (i / 8) buf 0) j); cbn [orb]; [reflexivity|].
        f_equal. split_tests; try lia; reflexivity.
      * f_equal.
        destruct (Z.eqb_spec (8 * Z.of_nat k + j) (Z.of_nat i));
          cbn [andb orb]; [|reflexivity].
        split_tests; try lia; reflexivity.
    + destruct (IH (S i) buf) as [out [Hrun [Hl Hbits]]]; [lia|].
      exists out. split; [exact Hrun|]. split; [exact Hl|].
      intros k j. rewrite Hbits, packed_bit_cons, Hv.
      rewrite !andb_false_r. reflexivity.
Qed.

Lemma pack_bits_ok byte_count values :
  0 <= byte_count ->
  Z.of_nat (List.length values) <= 8 * byte_count ->
  exists out,
    pack_bits byte_count values = Ok out /\
    Z.of_nat (List.length out) = byte_count /\
    forall k j, Z.testbit (nth k out 0) j = packed_bit 0 values k j.
Proof.
  intros Hb Hlen. unfold pack_bits.
  destruct (pack_bits_from_spec values 0 (repeat 0 (Z.to_nat byte_count)))
    as [out [Hrun [Hl Hbits]]].
  { rewrite repeat_length. lia. }
  exists out. split; [exact Hrun|]. rewrite repeat_length in Hl.
  split; [lia|].
  intros k j. rewrite Hbits.
  replace (nth k (repeat 0 (Z.to_nat byte_count)) 0) with 0.
  - rewrite Z.bits_0. reflexivity.
  - symmetry. destruct (Nat.lt_ge_cases k (Z.to_nat byte_count)) as [H|H].
    + apply nth_repeat_lt. exact H.
    + apply nth_overflow. rewrite repeat_length. exact H.
Qed.

(** Decoding what the packing loop produced gives the truth values
    followed by the unused bits of the last byte, all false. *)
Lemma unpack_packed_bits values out :
  Z.of_nat (List.length values) <= 8 * Z.of_nat (List.length out) ->
  (forall k j, Z.testbit (nth k out 0) j = packed_bit 0 values k j) ->
  unpack_bits out =
    map truthy values
    ++ repeat false (8 * List.length out - List.length values).
Proof.
  intros Hlen Hbits. apply nth_error_ext. intros p.
  destruct (Nat.lt_ge_cases p (8 * List.length out)) as [Hp|Hp].
  - pose proof (Nat.div_mod_eq p 8) as Hdm.
    pose proof (Nat.mod_upper_bound p 8 ltac:(lia)) as Hr.
    assert (Hk : (p / 8 < List.length out)%nat) by lia.
    rewrite Hdm at 1. rewrite (unpack_bits_nth out _ _ Hk Hr).
    rewrite Hbits. unfold packed_bit. cbv zeta.
    replace (8 * Z.of_nat (p / 8) + Z.of_nat (p mod 8) - Z.of_nat 0)
      with (Z.of_nat p) by lia.
    rewrite Nat2Z.id.
    rewrite nth_error_app, length_map.
    destruct (Nat.ltb_spec p (List.length values)) as [Hv|Hv].
    + rewrite nth_error_map.
      rewrite (nth_error_nth' values (VBool false) Hv). cbn [option_map].
      f_equal. split_tests; try lia; reflexivity.
    + rewrite nth_error_repeat by lia.
      f_equal. split_tests; try lia; reflexivity.
  - transitivity (@None bool); [|symmetry]; apply nth_error_None.
    + rewrite unpack_bits_length. exact Hp.
    + rewrite length_app, length_map, repeat_length. lia.
Qed.

Lemma read_coils_roundtrip tid u (values : list pyval) :
  0 <= tid <= 65535 -> 0 <= u <= 255 ->
  (List.length values <= 2040)%nat ->
  exists buf frame,
    ModbusTCPFrame.build_read_coils_response tid u values = Ok buf /\
    ModbusTCPFrame.parse_frame buf = Some frame /\
    ModbusTCPFrame.transaction_id frame = tid /\
    ModbusTCPFrame.unit_id frame = u /\
    ModbusTCPFrame.function_code frame = 1 /\
    ModbusTCPFrame.parse_read_coils_response frame =
      Some (map truthy values
            ++ repeat false
                 (8 * ((List.length values + 7) / 8) - List.length values)).
Proof.
  intros Ht Hu Hn.
  unfold ModbusTCPFrame.build_read_coils_response.
  set (bc := (Z.of_nat (List.length values) + 7) / 8).
  assert (Hbc : 0 <= bc <= 255 /\ Z.of_nat (List.length values) <= 8 * bc
                /\ 8 * bc <= Z.of_nat (List.length values) + 7).
  { unfold bc.
    pose proof (Z.div_mod (Z.of_nat (List.length values) + 7) 8 ltac:(lia)).
    pose proof (Z.mod_pos_bound (Z.of_nat (List.length values) + 7) 8
                  ltac:(lia)).
    lia. }
  destruct Hbc as [Hbc1 [Hbc2 Hbc3]].
  destruct (pack_bits_ok bc values) as [out [Hpack [Hl Hbits]]]; try lia.
  rewrite Hpack. cbn [bind].
  rewrite (pack_B_ok bc Hbc1). cbn [bind].
  assert (Hb : ModbusTCPFrame.build_request tid u 1 ([bc] ++ out) = _)
    by (apply build_request_ok; cbn [List.length app]; lia).
  rewrite Hb.
  eexists. eexists. split; [reflexivity|].
  split; [eapply parse_build_request; [| | | |exact Hb];
          cbn [List.length app]; lia|].
  cbn [ModbusTCPFrame.transaction_id ModbusTCPFrame.unit_id
         ModbusTCPFrame.function_code].
  repeat (split; [reflexivity|]).
  unfold ModbusTCPFrame.parse_read_coils_response.
  cbn [ModbusTCPFrame.function_code ModbusTCPFrame.data app List.length
         Z.eqb Pos.eqb negb Nat.ltb Nat.leb nth].
  unfold slice. cbn [skipn].
  replace (1 + Z.to_nat bc - 1)%nat with (List.length out) by lia.
  rewrite firstn_all.
  rewrite (unpack_packed_bits values out) by (try assumption; lia).
  do 3 f_equal.
  assert (Hnat : (List.length out = (List.length values + 7) / 8)%nat).
  { apply Nat2Z.inj. rewrite Hl. unfold bc.
    rewrite Nat2Z.inj_div, Nat2Z.inj_add. reflexivity. }
  rewrite Hnat. reflexivity.
Qed.

(** C2 as stated fails: the decoder returns every bit of every data byte,
    so the one-coil list [[True]] decodes to eight elements. *)
Lemma read_coils_decode_keeps_padding :
  exists buf frame,
    ModbusTCPFrame.build_read_coils_response 1 1 [VBool true] = Ok buf /\
    ModbusTCPFrame.parse_frame buf = Some frame /\
    ModbusTCPFrame.parse_read_coils_response frame =
      Some [true; false; false; false; false; false; false; false] /\
    ModbusTCPFrame.parse_read_coils_response frame <> Some [true].
Proof.
  eexists. eexists. split; [reflexivity|]. split; [reflexivity|].
  split; [reflexivity|]. cbn. discriminate.
Qed.

(** C2 (amended): for every coil list [L] with [1 <= |L| <= 2000] (and a
    transaction id and unit id that fit their fields), decoding the encoded
    read-coils response of [L] yields [L] followed by the unused bits of
    the last data byte, [8 * ceil(|L| / 8) - |L|] times [False]: the first
    [|L|] elements are exactly [L], there are no extra elements when [|L|]
    is a multiple of 8, and the cut to the requested quantity is left to
    the caller. *)
Theorem read_coils_decode_is_padded_list :
  forall tid u (L : list bool),
    0 <= tid <= 65535 -> 0 <= u <= 255 ->
    (1 <= List.length L <= 2000)%nat ->
    exists buf frame decoded,
      ModbusTCPFrame.build_read_coils_response tid u (map VBool L) = Ok buf /\
      ModbusTCPFrame.parse_frame buf = Some frame /\
      ModbusTCPFrame.parse_read_coils_response frame = Some decoded /\
      decoded =
        L ++ repeat false (8 * ((List.length L + 7) / 8) - List.length L) /\
      firstn (List.length L) decoded = L /\
      ((List.length L mod 8 = 0)%nat -> decoded = L).
Proof.
  intros tid u L Ht Hu Hn.
  destruct (read_coils_roundtrip tid u (map VBool L) Ht Hu)
    as [buf [frame [Hb [Hp [_ [_ [_ Hd]]]]]]].
  { rewrite length_map. lia. }
  rewrite length_map, map_map in Hd. cbn [truthy] in Hd. rewrite map_id in Hd.
  exists buf, frame. eexists. split; [exact Hb|]. split; [exact Hp|].
  split; [exact Hd|]. split; [reflexivity|]. split.
  - rewrite firstn_app, Nat.sub_diag, firstn_all. cbn [firstn].
    apply app_nil_r.
  - intros Hm.
    pose proof (Nat.div_mod_eq (List.length L + 7) 8) as Hdm.
    pose proof (Nat.div_mod_eq (List.length L) 8) as Hdm2.
    pose proof (Nat.mod_upper_bound (List.length L + 7) 8 ltac:(lia)) as Hr.
    replace (8 * ((List.length L + 7) / 8) - List.length L)%nat with 0%nat.
    + apply app_nil_r.
    + lia.
Qed.

Lemma read_coils_decode_is_padded_list_witness :
  exists buf frame,
    ModbusTCPFrame.build_read_coils_response 7 1
      (map VBool [true; false; true]) = Ok buf /\
    ModbusTCPFrame.parse_frame buf = Some frame /\
    ModbusTCPFrame.parse_read_coils_response frame =
      Some ([true; false; true] ++ repeat false 5).
Proof.
  destruct (read_coils_decode_is_padded_list 7 1 [true; false; true])
    as [buf [frame [decoded [Hb [Hp [Hd [He _]]]]]]]; cbn; try lia.
  exists buf, frame. split; [exact Hb|]. split; [exact Hp|].
  rewrite Hd, He. reflexivity.
Defined.

(** ** The server's read handlers *)

Lemma is_bytes_cons b bs : is_bytes (b :: bs) -> 0 <= b <= 255 /\ is_bytes bs.
Proof. intros H. inversion H; subst. split; assumption. Qed.

Lemma u16_of_bytes hi lo :
  0 <= hi <= 255 -> 0 <= lo <= 255 -> 0 <= 256 * hi + lo <= 65535.
Proof. lia. Qed.

Lemma parse_frame_fields request frame :
  is_bytes request ->
  ModbusTCPFrame.parse_frame request = Some frame ->
  0 <= ModbusTCPFrame.transaction_id frame <= 65535 /\
  0 <= ModbusTCPFrame.unit_id frame <= 255 /\
  0 <= ModbusTCPFrame.function_code frame <= 255 /\
  is_bytes (ModbusTCPFrame.data frame).
Proof.
  intros Hb Hp.
  destruct (Nat.lt_ge_cases (List.length request) 8) as [Hs|Hs].
  - rewrite parse_frame_short in Hp by exact Hs. discriminate.
  - destruct (long_buffer request Hs)
      as [a1 [a0 [b1 [b0 [c1 [c0 [u [fc [d ->]]]]]]]]].
    rewrite parse_frame_header in Hp.
    destruct (negb _); [discriminate|].
    apply (f_equal (fun o => match o with Some f => f | None => frame end))
      in Hp.
    subst frame.
    repeat (apply is_bytes_cons in Hb; destruct Hb as [? Hb]).
    cbn [ModbusTCPFrame.transaction_id ModbusTCPFrame.unit_id
           ModbusTCPFrame.function_code ModbusTCPFrame.data].
    repeat split; try lia. exact Hb.
Qed.

Lemma get_values_kind b address count :
  block_inv b -> 0 <= count ->
  exists values,
    Databank.get_values b address count = Ok values /\
    Z.of_nat (List.length values) = count /\
    (defines.is_bit_type (Databank.block_type b) = false ->
     Forall is_u16 values).
Proof.
  intros [Hlen Hty] Hc.
  assert (Hidx : block_indexable b)
    by (unfold block_indexable, block_length_ok in *; lia).
  destruct (get_values_from_spec b address Hidx (Z.to_nat count) 0%nat)
    as [res [Hres [Hl Hnth]]].
  exists res. split; [exact Hres|]. split; [lia|].
  intros Hk. rewrite Hk in Hty.
  apply Forall_forall. intros x Hx.
  apply In_nth_error in Hx. destruct Hx as [n Hn].
  assert (Hlt : (n < List.length res)%nat)
    by (apply nth_error_Some; rewrite Hn; discriminate).
  rewrite Hnth in Hn by lia. injection Hn as <-.
  unfold element, Databank.default. rewrite Hk.
  assert (Hd : is_u16 (VInt 0)) by (exists 0; split; [reflexivity|lia]).
  destruct (_ && _); [|exact Hd].
  match goal with
  | |- is_u16 (nth ?i ?l ?d) =>
      destruct (nth_in_or_default i l d) as [Hin|Hdef]
  end.
  - rewrite Forall_forall in Hty. apply Hty. exact Hin.
  - rewrite Hdef. exact Hd.
Qed.

Lemma block_type_eqb_eq a b : defines.block_type_eqb a b = true -> a = b.
Proof. destruct a, b; cbn; congruence. Qed.

Lemma get_values_by_type_kind s bt address count :
  slave_inv s -> 0 <= count ->
  exists values,
    Slave._get_values_by_type s bt address count = Ok values /\
    Z.of_nat (List.length values) = count /\
    (defines.is_bit_type bt = false -> Forall is_u16 values).
Proof.
  intros Hs Hc. unfold Slave._get_values_by_type, Slave._find_block.
  destruct (find (Slave.covers bt address) (Slave.blocks s))
    as [[name block]|] eqn:Hf.
  - apply find_some in Hf. destruct Hf as [Hin Hcov].
    unfold slave_inv in Hs. rewrite Forall_forall in Hs.
    specialize (Hs _ Hin). cbn [snd] in Hs.
    unfold Slave.covers in Hcov. cbn [snd] in Hcov.
    apply andb_prop in Hcov. destruct Hcov as [Hbt _].
    apply block_type_eqb_eq in Hbt.
    destruct (get_values_kind block address count Hs Hc)
      as [values [Hv [Hl Hk]]].
    exists values. rewrite Hbt in Hk. auto.
  - eexists. split; [reflexivity|].
    destruct (defines.is_bit_type bt); rewrite repeat_length;
      (split; [lia|]); intros Hk; [discriminate|].
    apply Forall_forall. intros x Hx. apply repeat_spec in Hx. subst.
    exists 0. split; [reflexivity|lia].
Qed.

Lemma pack_registers_ok values :
  Forall is_u16 values ->
  exists out,
    pack_registers (map int_of values) = Ok out /\
    Z.of_nat (List.length out) = 2 * Z.of_nat (List.length values).
Proof.
  induction 1 as [|v rest [z [-> Hz]] _ [out [Hout Hl]]].
  - exists []. split; reflexivity.
  - cbn [map pack_registers int_of].
    rewrite (pack_H_ok z Hz). cbn [bind]. rewrite Hout. cbn [bind].
    eexists. split; [reflexivity|].
    cbn [List.length app]. lia.
Qed.

Lemma unpack_HH_slice d0 d1 d2 d3 rest :
  struct.unpack_HH (slice (d0 :: d1 :: d2 :: d3 :: rest) 0 4) =
    Ok (256 * d0 + d1, 256 * d2 + d3).
Proof. reflexivity. Qed.

Lemma div8_bounds q : 0 <= q -> 0 <= (q + 7) / 8 /\ q <= 8 * ((q + 7) / 8).
Proof.
  intros Hq.
  pose proof (Z.div_mod (q + 7) 8 ltac:(lia)).
  pose proof (Z.mod_pos_bound (q + 7) 8 ltac:(lia)). lia.
Qed.

(** The body of a bit response: one count byte and the packed bits when
    the count fits in a byte, [struct.error] when it does not. *)
Lemma bit_response_body values quantity :
  Z.of_nat (List.length values) = quantity ->
  let byte_count := (quantity + 7) / 8 in
  if byte_count <=? 255 then
    exists body,
      pack_bits byte_count values = Ok body /\
      Z.of_nat (List.length body) = byte_count /\
      struct.pack_B byte_count = Ok [byte_count]
  else struct.pack_B byte_count = Raise struct_error.
Proof.
  intros Hl. cbv zeta.
  destruct (div8_bounds quantity ltac:(lia)) as [H0 H1].
  destruct (Z.leb_spec ((quantity + 7) / 8) 255) as [Hle|Hgt].
  - destruct (pack_bits_ok ((quantity + 7) / 8) values) as [body [Hp [Hb _]]];
      try lia.
    exists body. split; [exact Hp|]. split; [exact Hb|].
    apply pack_B_ok. lia.
  - apply pack_B_raise. lia.
Qed.

(** A reply built by [build_request] from in-range fields parses back. *)
Lemma reply_parses tid u fc d :
  0 <= tid <= 65535 -> 0 <= u <= 255 -> 0 <= fc <= 255 ->
  Z.of_nat (List.length d) + 2 <= 65535 ->
  exists resp,
    ModbusTCPFrame.build_request tid u fc d = Ok resp /\
    ModbusTCPFrame.parse_frame resp =
      Some (ModbusTCPFrame.mk tid 0 (2 + Z.of_nat (List.length d)) u fc d).
Proof.
  intros Ht Hu Hf Hl. eexists.
  split; [apply build_request_ok; assumption|].
  eapply parse_build_request; eauto using build_request_ok.
Qed.

Section ReadHandlers.
Variables (tid pid len uid fc : Z) (d0 d1 d2 d3 : Z) (rest : bytes).
Variable slave : Slave.t.
Hypothesis Hslave : slave_inv slave.
Hypothesis Hd2 : 0 <= d2 <= 255.
Hypothesis Hd3 : 0 <= d3 <= 255.

Let frame : ModbusTCPFrame.t :=
  ModbusTCPFrame.mk tid pid len uid fc (d0 :: d1 :: d2 :: d3 :: rest).
Let quantity : Z := 256 * d2 + d3.

Lemma quantity_nonneg : 0 <= quantity.
Proof. unfold quantity. lia. Qed.

Lemma handle_read_coils_outcome :
  read_outcome tid uid 1 ((quantity + 7) / 8)
    (TcpServer._handle_read_coils frame slave).
Proof.
  unfold TcpServer._handle_read_coils, frame.
  cbn [ModbusTCPFrame.data ModbusTCPFrame.transaction_id
         ModbusTCPFrame.unit_id List.length Nat.ltb Nat.leb].
  rewrite unpack_HH_slice. cbn [bind]. fold quantity.
  destruct (get_values_by_type_kind slave defines.COILS (256 * d0 + d1)
              quantity Hslave quantity_nonneg) as [values [Hv [Hl _]]].
  rewrite Hv. cbn [bind].
  unfold ModbusTCPFrame.build_read_coils_response. rewrite Hl.
  pose proof (bit_response_body values quantity Hl) as Hbody.
  cbv zeta in Hbody. unfold read_outcome.
  destruct ((quantity + 7) / 8 <=? 255).
  - destruct Hbody as [body [Hp [Hlb HB]]]. rewrite Hp, HB. cbn [bind].
    exists body. split; [exact Hlb|reflexivity].
  - destruct (pack_bits _ values); cbn [bind];
      [rewrite Hbody|]; eexists; reflexivity.
Qed.

Lemma handle_read_discrete_inputs_outcome :
  read_outcome tid uid fc ((quantity + 7) / 8)
    (TcpServer._handle_read_discrete_inputs frame slave).
Proof.
  unfold TcpServer._handle_read_discrete_inputs, frame.
  cbn [ModbusTCPFrame.data ModbusTCPFrame.transaction_id
         ModbusTCPFrame.unit_id ModbusTCPFrame.function_code
         List.length Nat.ltb Nat.leb].
  rewrite unpack_HH_slice. cbn [bind]. fold quantity.
  destruct (get_values_by_type_kind slave defines.DISCRETE_INPUTS
              (256 * d0 + d1) quantity Hslave quantity_nonneg)
    as [values [Hv [Hl _]]].
  rewrite Hv. cbn [bind].
  pose proof (bit_response_body values quantity Hl) as Hbody.
  cbv zeta in Hbody. unfold read_outcome.
  destruct ((quantity + 7) / 8 <=? 255).
  - destruct Hbody as [body [Hp [Hlb HB]]]. rewrite Hp, HB. cbn [bind].
    exists body. split; [exact Hlb|reflexivity].
  - destruct (pack_bits _ values); cbn [bind];
      [rewrite Hbody|]; eexists; reflexivity.
Qed.

Lemma handle_read_holding_registers_outcome :
  read_outcome tid uid 3 (2 * quantity)
    (TcpServer._handle_read_holding_registers frame slave).
Proof.
  unfold TcpServer._handle_read_holding_registers, frame.
  cbn [ModbusTCPFrame.data ModbusTCPFrame.transaction_id
         ModbusTCPFrame.unit_id List.length Nat.ltb Nat.leb].
  rewrite unpack_HH_slice. cbn [bind]. fold quantity.
  destruct (get_values_by_type_kind slave defines.HOLDING_REGISTERS
              (256 * d0 + d1) quantity Hslave quantity_nonneg)
    as [values [Hv [Hl Hk]]].
  rewrite Hv. cbn [bind].
  unfold ModbusTCPFrame.build_read_holding_registers_response. rewrite Hl.
  replace (quantity * 2) with (2 * quantity) by lia.
  unfold read_outcome.
  destruct (Z.leb_spec (2 * quantity) 255) as [Hle|Hgt].
  - rewrite pack_B_ok by (pose proof quantity_nonneg; lia). cbn [bind].
    destruct (pack_registers_ok values (Hk eq_refl)) as [out [Ho Hlo]].
    rewrite Ho. cbn [bind].
    exists out. split; [lia|reflexivity].
  - rewrite pack_B_raise by lia. eexists. reflexivity.
Qed.

Lemma handle_read_input_registers_outcome :
  read_outcome tid uid fc (2 * quantity)
    (TcpServer._handle_read_input_registers frame slave).
Proof.
  unfold TcpServer._handle_read_input_registers, frame.
  cbn [ModbusTCPFrame.data ModbusTCPFrame.transaction_id
         ModbusTCPFrame.unit_id ModbusTCPFrame.function_code
         List.length Nat.ltb Nat.leb].
  rewrite unpack_HH_slice. cbn [bind]. fold quantity.
  destruct (get_values_by_type_kind slave defines.INPUT_REGISTERS
              (256 * d0 + d1) quantity Hslave quantity_nonneg)
    as [values [Hv [Hl Hk]]].
  rewrite Hv. cbn [bind]. rewrite Hl.
  replace (quantity * 2) with (2 * quantity) by lia.
  unfold read_outcome.
  destruct (Z.leb_spec (2 * quantity) 255) as [Hle|Hgt].
  - rewrite pack_B_ok by (pose proof quantity_nonneg; lia). cbn [bind].
    destruct (pack_registers_ok values (Hk eq_refl)) as [out [Ho Hlo]].
    rewrite Ho. cbn [bind].
    exists out. split; [lia|reflexivity].
  - rewrite pack_B_raise by lia. eexists. reflexivity.
Qed.

End ReadHandlers.

Lemma error_response_parses tid uid fc code :
  0 <= tid <= 65535 -> 0 <= uid <= 255 -> 0 <= Z.lor fc 128 <= 255 ->
  0 <= code <= 255 ->
  exists resp,
    ModbusTCPFrame.build_error_response tid uid fc code = Ok resp /\
    ModbusTCPFrame.parse_frame resp =
      Some (ModbusTCPFrame.mk tid 0 3 uid (Z.lor fc 128) [code]).
Proof.
  intros Ht Hu Hf Hc. unfold ModbusTCPFrame.build_error_response.
  rewrite (pack_B_ok code Hc). cbn [bind].
  destruct (reply_parses tid uid (Z.lor fc 128) [code] Ht Hu Hf)
    as [resp [Hb Hp]]; [cbn; lia|].
  exists resp. split; [exact Hb|exact Hp].
Qed.

Lemma process_request_reply srv request frame slave :
  ModbusTCPFrame.parse_frame request = Some frame ->
  dict.get Z.eqb (TcpServer._slaves srv) (ModbusTCPFrame.unit_id frame)
    = Some slave ->
  snd (TcpServer._process_request srv request) =
    match snd (TcpServer.dispatch frame slave) with
    | Ok response => Ok (Some response)
    | Raise _ =>
        r <- ModbusTCPFrame.build_error_response
               (ModbusTCPFrame.transaction_id frame)
               (ModbusTCPFrame.unit_id frame)
               (ModbusTCPFrame.function_code frame)
               defines.SLAVE_DEVICE_FAILURE ;;
        Ok (Some r)
    end.
Proof.
  intros Hp Hs. unfold TcpServer._process_request. rewrite Hp, Hs.
  destruct (TcpServer.dispatch frame slave) as [slave' [r|e]]; reflexivity.
Qed.

Lemma short_body_replies frame slave :
  (List.length (ModbusTCPFrame.data frame) < 4)%nat ->
  TcpServer._handle_read_coils frame slave =
    TcpServer.illegal_data_value frame /\
  TcpServer._handle_read_discrete_inputs frame slave =
    TcpServer.illegal_data_value frame /\
  TcpServer._handle_read_holding_registers frame slave =
    TcpServer.illegal_data_value frame /\
  TcpServer._handle_read_input_registers frame slave =
    TcpServer.illegal_data_value frame.
Proof.
  intros Hs. apply Nat.ltb_lt in Hs.
  unfold TcpServer._handle_read_coils, TcpServer._handle_read_discrete_inputs,
    TcpServer._handle_read_holding_registers,
    TcpServer._handle_read_input_registers.
  rewrite Hs. repeat split; reflexivity.
Qed.

(** The handler [dispatch] selects for each of the four read codes. *)
Lemma dispatch_read frame slave :
  In (ModbusTCPFrame.function_code frame)
     [defines.READ_COILS; defines.READ_DISCRETE_INPUTS;
      defines.READ_HOLDING_REGISTERS; defines.READ_INPUT_REGISTERS] ->
  snd (TcpServer.dispatch frame slave) =
    if ModbusTCPFrame.function_code frame =? 1
    then TcpServer._handle_read_coils frame slave
    else if ModbusTCPFrame.function_code frame =? 2
    then TcpServer._handle_read_discrete_inputs frame slave
    else if ModbusTCPFrame.function_code frame =? 3
    then TcpServer._handle_read_holding_registers frame slave
    else TcpServer._handle_read_input_registers frame slave.
Proof.
  intros Hin. unfold TcpServer.dispatch.
  destruct Hin as [H|[H|[H|[H|[]]]]]; rewrite <- H; reflexivity.
Qed.

(** A read handler's outcome, seen through [_process_request]'s
    exception handler and the parser. *)
Lemma read_outcome_reply tid uid fc fc' bc r :
  0 <= tid <= 65535 -> 0 <= uid <= 255 -> 0 <= fc <= 255 ->
  0 <= Z.lor fc' 128 <= 255 -> 0 <= bc ->
  read_outcome tid uid fc bc r ->
  exists reply,
    match (match r with
           | Ok response => Ok (Some response)
           | Raise _ =>
               x <- ModbusTCPFrame.build_error_response tid uid fc'
                      defines.SLAVE_DEVICE_FAILURE ;;
               Ok (Some x)
           end) with
    | Ok (Some response) => ModbusTCPFrame.parse_frame response
    | _ => None
    end = Some reply /\
    if bc <=? 255 then
      exists body,
        Z.of_nat (List.length body) = bc /\
        reply = ModbusTCPFrame.mk tid 0 (3 + bc) uid fc (bc :: body)
    else reply = ModbusTCPFrame.mk tid 0 3 uid (Z.lor fc' 128)
                   [defines.SLAVE_DEVICE_FAILURE].
Proof.
  intros Ht Hu Hf Hf' Hbc Hr. unfold read_outcome in Hr.
  destruct (Z.leb_spec bc 255) as [Hle|Hgt].
  - destruct Hr as [body [Hl ->]].
    destruct (reply_parses tid uid fc ([bc] ++ body) Ht Hu Hf)
      as [resp [Hb Hp]]; [cbn [List.length app]; lia|].
    rewrite Hb, Hp. eexists. split; [reflexivity|].
    exists body. split; [exact Hl|].
    cbn [List.length app]. f_equal. lia.
  - destruct Hr as [e ->].
    destruct (error_response_parses tid uid fc' defines.SLAVE_DEVICE_FAILURE
                Ht Hu Hf') as [resp [Hb Hp]]; [cbv; split; discriminate|].
    rewrite Hb. cbn [bind]. rewrite Hp. eexists. split; reflexivity.
Qed.

(** C4 as stated fails: the read handlers never look at the quantity.
    Quantity 0 and quantities above the limit (2001 coils, 126 holding
    registers) get a normal response, and a quantity whose byte count does
    not fit in the count byte (3000 coils, 200 registers) gets exception 4
    (SLAVE_DEVICE_FAILURE), not 3. *)
Lemma read_quantity_out_of_range_accepted :
  server_reply example_server (read_request 1 0 0) =
    Some (ModbusTCPFrame.mk 1 0 3 1 1 [0]) /\
  (exists body,
      server_reply example_server (read_request 1 0 2001) =
        Some (ModbusTCPFrame.mk 1 0 254 1 1 (251 :: body))) /\
  (exists body,
      server_reply example_server (read_request 3 0 126) =
        Some (ModbusTCPFrame.mk 1 0 255 1 3 (252 :: body))) /\
  server_reply example_server (read_request 1 0 3000) =
    Some (ModbusTCPFrame.mk 1 0 3 1 129 [defines.SLAVE_DEVICE_FAILURE]) /\
  server_reply example_server (read_request 3 0 200) =
    Some (ModbusTCPFrame.mk 1 0 3 1 131 [defines.SLAVE_DEVICE_FAILURE]) /\
  defines.SLAVE_DEVICE_FAILURE <> defines.ILLEGAL_DATA_VALUE.
Proof.
  split; [vm_compute; reflexivity|].
  split; [eexists; vm_compute; reflexivity|].
  split; [eexists; vm_compute; reflexivity|].
  split; [vm_compute; reflexivity|].
  split; [vm_compute; reflexivity|].
  vm_compute. discriminate.
Qed.

(** C4 (amended): for a read request (function codes 1 to 4) to a
    registered slave, the server answers ILLEGAL_DATA_VALUE (3) exactly
    when the body has fewer than 4 bytes.  The quantity is not validated:
    when the response byte count ([ceil(qty / 8)] for bits, [2 * qty] for
    registers) fits in the count byte, in particular for [qty = 0], the
    answer is a normal response with that many data bytes; when it does
    not, the answer is the exception SLAVE_DEVICE_FAILURE (4). *)
Theorem read_quantity_is_not_validated :
  forall srv request frame slave,
    is_bytes request ->
    ModbusTCPFrame.parse_frame request = Some frame ->
    dict.get Z.eqb (TcpServer._slaves srv) (ModbusTCPFrame.unit_id frame)
      = Some slave ->
    slave_inv slave ->
    In (ModbusTCPFrame.function_code frame)
       [defines.READ_COILS; defines.READ_DISCRETE_INPUTS;
        defines.READ_HOLDING_REGISTERS; defines.READ_INPUT_REGISTERS] ->
    exists reply,
      server_reply srv request = Some reply /\
      if (List.length (ModbusTCPFrame.data frame) <? 4)%nat then
        reply = exception_reply frame defines.ILLEGAL_DATA_VALUE
      else
        let quantity :=
          256 * nth 2 (ModbusTCPFrame.data frame) 0
          + nth 3 (ModbusTCPFrame.data frame) 0 in
        let byte_count :=
          response_byte_count (ModbusTCPFrame.function_code frame) quantity in
        if byte_count <=? 255 then
          exists body,
            Z.of_nat (List.length body) = byte_count /\
            reply =
              ModbusTCPFrame.mk (ModbusTCPFrame.transaction_id frame) 0
                (3 + byte_count) (ModbusTCPFrame.unit_id frame)
                (ModbusTCPFrame.function_code frame) (byte_count :: body)
        else reply = exception_reply frame defines.SLAVE_DEVICE_FAILURE.
Proof.
  intros srv request frame slave Hb Hp Hs Hinv Hin.
  destruct (parse_frame_fields request frame Hb Hp) as [Ht [Hu [Hf Hd]]].
  unfold server_reply.
  rewrite (process_request_reply srv request frame slave Hp Hs).
  rewrite (dispatch_read frame slave Hin).
  assert (Hlor : 0 <= Z.lor (ModbusTCPFrame.function_code frame) 128 <= 255).
  { destruct Hin as [H|[H|[H|[H|[]]]]]; rewrite <- H; cbv;
      split; discriminate. }
  destruct (Nat.ltb_spec (List.length (ModbusTCPFrame.data frame)) 4)
    as [Hshort|Hlong].
  - destruct (short_body_replies frame slave Hshort) as [H1 [H2 [H3 H4]]].
    rewrite H1, H2, H3, H4.
    destruct (error_response_parses
                (ModbusTCPFrame.transaction_id frame)
                (ModbusTCPFrame.unit_id frame)
                (ModbusTCPFrame.function_code frame)
                defines.ILLEGAL_DATA_VALUE Ht Hu Hlor)
      as [resp [Hbuild Hparse]]; [cbv; split; discriminate|].
    unfold TcpServer.illegal_data_value. rewrite Hbuild.
    exists (exception_reply frame defines.ILLEGAL_DATA_VALUE).
    split; [|reflexivity].
    destruct (_ =? 1); [|destruct (_ =? 2); [|destruct (_ =? 3)]];
      exact Hparse.
  - destruct frame as [tid pid len uid fc data].
    cbn [ModbusTCPFrame.data ModbusTCPFrame.transaction_id
           ModbusTCPFrame.unit_id ModbusTCPFrame.function_code] in *.
    destruct data as [|d0 [|d1 [|d2 [|d3 rest]]]]; try (cbn in Hlong; lia).
    repeat (apply is_bytes_cons in Hd; destruct Hd as [? Hd]).
    cbn [nth]. cbv zeta. unfold exception_reply.
    cbn [ModbusTCPFrame.data ModbusTCPFrame.transaction_id
           ModbusTCPFrame.unit_id ModbusTCPFrame.function_code].
    assert (Hq : 0 <= 256 * d2 + d3) by lia.
    destruct (div8_bounds (256 * d2 + d3) Hq) as [Hbc _].
    destruct Hin as [Hfc|[Hfc|[Hfc|[Hfc|[]]]]]; rewrite <- Hfc in *;
      unfold_codes; cbn [Z.eqb Pos.eqb];
      unfold response_byte_count;
      cbn [Z.leb Z.compare Pos.compare Pos.compare_cont
             defines.READ_COILS defines.READ_DISCRETE_INPUTS
             defines.READ_HOLDING_REGISTERS defines.READ_INPUT_REGISTERS].
    + apply (read_outcome_reply tid uid 1 1); try assumption; try lia.
      apply handle_read_coils_outcome; assumption.
    + apply (read_outcome_reply tid uid 2 2); try assumption; try lia.
      apply (handle_read_discrete_inputs_outcome tid pid len uid 2);
        assumption.
    + apply (read_outcome_reply tid uid 3 3); try assumption; try lia.
      apply handle_read_holding_registers_outcome; assumption.
    + apply (read_outcome_reply tid uid 4 4); try assumption; try lia.
      apply (handle_read_input_registers_outcome tid pid len uid 4);
        assumption.
Qed.

Lemma read_quantity_is_not_validated_witness :
  exists reply,
    server_reply example_server (read_request 3 0 126) = Some reply /\
    exists body,
      Z.of_nat (List.length body) = 252 /\
      reply = ModbusTCPFrame.mk 1 0 255 1 3 (252 :: body).
Proof.
  destruct (read_quantity_is_not_validated example_server
              (read_request 3 0 126)
              (ModbusTCPFrame.mk 1 0 6 1 3 [0; 0; 0; 126])
              (Slave.add_block
                 (Slave.add_block (Slave.init 1) "c" defines.COILS 0 16)
                 "h" defines.HOLDING_REGISTERS 0 200))
    as [reply [Hr Hshape]].
  - unfold is_bytes, is_byte. repeat constructor; vm_compute; discriminate.
  - reflexivity.
  - reflexivity.
  - unfold slave_inv.
    change (Slave.blocks _)
      with [("c"%string, Databank.init defines.COILS 0 16);
            ("h"%string, Databank.init defines.HOLDING_REGISTERS 0 200)].
    apply Forall_cons; [apply init_block_inv; lia|].
    apply Forall_cons; [apply init_block_inv; lia|].
    apply Forall_nil.
  - right. right. left. reflexivity.
  - exists reply. split; [exact Hr|]. exact Hshape.
Defined.

(** ** The TCP master *)

Lemma bind_ok {A B : Type} (r : result A) (k : A -> result B) b :
  bind r k = Ok b -> exists a, r = Ok a /\ k a = Ok b.
Proof. destruct r as [a|e]; cbn; [eauto|discriminate]. Qed.

Lemma pack_B_inv v out : struct.pack_B v = Ok out -> 0 <= v <= 255.
Proof.
  unfold struct.pack_B.
  destruct (Z.leb_spec 0 v); destruct (Z.leb_spec v 255); cbn;
    try discriminate. lia.
Qed.

Lemma pack_H_inv v out : struct.pack_H v = Ok out -> 0 <= v <= 65535.
Proof.
  unfold struct.pack_H.
  destruct (Z.leb_spec 0 v); destruct (Z.leb_spec v 65535); cbn;
    try discriminate. lia.
Qed.

(** A request that was built parses to the fields it was built from. *)
Lemma build_request_parses tid u fc d buf :
  ModbusTCPFrame.build_request tid u fc d = Ok buf ->
  ModbusTCPFrame.parse_frame buf =
    Some (ModbusTCPFrame.mk tid 0 (2 + Z.of_nat (List.length d)) u fc d).
Proof.
  intros Hb. pose proof Hb as Hb'.
  unfold ModbusTCPFrame.build_request in Hb'.
  apply bind_ok in Hb'. destruct Hb' as [x [Hfc Hb']].
  pose proof (pack_B_inv _ _ Hfc) as Hf.
  rewrite (pack_B_ok fc Hf) in Hfc. injection Hfc as <-.
  apply bind_ok in Hb'. destruct Hb' as [h [Hh _]].
  unfold struct.pack_HHHB in Hh.
  apply bind_ok in Hh. destruct Hh as [x1 [H1 Hh]].
  apply bind_ok in Hh. destruct Hh as [x2 [H2 Hh]].
  apply bind_ok in Hh. destruct Hh as [x3 [H3 Hh]].
  apply bind_ok in Hh. destruct Hh as [x4 [H4 _]].
  apply pack_H_inv in H1. apply pack_H_inv in H3. apply pack_B_inv in H4.
  cbn [List.length app] in H3.
  eapply parse_build_request; [| | | | exact Hb]; lia.
Qed.

Lemma transact_ok peer request frame :
  TcpMaster.transact peer request = Ok frame ->
  exists response,
    TcpMaster._send_receive peer request 3 = Ok response /\
    ModbusTCPFrame.parse_frame response = Some frame /\
    ModbusTCPFrame.protocol_id frame = 0 /\
    Z.land (ModbusTCPFrame.function_code frame) 128 = 0.
Proof.
  unfold TcpMaster.transact. intros H.
  apply bind_ok in H. destruct H as [response [Hs H]].
  exists response. split; [exact Hs|].
  destruct (ModbusTCPFrame.parse_frame response) as [f|] eqn:Hp;
    [|discriminate].
  destruct (Z.eqb_spec (Z.land (ModbusTCPFrame.function_code f) 128) 0)
    as [Hz|Hnz]; cbn [negb] in H.
  - injection H as <-. split; [reflexivity|]. split; [|exact Hz].
    destruct (Nat.lt_ge_cases (List.length response) 8) as [Hl|Hl].
    + rewrite parse_frame_short in Hp by exact Hl. discriminate.
    + destruct (long_buffer response Hl)
        as [a1 [a0 [b1 [b0 [c1 [c0 [u [fc' [d ->]]]]]]]]].
      rewrite parse_frame_header in Hp.
      destruct (Z.eqb_spec (256 * b1 + b0) 0) as [Hpid|Hpid];
        cbn [negb] in Hp; [|discriminate].
      apply (f_equal (fun o => match o with
                               | Some x => ModbusTCPFrame.protocol_id x
                               | None => 0
                               end)) in Hp.
      cbn [ModbusTCPFrame.protocol_id] in Hp. rewrite <- Hp. exact Hpid.
  - destruct (ModbusTCPFrame.data f); discriminate.
Qed.

(** Whenever the body of [execute] returns a value, a request carrying
    the given transaction id, unit and function code was built and sent,
    and [transact] accepted a response frame for it. *)
Lemma execute_body_sent peer tid slave fc addr qty out values :
  TcpMaster.execute_body peer tid slave fc addr qty out = Ok values ->
  exists data request frame,
    ModbusTCPFrame.build_request tid slave fc data = Ok request /\
    TcpMaster.transact peer request = Ok frame.
Proof.
  unfold TcpMaster.execute_body,
    ModbusTCPFrame.build_read_coils_request,
    ModbusTCPFrame.build_read_holding_registers_request,
    ModbusTCPFrame.build_write_single_coil_request.
  intros H.
  repeat match type of H with
         | (if ?fc =? ?c then _ else _) = _ =>
             destruct (Z.eqb_spec fc c) as [->|?]
         end;
    try discriminate;
    repeat match goal with
           | Hb : bind _ _ = Ok _ |- _ =>
               apply bind_ok in Hb; destruct Hb as [? [? Hb]]
           end;
    do 3 eexists; (split; [eassumption|eassumption]).
Qed.

(** C1 as stated fails: a response frame with transaction id 999 and unit
    id 77 is accepted as the normal result of a request with transaction
    id 1 to slave 1. *)
Lemma foreign_response_accepted :
  let peer := constant_peer foreign_response in
  TcpMaster.execute peer TcpMaster.init 1 defines.READ_COILS 0 1
    (Scalar (VInt 0)) = (TcpMaster.mk 1, Ok [VBool true]) /\
  exists request frame,
    ModbusTCPFrame.build_read_coils_request 1 1 0 1 = Ok request /\
    TcpMaster.transact peer request = Ok frame /\
    ModbusTCPFrame.transaction_id frame = 999 /\
    ModbusTCPFrame.unit_id frame = 77 /\
    ModbusTCPFrame.transaction_id frame <> 1 /\
    ModbusTCPFrame.unit_id frame <> 1.
Proof.
  cbv zeta. split; [vm_compute; reflexivity|].
  eexists. eexists. split; [vm_compute; reflexivity|].
  split; [vm_compute; reflexivity|].
  cbn. repeat split; discriminate.
Qed.

(** C1 (amended): for every call to the TCP master's [execute] that
    returns normally, the request that was sent carries the transaction id
    allocated for the call, [(previous + 1) mod 65536], the slave argument
    as unit id and the function code, and the accepted response is a frame
    received for that request that parses (protocol id 0) and whose
    function code has bit 0x80 clear; the response's transaction id and
    unit id are not compared with the request's. *)
Theorem execute_normal_return :
  forall peer m slave fc addr qty out m' values,
    TcpMaster.execute peer m slave fc addr qty out = (m', Ok values) ->
    TcpMaster._transaction_id m' =
      (TcpMaster._transaction_id m + 1) mod 65536 /\
    exists request sent response frame,
      ModbusTCPFrame.parse_frame request = Some sent /\
      ModbusTCPFrame.transaction_id sent = TcpMaster._transaction_id m' /\
      ModbusTCPFrame.unit_id sent = slave /\
      ModbusTCPFrame.function_code sent = fc /\
      TcpMaster._send_receive peer request 3 = Ok response /\
      ModbusTCPFrame.parse_frame response = Some frame /\
      ModbusTCPFrame.protocol_id frame = 0 /\
      Z.land (ModbusTCPFrame.function_code frame) 128 = 0.
Proof.
  intros peer m slave fc addr qty out m' values H.
  unfold TcpMaster.execute, TcpMaster._get_transaction_id in H.
  destruct (TcpMaster.execute_body peer _ slave fc addr qty out)
    as [v|e] eqn:Hbody; [|discriminate].
  injection H as <- _. cbn [TcpMaster._transaction_id].
  split; [reflexivity|].
  destruct (execute_body_sent _ _ _ _ _ _ _ _ Hbody)
    as [data [request [frame [Hreq Htr]]]].
  destruct (transact_ok _ _ _ Htr) as [response [Hs [Hp [Hpid Hfc]]]].
  exists request. eexists. exists response, frame.
  split; [exact (build_request_parses _ _ _ _ _ Hreq)|].
  cbn [ModbusTCPFrame.transaction_id ModbusTCPFrame.unit_id
         ModbusTCPFrame.function_code].
  repeat (split; [reflexivity|]).
  repeat (split; [assumption|]). assumption.
Qed.

Lemma execute_normal_return_witness :
  exists request sent response frame,
    ModbusTCPFrame.parse_frame request = Some sent /\
    ModbusTCPFrame.transaction_id sent = 1 /\
    ModbusTCPFrame.unit_id sent = 1 /\
    TcpMaster._send_receive (constant_peer foreign_response) request 3
      = Ok response /\
    ModbusTCPFrame.parse_frame response = Some frame /\
    ModbusTCPFrame.protocol_id frame = 0.
Proof.
  destruct (execute_normal_return (constant_peer foreign_response)
              TcpMaster.init 1 defines.READ_COILS 0 1 (Scalar (VInt 0))
              (TcpMaster.mk 1) [VBool true])
    as [_ [request [sent [response [frame H]]]]].
  - vm_compute. reflexivity.
  - exists request, sent, response, frame.
    destruct H as [H1 [H2 [H3 [_ [H5 [H6 [H7 _]]]]]]].
    repeat (split; [assumption|]). assumption.
Defined.

(** ** Exception responses at the masters *)

Lemma pack_HH_ok a b :
  0 <= a <= 65535 -> 0 <= b <= 65535 ->
  struct.pack_HH a b = Ok [a / 256; a mod 256; b / 256; b mod 256].
Proof.
  intros Ha Hb. unfold struct.pack_HH.
  rewrite (pack_H_ok a Ha), (pack_H_ok b Hb). reflexivity.
Qed.




Lemma land_ffff_range z : 0 <= Z.land z 65535 <= 65535.
Proof.
  change 65535 with (Z.ones 16) at 1 2. rewrite Z.land_ones by lia.
  pose proof (Z.mod_pos_bound z (2 ^ 16) ltac:(lia)) as Hb.
  change (2 ^ 16) with 65536 in *. lia.
Qed.

Lemma pack_registers_bytes values :
  Forall (fun z => 0 <= z <= 65535) values ->
  exists out,
    pack_registers values = Ok out /\
    Z.of_nat (List.length out) = 2 * Z.of_nat (List.length values) /\
    is_bytes out.
Proof.
  induction 1 as [|z rest Hz _ [out [Hout [Hl Hb]]]].
  - exists []. repeat split. apply Forall_nil.
  - cbn [pack_registers]. rewrite (pack_H_ok z Hz). cbn [bind].
    rewrite Hout. cbn [bind]. eexists. split; [reflexivity|].
    destruct (pack_H_bytes z Hz).
    split; [cbn [List.length app]; lia|].
    cbn [app]. repeat (apply Forall_cons; [assumption|]). exact Hb.
Qed.

Lemma bitop_bound (op : Z -> Z -> Z) n a b :
  (forall x y, 0 <= x -> 0 <= y -> 0 <= op x y) ->
  (forall x y, 0 <= x -> 0 <= y ->
               Z.log2 (op x y) <= Z.max (Z.log2 x) (Z.log2 y)) ->
  0 < n -> 0 <= a < 2 ^ n -> 0 <= b < 2 ^ n -> 0 <= op a b < 2 ^ n.
Proof.
  intros Hnn Hlog Hn Ha Hb. split; [apply Hnn; lia|].
  assert (Hl : forall x, 0 <= x < 2 ^ n -> Z.log2 x < n).
  { intros x Hx. destruct (Z.eq_dec x 0) as [->|Hx0].
    - cbn. exact Hn.
    - apply Z.log2_lt_pow2; lia. }
  destruct (Z.eq_dec (op a b) 0) as [->|Hne].
  - apply Z.pow_pos_nonneg; lia.
  - apply Z.log2_lt_pow2; [specialize (Hnn a b); lia|].
    specialize (Hlog a b ltac:(lia) ltac:(lia)).
    pose proof (Hl a Ha). pose proof (Hl b Hb). lia.
Qed.

Lemma lxor_bound n a b :
  0 < n -> 0 <= a < 2 ^ n -> 0 <= b < 2 ^ n -> 0 <= Z.lxor a b < 2 ^ n.
Proof.
  apply bitop_bound.
  - intros x y Hx Hy. apply Z.lxor_nonneg. tauto.
  - apply Z.log2_lxor.
Qed.

Lemma lor_bound n a b :
  0 < n -> 0 <= a < 2 ^ n -> 0 <= b < 2 ^ n -> 0 <= Z.lor a b < 2 ^ n.
Proof.
  apply bitop_bound.
  - intros x y Hx Hy. apply Z.lor_nonneg. tauto.
  - intros x y Hx Hy. rewrite Z.log2_lor by assumption. lia.
Qed.

Lemma crc_round_range crc :
  0 <= crc <= 65535 -> 0 <= ModbusCRC.crc_round crc <= 65535.
Proof.
  intros Hc. unfold ModbusCRC.crc_round.
  assert (Hs : 0 <= Z.shiftr crc 1 < 2 ^ 16).
  { rewrite Z.shiftr_div_pow2 by lia. change (2 ^ 1) with 2.
    change (2 ^ 16) with 65536.
    pose proof (Z.div_mod crc 2 ltac:(lia)).
    pose proof (Z.mod_pos_bound crc 2 ltac:(lia)). lia. }
  destruct (negb _).
  - pose proof (lxor_bound 16 (Z.shiftr crc 1) 40961 ltac:(lia) Hs) as Hx.
    change (2 ^ 16) with 65536 in *. lia.
  - change (2 ^ 16) with 65536 in *. lia.
Qed.

Lemma crc_byte_range crc byte :
  0 <= crc <= 65535 -> 0 <= byte <= 255 ->
  0 <= ModbusCRC.crc_byte crc byte <= 65535.
Proof.
  intros Hc Hb. unfold ModbusCRC.crc_byte, ModbusCRC.crc_rounds.
  cbn [fold_left seq].
  assert (Hx : 0 <= Z.lxor crc byte <= 65535).
  { pose proof (lxor_bound 16 crc byte ltac:(lia)) as Hx.
    change (2 ^ 16) with 65536 in *. lia. }
  do 8 apply crc_round_range. exact Hx.
Qed.

(** The CRC of a byte string is a 16-bit value, so that
    [struct.pack('<H', crc)] cannot fail. *)
Lemma calculate_crc_range data :
  is_bytes data -> 0 <= ModbusCRC.calculate_crc data <= 65535.
Proof.
  unfold ModbusCRC.calculate_crc.
  assert (H : forall crc, 0 <= crc <= 65535 -> is_bytes data ->
                          0 <= fold_left ModbusCRC.crc_byte data crc <= 65535).
  { induction data as [|b rest IH]; intros crc Hc Hb; [exact Hc|].
    apply is_bytes_cons in Hb. destruct Hb as [Hb Hrest].
    cbn [fold_left]. apply IH; [|exact Hrest].
    apply crc_byte_range; assumption. }
  intros Hb. apply H; [lia|exact Hb].
Qed.







(** *** The RTU master *)

Lemma rtu_build_request_ok slave fc data :
  0 <= slave <= 255 -> 0 <= fc <= 255 -> is_bytes data ->
  exists request, RtuMaster._build_request slave fc data = Ok request.
Proof.
  intros Hs Hf Hd. unfold RtuMaster._build_request, struct.pack_BB.
  rewrite (pack_B_ok slave Hs), (pack_B_ok fc Hf). cbn [bind app].
  assert (Hb : is_bytes (slave :: fc :: data))
    by (repeat (apply Forall_cons; [assumption|]); exact Hd).
  pose proof (calculate_crc_range _ Hb) as Hc.
  unfold struct.pack_H_le.
  replace (0 <=? ModbusCRC.calculate_crc (slave :: fc :: data)) with true
    by (symmetry; apply Z.leb_le; lia).
  replace (ModbusCRC.calculate_crc (slave :: fc :: data) <=? 65535) with true
    by (symmetry; apply Z.leb_le; lia).
  cbn [andb bind]. eexists. reflexivity.
Qed.








(** * Further properties of the codec, the data model and the two ends *)

(** ** Register packing *)

Lemma unpack_packed_registers (values : list Z) :
  forall pre out,
    pack_registers values = Ok out ->
    unpack_registers_from (List.length values) (List.length pre) (pre ++ out)
      = Ok values.
Proof.
  induction values as [|v rest IH]; intros pre out Hp; [reflexivity|].
  cbn [pack_registers] in Hp.
  apply bind_ok in Hp. destruct Hp as [x [Hx Hp]].
  apply bind_ok in Hp. destruct Hp as [xs [Hxs Hp]].
  injection Hp as <-.
  pose proof (pack_H_inv _ _ Hx) as Hv.
  rewrite (pack_H_ok v Hv) in Hx. injection Hx as <-.
  cbn [List.length unpack_registers_from].
  unfold slice at 1.
  replace (List.length pre + 2 - List.length pre)%nat with 2%nat by lia.
  rewrite skipn_app, Nat.sub_diag, skipn_all. cbn [skipn app firstn].
  cbn [struct.unpack_H bind]. rewrite div_mod_256.
  specialize (IH (pre ++ [v / 256; v mod 256]) xs Hxs).
  rewrite length_app in IH. cbn [List.length] in IH.
  rewrite <- app_assoc in IH. cbn [app] in IH.
  rewrite IH. reflexivity.
Qed.

Lemma pack_registers_length values out :
  pack_registers values = Ok out ->
  List.length out = (2 * List.length values)%nat.
Proof.
  revert out. induction values as [|v rest IH]; intros out Hp.
  - injection Hp as <-. reflexivity.
  - cbn [pack_registers] in Hp.
    apply bind_ok in Hp. destruct Hp as [x [Hx Hp]].
    apply bind_ok in Hp. destruct Hp as [xs [Hxs Hp]].
    injection Hp as <-.
    pose proof (pack_H_inv _ _ Hx) as Hv.
    rewrite (pack_H_ok v Hv) in Hx. injection Hx as <-.
    cbn [List.length app]. rewrite (IH xs Hxs). lia.
Qed.

Lemma pack_registers_in_range values :
  Forall (fun z => 0 <= z <= 65535) values ->
  exists out, pack_registers values = Ok out.
Proof.
  intros H. destruct (pack_registers_bytes values H) as [out [Ho _]].
  exists out. exact Ho.
Qed.

Lemma range2_len_even (n : nat) : range2_len (Z.of_nat n * 2) = n.
Proof.
  unfold range2_len.
  replace ((Z.of_nat n * 2 + 1) / 2) with (Z.of_nat n).
  - apply Nat2Z.id.
  - pose proof (Z.div_mod (Z.of_nat n * 2 + 1) 2 ltac:(lia)).
    pose proof (Z.mod_pos_bound (Z.of_nat n * 2 + 1) 2 ltac:(lia)). lia.
Qed.

Lemma registers_response_parses tid u (values : list pyval) :
  0 <= tid <= 65535 -> 0 <= u <= 255 ->
  Forall (fun v => 0 <= int_of v <= 65535) values ->
  (List.length values <= 127)%nat ->
  exists buf d,
    ModbusTCPFrame.build_read_holding_registers_response tid u values
      = Ok buf /\
    ModbusTCPFrame.build_request tid u 3 d = Ok buf /\
    ModbusTCPFrame.parse_frame buf =
      Some (ModbusTCPFrame.mk tid 0 (2 + Z.of_nat (List.length d)) u 3 d) /\
    ModbusTCPFrame.parse_read_holding_registers_response
      (ModbusTCPFrame.mk tid 0 (2 + Z.of_nat (List.length d)) u 3 d)
      = Ok (Some (map int_of values)).
Proof.
  intros Ht Hu Hv Hn.
  unfold ModbusTCPFrame.build_read_holding_registers_response.
  rewrite pack_B_ok by lia. cbn [bind].
  assert (Hr : Forall (fun z => 0 <= z <= 65535) (map int_of values))
    by (apply Forall_map; exact Hv).
  destruct (pack_registers_in_range _ Hr) as [out Hout].
  rewrite Hout. cbn [bind].
  pose proof (pack_registers_length _ _ Hout) as Hl.
  rewrite length_map in Hl.
  destruct (reply_parses tid u 3
              ([Z.of_nat (List.length values) * 2] ++ out) Ht Hu)
    as [buf [Hb Hp]]; [lia|cbn [List.length app]; lia|].
  exists buf, ([Z.of_nat (List.length values) * 2] ++ out).
  split; [exact Hb|]. split; [exact Hb|].
  split; [exact Hp|].
  unfold ModbusTCPFrame.parse_read_holding_registers_response.
  cbn [ModbusTCPFrame.function_code ModbusTCPFrame.data app List.length
         Z.eqb Pos.eqb negb Nat.ltb Nat.leb nth].
  unfold unpack_registers. rewrite range2_len_even.
  unfold slice. cbn [skipn].
  replace (1 + Z.to_nat (Z.of_nat (List.length values) * 2) - 1)%nat
    with (List.length out) by lia.
  rewrite firstn_all.
  pose proof (unpack_packed_registers (map int_of values) [] out Hout)
    as Hu'.
  rewrite length_map in Hu'. cbn [List.length app] in Hu'.
  rewrite Hu'. reflexivity.
Qed.

(** X1: the read-holding-registers response round trip.  For at most 127
    register values, each in [0, 0xFFFF], the response built by
    [build_read_holding_registers_response] parses, and
    [parse_read_holding_registers_response] returns exactly the values;
    for 128 values or more the builder raises [struct.error], because the
    byte count no longer fits its byte. *)
Theorem holding_registers_response_roundtrip :
  (forall tid u (values : list pyval),
      0 <= tid <= 65535 -> 0 <= u <= 255 ->
      Forall (fun v => 0 <= int_of v <= 65535) values ->
      (List.length values <= 127)%nat ->
      exists buf frame,
        ModbusTCPFrame.build_read_holding_registers_response tid u values
          = Ok buf /\
        ModbusTCPFrame.parse_frame buf = Some frame /\
        ModbusTCPFrame.parse_read_holding_registers_response frame
          = Ok (Some (map int_of values))) /\
  (forall tid u (values : list pyval),
      (128 <= List.length values)%nat ->
      ModbusTCPFrame.build_read_holding_registers_response tid u values
        = Raise struct_error).
Proof.
  split.
  - intros tid u values Ht Hu Hv Hn.
    destruct (registers_response_parses tid u values Ht Hu Hv Hn)
      as [buf [d [Hb [_ [Hp Hr]]]]].
    exists buf. eexists. split; [exact Hb|]. split; [exact Hp|]. exact Hr.
  - intros tid u values Hn.
    unfold ModbusTCPFrame.build_read_holding_registers_response.
    rewrite pack_B_raise by lia. reflexivity.
Qed.

Lemma holding_registers_response_roundtrip_witness :
  exists buf frame,
    ModbusTCPFrame.build_read_holding_registers_response 5 1
      [VInt 0x1234; VInt 0; VInt 65535] = Ok buf /\
    ModbusTCPFrame.parse_frame buf = Some frame /\
    ModbusTCPFrame.parse_read_holding_registers_response frame
      = Ok (Some [0x1234; 0; 65535]) /\
  ModbusTCPFrame.build_read_holding_registers_response 5 1
    (repeat (VInt 0) 128) = Raise struct_error.
Proof.
  destruct holding_registers_response_roundtrip as [Hok Hbig].
  destruct (Hok 5 1 [VInt 0x1234; VInt 0; VInt 65535])
    as [buf [frame [Hb [Hp Hd]]]]; try lia.
  - repeat (apply Forall_cons; [cbn; lia|]). apply Forall_nil.
  - cbn. lia.
  - exists buf, frame. split; [exact Hb|]. split; [exact Hp|].
    split; [exact Hd|]. apply Hbig. rewrite repeat_length. lia.
Defined.

(** ** Stream reassembly *)

Lemma receive_header a1 a0 b1 b0 c1 c0 u rest :
  TcpMaster.receive (a1 :: a0 :: b1 :: b0 :: c1 :: c0 :: u :: rest) =
    if 0 <? 256 * c1 + c0 - 1 then
      if (List.length rest <? Z.to_nat (256 * c1 + c0 - 1))%nat then None
      else Some ([a1; a0; b1; b0; c1; c0; u]
                 ++ firstn (Z.to_nat (256 * c1 + c0 - 1)) rest)
    else Some [a1; a0; b1; b0; c1; c0; u].
Proof.
  unfold TcpMaster.receive, TcpMaster.recv_exact.
  change (skipn 7 (a1 :: a0 :: b1 :: b0 :: c1 :: c0 :: u :: rest)) with rest.
  change (firstn 7 (a1 :: a0 :: b1 :: b0 :: c1 :: c0 :: u :: rest))
    with [a1; a0; b1; b0; c1; c0; u].
  change (List.length (a1 :: a0 :: b1 :: b0 :: c1 :: c0 :: u :: rest) <? 7)%nat
    with false.
  cbv iota beta.
  change (slice [a1; a0; b1; b0; c1; c0; u] 4 6) with [c1; c0].
  cbn [struct.unpack_H].
  destruct (0 <? 256 * c1 + c0 - 1); [|reflexivity].
  destruct (List.length rest <? Z.to_nat (256 * c1 + c0 - 1))%nat; reflexivity.
Qed.

(** The bytes of a built frame, with the bounds its fields satisfy. *)
Lemma build_request_bytes tid u fc d buf :
  ModbusTCPFrame.build_request tid u fc d = Ok buf ->
  buf = [tid / 256; tid mod 256; 0; 0;
         (2 + Z.of_nat (List.length d)) / 256;
         (2 + Z.of_nat (List.length d)) mod 256; u; fc] ++ d /\
  0 <= tid <= 65535 /\ 0 <= u <= 255 /\ 0 <= fc <= 255 /\
  Z.of_nat (List.length d) + 2 <= 65535.
Proof.
  intros Hb. pose proof Hb as Hb'.
  unfold ModbusTCPFrame.build_request in Hb'.
  apply bind_ok in Hb'. destruct Hb' as [x [Hfc Hb']].
  pose proof (pack_B_inv _ _ Hfc) as Hf.
  apply bind_ok in Hb'. destruct Hb' as [h [Hh _]].
  unfold struct.pack_HHHB in Hh.
  apply bind_ok in Hh. destruct Hh as [x1 [H1 Hh]].
  apply bind_ok in Hh. destruct Hh as [x2 [H2 Hh]].
  apply bind_ok in Hh. destruct Hh as [x3 [H3 Hh]].
  apply bind_ok in Hh. destruct Hh as [x4 [H4 _]].
  apply pack_H_inv in H1. apply pack_H_inv in H3. apply pack_B_inv in H4.
  rewrite (pack_B_ok fc Hf) in Hfc. injection Hfc as <-.
  cbn [List.length app] in H3.
  rewrite (build_request_ok tid u fc d) in Hb by lia.
  injection Hb as <-.
  repeat split; try lia.
Qed.

Lemma receive_built_frame tid u fc d buf extra :
  ModbusTCPFrame.build_request tid u fc d = Ok buf ->
  TcpMaster.receive (buf ++ extra) = Some buf.
Proof.
  intros Hb.
  destruct (build_request_bytes tid u fc d buf Hb) as [-> [Ht [Hu [Hf Hl]]]].
  cbn [app]. rewrite receive_header, div_mod_256.
  replace (0 <? 2 + Z.of_nat (List.length d) - 1) with true
    by (symmetry; apply Z.ltb_lt; lia).
  replace (Z.to_nat (2 + Z.of_nat (List.length d) - 1))
    with (S (List.length d)) by lia.
  replace (List.length (fc :: d ++ extra) <? S (List.length d))%nat
    with false
    by (symmetry; apply Nat.ltb_ge; cbn [List.length];
        rewrite length_app; lia).
  cbn [firstn app]. rewrite firstn_app, Nat.sub_diag, firstn_all.
  cbn [firstn]. rewrite app_nil_r. reflexivity.
Qed.

Lemma receive_truncated_frame tid u fc d buf k :
  ModbusTCPFrame.build_request tid u fc d = Ok buf ->
  (k < List.length buf)%nat ->
  TcpMaster.receive (firstn k buf) = None.
Proof.
  intros Hb Hk.
  destruct (build_request_bytes tid u fc d buf Hb) as [-> [Ht [Hu [Hf Hl]]]].
  cbn [app List.length] in Hk.
  destruct (Nat.lt_ge_cases k 7) as [Hs|Hs].
  - unfold TcpMaster.receive, TcpMaster.recv_exact.
    replace (List.length (firstn k _) <? 7)%nat with true; [reflexivity|].
    symmetry. apply Nat.ltb_lt. rewrite length_firstn. lia.
  - do 7 (destruct k as [|k]; [lia|]).
    cbn [app firstn]. rewrite receive_header, div_mod_256.
    replace (0 <? 2 + Z.of_nat (List.length d) - 1) with true
      by (symmetry; apply Z.ltb_lt; lia).
    replace (List.length (firstn k (fc :: d))
             <? Z.to_nat (2 + Z.of_nat (List.length d) - 1))%nat with true;
      [reflexivity|].
    symmetry. apply Nat.ltb_lt. rewrite length_firstn. cbn [List.length]. lia.
Qed.

(** X2: reassembly of the byte stream.  From a stream that starts with a
    frame built by [build_request], the receive loop returns exactly that
    frame, whatever bytes follow it; from a stream that ends before the
    frame is complete (any proper prefix of the frame) it returns nothing,
    so the attempt fails. *)
Theorem receive_frames_the_stream :
  forall tid u fc d buf,
    ModbusTCPFrame.build_request tid u fc d = Ok buf ->
    (forall extra, TcpMaster.receive (buf ++ extra) = Some buf) /\
    (forall k, (k < List.length buf)%nat ->
               TcpMaster.receive (firstn k buf) = None).
Proof.
  intros tid u fc d buf Hb. split.
  - intros extra. exact (receive_built_frame tid u fc d buf extra Hb).
  - intros k Hk. exact (receive_truncated_frame tid u fc d buf k Hb Hk).
Qed.

Lemma receive_frames_the_stream_witness :
  TcpMaster.receive ([0; 7; 0; 0; 0; 6; 1; 3; 0; 0; 0; 2] ++ [9; 9]) =
    Some [0; 7; 0; 0; 0; 6; 1; 3; 0; 0; 0; 2] /\
  TcpMaster.receive (firstn 11 [0; 7; 0; 0; 0; 6; 1; 3; 0; 0; 0; 2]) = None.
Proof.
  destruct (receive_frames_the_stream 7 1 3 [0; 0; 0; 2]
              [0; 7; 0; 0; 0; 6; 1; 3; 0; 0; 0; 2]) as [H1 H2].
  - reflexivity.
  - split; [apply H1|apply H2; cbn; lia].
Defined.

(** ** The retry loop *)





(** ** Transaction identifiers *)

Lemma next_id_shift a b :
  ((a + 1) mod 65536 + b + 1) mod 65536 = (a + (b + 1) + 1) mod 65536.
Proof.
  replace ((a + 1) mod 65536 + b + 1) with ((a + 1) mod 65536 + (b + 1))
    by lia.
  rewrite Z.add_mod_idemp_l by lia. f_equal. lia.
Qed.

Lemma allocate_nth n :
  forall m k,
    (k < n)%nat ->
    nth_error (snd (allocate n m)) k =
      Some ((TcpMaster._transaction_id m + Z.of_nat k + 1) mod 65536).
Proof.
  induction n as [|n IH]; intros m k Hk; [lia|].
  cbn [allocate]. unfold TcpMaster._get_transaction_id.
  destruct (allocate n (TcpMaster.mk ((TcpMaster._transaction_id m + 1)
                                      mod 65536))) as [m2 tids] eqn:Ha.
  cbn [snd]. destruct k as [|k].
  - cbn [nth_error]. f_equal. f_equal. lia.
  - cbn [nth_error].
    pose proof (IH (TcpMaster.mk ((TcpMaster._transaction_id m + 1)
                                  mod 65536)) k ltac:(lia)) as H.
    rewrite Ha in H. cbn [snd TcpMaster._transaction_id] in H. rewrite H.
    rewrite next_id_shift, Nat2Z.inj_succ. f_equal; f_equal; lia.
Qed.

(** X4: transaction identifiers.  The [k]-th of [n] consecutive calls of
    [_get_transaction_id] returns [(start + k) mod 65536] (counting from
    1), so every identifier is in [0, 65535], consecutive identifiers
    differ by one modulo 2^16, a fresh master hands out 1 first, and 0 is
    handed out when the counter wraps after 65535. *)
Theorem transaction_ids_are_consecutive :
  forall n m k,
    (k < n)%nat ->
    exists tid,
      nth_error (snd (allocate n m)) k = Some tid /\
      tid = (TcpMaster._transaction_id m + Z.of_nat k + 1) mod 65536 /\
      0 <= tid <= 65535 /\
      (TcpMaster._transaction_id m = 0 -> k = 0%nat -> tid = 1) /\
      (TcpMaster._transaction_id m + Z.of_nat k = 65535 -> tid = 0) /\
      (forall tid', nth_error (snd (allocate n m)) (S k) = Some tid' ->
                    tid' = (tid + 1) mod 65536).
Proof.
  intros n m k Hk. eexists. split; [apply allocate_nth; exact Hk|].
  split; [reflexivity|].
  pose proof (Z.mod_pos_bound
                (TcpMaster._transaction_id m + Z.of_nat k + 1) 65536
                ltac:(lia)) as Hb.
  split; [lia|]. split; [|split].
  - intros H0 ->. rewrite H0. reflexivity.
  - intros Hw. replace (TcpMaster._transaction_id m + Z.of_nat k + 1)
      with 65536 by lia. reflexivity.
  - intros tid' Hs.
    destruct (Nat.lt_ge_cases (S k) n) as [Hlt|Hge].
    + rewrite (allocate_nth n m (S k) Hlt) in Hs.
      apply (f_equal (fun o => match o with Some z => z | None => 0 end))
        in Hs.
      rewrite <- Hs, Z.add_mod_idemp_l, Nat2Z.inj_succ by lia.
      f_equal; lia.
    + assert (Hlen : List.length (snd (allocate n m)) = n).
      { clear. revert m. induction n as [|n IH]; intros m; [reflexivity|].
        cbn [allocate]. unfold TcpMaster._get_transaction_id.
        specialize (IH (TcpMaster.mk ((TcpMaster._transaction_id m + 1)
                                      mod 65536))).
        destruct (allocate n _) as [m2 tids]. cbn [snd List.length] in *.
        lia. }
      assert (Hnone : nth_error (snd (allocate n m)) (S k) = None)
        by (apply nth_error_None; lia).
      rewrite Hnone in Hs. discriminate.
Qed.

Lemma transaction_ids_are_consecutive_witness :
  exists tid,
    nth_error (snd (allocate 3 (TcpMaster.mk 65534))) 1 = Some tid /\
    tid = 0.
Proof.
  destruct (transaction_ids_are_consecutive 3 (TcpMaster.mk 65534) 1)
    as [tid [Hn [_ [_ [_ [Hw _]]]]]]; [lia|].
  exists tid. split; [exact Hn|]. apply Hw. reflexivity.
Defined.

(** ** CRC-16 and the RTU frame *)

Lemma crc_round_double y : ModbusCRC.crc_round (2 * y) = y.
Proof.
  unfold ModbusCRC.crc_round.
  change (Z.land (2 * y) 0x0001) with (Z.land (2 * y) (Z.ones 1)).
  rewrite Z.land_ones by lia.
  change (2 ^ 1) with 2.
  replace ((2 * y) mod 2) with 0
    by (symmetry; rewrite Z.mul_comm; apply Z.mod_mul; lia).
  cbn [Z.eqb negb]. rewrite Z.shiftr_div_pow2 by lia.
  change (2 ^ 1) with 2. rewrite Z.mul_comm. apply Z.div_mul. lia.
Qed.

Lemma crc_rounds_shift h : ModbusCRC.crc_rounds (256 * h) = h.
Proof.
  unfold ModbusCRC.crc_rounds. cbn [fold_left seq].
  replace (256 * h) with (2 * (2 * (2 * (2 * (2 * (2 * (2 * (2 * h))))))))
    by lia.
  rewrite !crc_round_double. reflexivity.
Qed.

Lemma lxor_low_byte c : Z.lxor c (c mod 256) = 256 * (c / 256).
Proof.
  change 256 with (2 ^ 8). apply Z.bits_inj'. intros n Hn.
  rewrite Z.lxor_spec, (Z.mul_comm (2 ^ 8)).
  destruct (Z.lt_ge_cases n 8) as [Hlo|Hhi].
  - rewrite Z.mod_pow2_bits_low by lia.
    rewrite Z.mul_pow2_bits_low by lia.
    apply xorb_nilpotent.
  - rewrite Z.mod_pow2_bits_high by lia.
    rewrite Z.mul_pow2_bits by lia.
    rewrite Z.div_pow2_bits by lia.
    rewrite xorb_false_r. f_equal. lia.
Qed.

(** Appending the CRC of a byte string, low byte first, gives a string
    whose CRC is 0. *)
Lemma crc_residue data c :
  c = ModbusCRC.calculate_crc data ->
  ModbusCRC.calculate_crc (data ++ [c mod 256; c / 256]) = 0.
Proof.
  intros Hc. unfold ModbusCRC.calculate_crc in *.
  rewrite fold_left_app. cbn [fold_left]. rewrite <- Hc.
  unfold ModbusCRC.crc_byte at 2.
  rewrite lxor_low_byte, crc_rounds_shift.
  unfold ModbusCRC.crc_byte. rewrite Z.lxor_nilpotent.
  change 0 with (256 * 0) at 1. apply crc_rounds_shift.
Qed.

Lemma rtu_build_request_bytes slave fc data request :
  RtuMaster._build_request slave fc data = Ok request ->
  let crc := ModbusCRC.calculate_crc (slave :: fc :: data) in
  request = slave :: fc :: data ++ [crc mod 256; crc / 256] /\
  0 <= slave <= 255 /\ 0 <= fc <= 255 /\ 0 <= crc <= 65535.
Proof.
  intros Hb. cbv zeta. unfold RtuMaster._build_request in Hb.
  apply bind_ok in Hb. destruct Hb as [h [Hh Hb]].
  apply bind_ok in Hb. destruct Hb as [c [Hc Hb]].
  injection Hb as <-.
  unfold struct.pack_BB in Hh.
  apply bind_ok in Hh. destruct Hh as [x [Hx Hh]].
  apply bind_ok in Hh. destruct Hh as [y [Hy Hh]].
  injection Hh as <-.
  pose proof (pack_B_inv _ _ Hx) as Hs. pose proof (pack_B_inv _ _ Hy) as Hf.
  rewrite (pack_B_ok slave Hs) in Hx. rewrite (pack_B_ok fc Hf) in Hy.
  injection Hx as <-. injection Hy as <-.
  cbn [app] in Hc |- *.
  unfold struct.pack_H_le in Hc.
  destruct (Z.leb_spec 0 (ModbusCRC.calculate_crc (slave :: fc :: data)));
    destruct (Z.leb_spec (ModbusCRC.calculate_crc (slave :: fc :: data))
                65535);
    cbn [andb] in Hc; try discriminate.
  injection Hc as <-. repeat split; try lia.
Qed.

(** X5: every frame [RtuMaster._build_request] builds ends with the CRC
    of what precedes it, low byte first, so that the CRC of the whole frame
    is 0 and [verify_crc] accepts the frame body with the value its two
    trailing bytes encode. *)
Theorem rtu_request_crc_residue :
  forall slave fc data request,
    RtuMaster._build_request slave fc data = Ok request ->
    ModbusCRC.calculate_crc request = 0 /\
    exists lo hi,
      request = slave :: fc :: data ++ [lo; hi] /\
      ModbusCRC.verify_crc (slave :: fc :: data) (256 * hi + lo) = true.
Proof.
  intros slave fc data request Hb.
  destruct (rtu_build_request_bytes slave fc data request Hb)
    as [-> [Hs [Hf Hc]]].
  split.
  - exact (crc_residue (slave :: fc :: data) _ eq_refl).
  - eexists. eexists. split; [reflexivity|].
    unfold ModbusCRC.verify_crc. apply Z.eqb_eq.
    symmetry. apply div_mod_256.
Qed.

Lemma rtu_request_crc_residue_witness :
  ModbusCRC.calculate_crc [1; 4; 2; 255; 255; 0xB8; 0x80] = 0.
Proof.
  destruct (rtu_request_crc_residue 1 4 [2; 255; 255]
              [1; 4; 2; 255; 255; 0xB8; 0x80]) as [H _].
  - reflexivity.
  - exact H.
Defined.

(** X6: the CRC of a byte string is a 16-bit value, so that packing it
    with [struct.pack('<H', crc)] cannot fail, and from byte strings that
    are bytes the RTU master builds a request for every slave address and
    function code in [0, 255]. *)
Theorem crc_is_16_bit :
  forall data,
    is_bytes data ->
    0 <= ModbusCRC.calculate_crc data <= 0xFFFF /\
    (forall slave fc,
        0 <= slave <= 255 -> 0 <= fc <= 255 ->
        exists lo hi,
          0 <= lo <= 255 /\ 0 <= hi <= 255 /\
          RtuMaster._build_request slave fc data =
            Ok (slave :: fc :: data ++ [lo; hi])).
Proof.
  intros data Hd. split; [exact (calculate_crc_range data Hd)|].
  intros slave fc Hs Hf.
  destruct (rtu_build_request_ok slave fc data Hs Hf Hd) as [request Hb].
  destruct (rtu_build_request_bytes slave fc data request Hb)
    as [Hr [_ [_ Hc]]].
  destruct (pack_H_bytes _ Hc) as [Hhi Hlo].
  eexists. eexists. split; [exact Hlo|]. split; [exact Hhi|].
  rewrite Hb, Hr. reflexivity.
Qed.

Lemma crc_is_16_bit_witness :
  0 <= ModbusCRC.calculate_crc [1; 3; 0; 0; 0; 1] <= 0xFFFF.
Proof.
  destruct (crc_is_16_bit [1; 3; 0; 0; 0; 1]) as [H _].
  - repeat (apply Forall_cons; [unfold is_byte; lia|]). apply Forall_nil.
  - exact H.
Defined.

Lemma rtu_parse_frame_bytes slave fc data lo hi :
  RtuMaster._parse_response (slave :: fc :: data ++ [lo; hi]) slave =
    if (List.length data <? 1)%nat then None
    else if negb (256 * hi + lo
                  =? ModbusCRC.calculate_crc (slave :: fc :: data))
         then None
         else Some (fc, data).
Proof.
  unfold RtuMaster._parse_response.
  cbn [List.length]. rewrite length_app. cbn [List.length].
  destruct (Nat.ltb_spec (List.length data) 1) as [Hs|Hs].
  - replace (S (S (List.length data + 2)) <? 5)%nat with true
      by (symmetry; apply Nat.ltb_lt; lia).
    reflexivity.
  - replace (S (S (List.length data + 2)) <? 5)%nat with false
      by (symmetry; apply Nat.ltb_ge; lia).
    cbn [nth]. rewrite Z.eqb_refl. cbn [negb].
    replace (S (S (List.length data + 2)) - 2)%nat
      with (S (S (List.length data))) by lia.
    cbn [skipn firstn].
    rewrite skipn_app, skipn_all, Nat.sub_diag. cbn [skipn app].
    rewrite firstn_app, firstn_all, Nat.sub_diag. cbn [firstn].
    rewrite app_nil_r. cbn [struct.unpack_H_le].
    destruct (negb _); [reflexivity|].
    unfold slice. cbn [skipn].
    replace (S (S (List.length data)) - 2)%nat with (List.length data) by lia.
    rewrite firstn_app, firstn_all, Nat.sub_diag. cbn [firstn].
    rewrite app_nil_r. reflexivity.
Qed.

Lemma split_last_two (l : bytes) :
  (2 <= List.length l)%nat ->
  exists body lo hi, l = body ++ [lo; hi].
Proof.
  intros Hl.
  exists (firstn (List.length l - 2) l).
  pose proof (firstn_skipn (List.length l - 2) l) as Hsplit.
  assert (Hlen : List.length (skipn (List.length l - 2) l) = 2%nat)
    by (rewrite length_skipn; lia).
  destruct (skipn (List.length l - 2) l) as [|lo [|hi [|x t]]];
    cbn in Hlen; try lia.
  exists lo, hi. symmetry. exact Hsplit.
Qed.

(** X7: the RTU frame round trip.  On byte strings,
    [RtuMaster._parse_response] accepts exactly the frames that
    [_build_request] builds for that slave with a non-empty body and
    returns their function code and body; a frame with an empty body (4
    bytes) is rejected although its CRC is right. *)
Theorem rtu_frame_roundtrip :
  forall response slave fc data,
    is_bytes response ->
    (RtuMaster._parse_response response slave = Some (fc, data) <->
     (1 <= List.length data)%nat /\
     RtuMaster._build_request slave fc data = Ok response) /\
    (RtuMaster._build_request slave fc [] = Ok response ->
     RtuMaster._parse_response response slave = None).
Proof.
  intros response slave fc data Hbytes. split; [split|].
  - intros Hp.
    assert (Hn : (5 <= List.length response)%nat).
    { unfold RtuMaster._parse_response in Hp.
      destruct (Nat.ltb_spec (List.length response) 5); [discriminate|lia]. }
    destruct (split_last_two response ltac:(lia)) as [body [lo [hi ->]]].
    rewrite length_app in Hn. cbn [List.length] in Hn.
    destruct body as [|r0 [|r1 body]]; cbn [List.length] in Hn; try lia.
    cbn [app] in Hp, Hbytes |- *.
    assert (Hs : r0 = slave).
    { unfold RtuMaster._parse_response in Hp.
      destruct (_ <? 5)%nat; [discriminate|]. cbn [nth] in Hp.
      destruct (Z.eqb_spec r0 slave); [assumption|discriminate]. }
    subst r0. rewrite rtu_parse_frame_bytes in Hp.
    destruct (Nat.ltb_spec (List.length body) 1) as [|Hl]; [discriminate|].
    destruct (Z.eqb_spec (256 * hi + lo)
                (ModbusCRC.calculate_crc (slave :: r1 :: body))) as [Hc|];
      cbn [negb] in Hp; [|discriminate].
    injection Hp as -> ->. split; [exact Hl|].
    apply is_bytes_cons in Hbytes. destruct Hbytes as [Hs Hbytes].
    apply is_bytes_cons in Hbytes. destruct Hbytes as [Hf Hbytes].
    apply Forall_app in Hbytes. destruct Hbytes as [Hd Hcrc].
    apply is_bytes_cons in Hcrc. destruct Hcrc as [Hlo Hcrc].
    apply is_bytes_cons in Hcrc. destruct Hcrc as [Hhi _].
    unfold RtuMaster._build_request, struct.pack_BB.
    rewrite (pack_B_ok slave Hs), (pack_B_ok fc Hf). cbn [bind app].
    rewrite <- Hc. unfold struct.pack_H_le.
    replace (0 <=? 256 * hi + lo) with true
      by (symmetry; apply Z.leb_le; lia).
    replace (256 * hi + lo <=? 65535) with true
      by (symmetry; apply Z.leb_le; lia).
    cbn [andb bind].
    replace ((256 * hi + lo) mod 256) with lo
      by (symmetry; rewrite Z.add_comm, Z.mul_comm, Z.mod_add by lia;
          apply Z.mod_small; lia).
    replace ((256 * hi + lo) / 256) with hi
      by (symmetry; rewrite Z.add_comm, Z.mul_comm, Z.div_add by lia;
          rewrite Z.div_small by lia; lia).
    reflexivity.
  - intros [Hl Hb].
    destruct (rtu_build_request_bytes slave fc data response Hb)
      as [-> [Hs [Hf Hc]]].
    rewrite rtu_parse_frame_bytes.
    replace (List.length data <? 1)%nat with false
      by (symmetry; apply Nat.ltb_ge; lia).
    rewrite div_mod_256, Z.eqb_refl. reflexivity.
  - intros Hb.
    destruct (rtu_build_request_bytes slave fc [] response Hb)
      as [-> _].
    rewrite rtu_parse_frame_bytes. reflexivity.
Qed.

Lemma rtu_frame_roundtrip_witness :
  RtuMaster._parse_response [1; 4; 2; 255; 255; 0xB8; 0x80] 1 =
    Some (4, [2; 255; 255]).
Proof.
  destruct (rtu_frame_roundtrip [1; 4; 2; 255; 255; 0xB8; 0x80] 1 4
              [2; 255; 255]) as [[_ H] _].
  - repeat (apply Forall_cons; [unfold is_byte; lia|]). apply Forall_nil.
  - apply H. split; [cbn; lia|reflexivity].
Defined.

(** ** Dictionaries *)

Section DictFacts.
Context {K V : Type} (eqb : K -> K -> bool).
Hypothesis eqb_spec : forall a b, reflect (a = b) (eqb a b).

Lemma dict_get_set (d : list (K * V)) k v q :
  dict.get eqb (dict.set eqb d k v) q =
    if eqb k q then Some v else dict.get eqb d q.
Proof.
  induction d as [|[k' v'] rest IH]; cbn.
  - reflexivity.
  - destruct (eqb_spec k' k) as [->|Hne]; cbn.
    + destruct (eqb k q); reflexivity.
    + rewrite IH.
      destruct (eqb_spec k' q) as [->|Hne'].
      * destruct (eqb_spec k q) as [->|]; [contradiction|reflexivity].
      * reflexivity.
Qed.

Lemma dict_get_in (d : list (K * V)) k v :
  dict.get eqb d k = Some v -> In (k, v) d.
Proof.
  induction d as [|[k' v'] rest IH]; cbn; [discriminate|].
  destruct (eqb_spec k' k) as [->|Hne].
  - intros H. injection H as <-. left. reflexivity.
  - intros H. right. apply IH. exact H.
Qed.

Lemma dict_get_none_keys (d : list (K * V)) k :
  dict.get eqb d k = None -> ~ In k (map fst d).
Proof.
  induction d as [|[k' v'] rest IH]; cbn; [tauto|].
  destruct (eqb_spec k' k) as [->|Hne]; [discriminate|].
  intros H [Heq|Hin]; [contradiction|]. exact (IH H Hin).
Qed.

Lemma dict_in_get (d : list (K * V)) k v :
  unique_keys d -> In (k, v) d -> dict.get eqb d k = Some v.
Proof.
  unfold unique_keys.
  induction d as [|[k' v'] rest IH]; cbn; [tauto|].
  intros Hnd [Heq|Hin].
  - injection Heq as -> ->. destruct (eqb_spec k k); [reflexivity|tauto].
  - inversion Hnd as [|? ? Hnot Hnd']; subst.
    destruct (eqb_spec k' k) as [->|Hne].
    + exfalso. apply Hnot. apply (in_map fst) in Hin. exact Hin.
    + apply IH; assumption.
Qed.

Lemma dict_set_same (d : list (K * V)) k v :
  dict.get eqb d k = Some v -> dict.set eqb d k v = d.
Proof.
  induction d as [|[k' v'] rest IH]; cbn; [discriminate|].
  destruct (eqb_spec k' k) as [->|Hne].
  - intros H. injection H as <-. reflexivity.
  - intros H. rewrite (IH H). reflexivity.
Qed.

Lemma dict_set_keys_present (d : list (K * V)) k v v0 :
  dict.get eqb d k = Some v0 ->
  map fst (dict.set eqb d k v) = map fst d.
Proof.
  induction d as [|[k' v'] rest IH]; cbn; [discriminate|].
  destruct (eqb_spec k' k) as [->|Hne]; [reflexivity|].
  intros H. cbn. rewrite (IH H). reflexivity.
Qed.

Lemma dict_set_keys_absent (d : list (K * V)) k v :
  dict.get eqb d k = None ->
  map fst (dict.set eqb d k v) = map fst d ++ [k].
Proof.
  induction d as [|[k' v'] rest IH]; cbn; [reflexivity|].
  destruct (eqb_spec k' k) as [->|Hne]; [discriminate|].
  intros H. cbn. rewrite (IH H). reflexivity.
Qed.

Lemma dict_set_unique (d : list (K * V)) k v :
  unique_keys d -> unique_keys (dict.set eqb d k v).
Proof.
  unfold unique_keys. intros Hnd.
  destruct (dict.get eqb d k) as [v0|] eqn:Hg.
  - rewrite (dict_set_keys_present d k v v0 Hg). exact Hnd.
  - rewrite (dict_set_keys_absent d k v Hg).
    apply NoDup_app; [exact Hnd|constructor; [tauto|constructor]|].
    intros x Hx [Hk|[]]. subst x.
    exact (dict_get_none_keys d k Hg Hx).
Qed.

Lemma dict_set_Forall (P : K * V -> Prop) (d : list (K * V)) k v :
  Forall P d -> (forall k', P (k', v)) -> Forall P (dict.set eqb d k v).
Proof.
  intros Hd Hv. induction Hd as [|[k' v'] rest Hh Ht IH]; cbn.
  - constructor; [apply Hv|constructor].
  - destruct (eqb k' k); constructor; auto.
Qed.

Lemma dict_get_del (d : list (K * V)) k q :
  unique_keys d ->
  dict.get eqb (dict.del eqb d k) q =
    if eqb k q then None else dict.get eqb d q.
Proof.
  unfold unique_keys.
  induction d as [|[k' v'] rest IH]; cbn; intros Hnd.
  - destruct (eqb k q); reflexivity.
  - inversion Hnd as [|? ? Hnot Hnd']; subst.
    destruct (eqb_spec k' k) as [->|Hne].
    + destruct (eqb_spec k q) as [->|Hq]; [|reflexivity].
      destruct (dict.get eqb rest q) as [v|] eqn:Hg; [|reflexivity].
      exfalso. apply Hnot. apply dict_get_in in Hg.
      apply (in_map fst) in Hg. exact Hg.
    + cbn. rewrite (IH Hnd').
      destruct (eqb_spec k' q) as [->|Hq'].
      * destruct (eqb_spec k q) as [->|]; [contradiction|reflexivity].
      * reflexivity.
Qed.

Lemma dict_del_keys_incl (d : list (K * V)) k x :
  In x (map fst (dict.del eqb d k)) -> In x (map fst d).
Proof.
  induction d as [|[k' v'] rest IH]; cbn; [tauto|].
  destruct (eqb k' k); cbn; [tauto|].
  intros [H|H]; [left; exact H|right; exact (IH H)].
Qed.

Lemma dict_del_unique (d : list (K * V)) k :
  unique_keys d -> unique_keys (dict.del eqb d k).
Proof.
  unfold unique_keys.
  induction d as [|[k' v'] rest IH]; cbn; intros Hnd; [constructor|].
  inversion Hnd as [|? ? Hnot Hnd']; subst.
  destruct (eqb k' k); [exact Hnd'|].
  cbn. constructor; [|exact (IH Hnd')].
  intros Hin. apply Hnot. exact (dict_del_keys_incl rest k k' Hin).
Qed.

End DictFacts.

Lemma string_eqb_spec a b : reflect (a = b) (String.eqb a b).
Proof. apply String.eqb_spec. Qed.

Lemma z_eqb_spec a b : reflect (a = b) (Z.eqb a b).
Proof. apply Z.eqb_spec. Qed.

(** ** Reading back what was written *)

Lemma read_back_nth b address values k :
  nth_error (read_back b address values) k =
    if (k <? List.length values)%nat then
      Some (let idx := address - Databank.starting_address b + Z.of_nat k in
            if (0 <=? idx) && (idx <? Databank.size b)
            then Databank.stored (Databank.block_type b)
                   (nth k values (VBool false))
            else Databank.default (Databank.block_type b))
    else None.
Proof.
  unfold read_back. rewrite nth_error_map, nth_error_seq.
  destruct (k <? List.length values)%nat; reflexivity.
Qed.

Lemma read_back_in_range b address values :
  Databank.starting_address b <= address /\
  address + Z.of_nat (List.length values)
  <= Databank.starting_address b + Databank.size b ->
  read_back b address values =
    map (Databank.stored (Databank.block_type b)) values.
Proof.
  intros [Hlo Hhi]. apply nth_error_ext. intros k.
  rewrite read_back_nth, nth_error_map.
  destruct (Nat.ltb_spec k (List.length values)) as [Hk|Hk].
  - rewrite (nth_error_nth' values (VBool false) Hk).
    cbn [option_map]. cbv zeta.
    replace (0 <=? address - Databank.starting_address b + Z.of_nat k)
      with true by (symmetry; apply Z.leb_le; lia).
    replace (address - Databank.starting_address b + Z.of_nat k
             <? Databank.size b) with true
      by (symmetry; apply Z.ltb_lt; lia).
    reflexivity.
  - replace (nth_error values k) with (@None pyval)
      by (symmetry; apply nth_error_None; lia).
    reflexivity.
Qed.

Lemma write_then_read_block b address values :
  block_inv b ->
  exists b',
    Databank.set_values b address values = (b', Ok tt) /\
    block_inv b' /\
    Databank.block_type b' = Databank.block_type b /\
    Databank.starting_address b' = Databank.starting_address b /\
    Databank.size b' = Databank.size b /\
    Databank.get_values b' address (Z.of_nat (List.length (as_list values)))
      = Ok (read_back b address (as_list values)).
Proof.
  intros Hinv.
  destruct (set_values_from_spec address (as_list values) b 0%nat Hinv)
    as [b' [Hrun [Hinv' [Hbt [Hst [Hsz Hnth]]]]]].
  exists b'. split; [exact Hrun|]. split; [exact Hinv'|].
  split; [exact Hbt|]. split; [exact Hst|]. split; [exact Hsz|].
  assert (Hidx : block_indexable b')
    by (destruct Hinv' as [Hl _];
        unfold block_indexable, block_length_ok in *; lia).
  unfold Databank.get_values. rewrite Nat2Z.id.
  destruct (get_values_from_spec b' address Hidx
              (List.length (as_list values)) 0%nat)
    as [res [Hres [Hl Hel]]].
  rewrite Hres. f_equal. apply nth_error_ext. intros k.
  rewrite read_back_nth.
  destruct (Nat.ltb_spec k (List.length (as_list values))) as [Hk|Hk].
  - rewrite (Hel k Hk). f_equal. unfold element.
    rewrite Hst, Hsz, Hbt. cbn [Nat.add]. cbv zeta.
    destruct ((0 <=? address - Databank.starting_address b + Z.of_nat k)
              && (address - Databank.starting_address b + Z.of_nat k
                  <? Databank.size b)) eqn:G; [|reflexivity].
    apply andb_prop in G. destruct G as [G1 G2].
    apply Z.leb_le in G1. apply Z.ltb_lt in G2.
    apply nth_error_nth. rewrite Hnth. cbv zeta.
    rewrite Z2Nat.id by lia.
    replace (address - Databank.starting_address b + Z.of_nat k
             - (address - Databank.starting_address b + Z.of_nat 0))
      with (Z.of_nat k) by (cbn; lia).
    rewrite Nat2Z.id.
    replace (0 <=? Z.of_nat k) with true by (symmetry; apply Z.leb_le; lia).
    replace (Z.of_nat k <? Z.of_nat (List.length (as_list values)))
      with true by (symmetry; apply Z.ltb_lt; lia).
    replace (address - Databank.starting_address b + Z.of_nat k
             <? Databank.size b) with true
      by (symmetry; apply Z.ltb_lt; lia).
    cbn [andb].
    rewrite (nth_error_nth' (as_list values) (VBool false) Hk).
    reflexivity.
  - apply nth_error_None. lia.
Qed.

(** X8: reading back a write.  On a block that satisfies the block
    invariant, [set_values] followed by [get_values] at the same address
    with the number of values written returns, position by position, the
    stored form of the value written ([bool(value)] or [value & 0xFFFF])
    where the index lies in the block, and the kind's default where it
    does not: the part of a write that falls outside the block is lost. *)
Theorem write_then_read :
  forall b address values,
    block_inv b ->
    exists b',
      Databank.set_values b address values = (b', Ok tt) /\
      Databank.get_values b' address (Z.of_nat (List.length (as_list values)))
        = Ok (read_back b address (as_list values)) /\
      ((Databank.starting_address b <= address /\
        address + Z.of_nat (List.length (as_list values))
        <= Databank.starting_address b + Databank.size b) ->
       read_back b address (as_list values) =
         map (Databank.stored (Databank.block_type b)) (as_list values)).
Proof.
  intros b address values Hinv.
  destruct (write_then_read_block b address values Hinv)
    as [b' [Hrun [_ [_ [_ [_ Hget]]]]]].
  exists b'. split; [exact Hrun|]. split; [exact Hget|].
  apply read_back_in_range.
Qed.

Lemma write_then_read_witness :
  exists b',
    Databank.set_values (Databank.init defines.HOLDING_REGISTERS 10 4) 12
      (Seq [VInt 0x12345; VInt 7; VInt 9]) = (b', Ok tt) /\
    Databank.get_values b' 12 3 = Ok [VInt 0x2345; VInt 7; VInt 0].
Proof.
  destruct (write_then_read (Databank.init defines.HOLDING_REGISTERS 10 4) 12
              (Seq [VInt 0x12345; VInt 7; VInt 9]))
    as [b' [Hrun [Hget _]]].
  - apply init_block_inv. lia.
  - exists b'. split; [exact Hrun|exact Hget].
Defined.

(** ** The slave's blocks *)

Lemma find_set_found (f : string * Databank.t -> bool)
      (d : list (string * Databank.t)) name b b' :
  unique_keys d ->
  find f d = Some (name, b) ->
  f (name, b') = true ->
  find f (dict.set String.eqb d name b') = Some (name, b').
Proof.
  unfold unique_keys.
  induction d as [|[k v] rest IH]; cbn; intros Hnd Hf Hb'; [discriminate|].
  inversion Hnd as [|? ? Hnot Hnd']; subst.
  destruct (f (k, v)) eqn:Hkv.
  - injection Hf as -> ->. rewrite String.eqb_refl. cbn. rewrite Hb'.
    reflexivity.
  - destruct (String.eqb_spec k name) as [->|Hne].
    + exfalso. apply Hnot. apply find_some in Hf. destruct Hf as [Hin _].
      apply (in_map fst) in Hin. exact Hin.
    + cbn. rewrite Hkv. apply IH; assumption.
Qed.

Lemma slave_inv_set s name b' :
  slave_inv s -> block_inv b' ->
  slave_inv (Slave.mk (Slave.slave_id s)
               (dict.set String.eqb (Slave.blocks s) name b')).
Proof.
  intros Hs Hb. unfold slave_inv in *. cbn [Slave.blocks].
  apply dict_set_Forall; [exact Hs|]. intros k'. exact Hb.
Qed.

Lemma set_by_type_found s bt address values name block :
  slave_inv s -> unique_keys (Slave.blocks s) ->
  Slave._find_block s bt address = Some (name, block) ->
  exists s',
    Slave._set_values_by_type s bt address values = (s', Ok true) /\
    slave_inv s' /\ unique_keys (Slave.blocks s') /\
    Slave._get_values_by_type s' bt address
      (Z.of_nat (List.length (as_list values)))
      = Ok (read_back block address (as_list values)).
Proof.
  intros Hinv Huniq Hfind.
  pose proof Hfind as Hfind'. unfold Slave._find_block in Hfind'.
  apply find_some in Hfind'. destruct Hfind' as [Hin Hcov].
  assert (Hb : block_inv block).
  { unfold slave_inv in Hinv. rewrite Forall_forall in Hinv.
    exact (Hinv _ Hin). }
  destruct (write_then_read_block block address values Hb)
    as [b' [Hrun [Hinv' [Hbt [Hst [Hsz Hget]]]]]].
  unfold Slave._set_values_by_type. rewrite Hfind, Hrun. cbn [bind].
  eexists. split; [reflexivity|].
  split; [exact (slave_inv_set s name b' Hinv Hinv')|].
  split; [apply (dict_set_unique String.eqb string_eqb_spec); exact Huniq|].
  unfold Slave._get_values_by_type, Slave._find_block. cbn [Slave.blocks].
  rewrite (find_set_found _ _ name block b' Huniq Hfind).
  - exact Hget.
  - unfold Slave.covers in *. cbn [snd] in *. rewrite Hbt, Hst, Hsz.
    exact Hcov.
Qed.

Lemma set_by_type_missing s bt address values :
  Slave._find_block s bt address = None ->
  Slave._set_values_by_type s bt address values = (s, Ok false) /\
  Slave._get_values_by_type s bt address
    (Z.of_nat (List.length (as_list values)))
    = Ok (repeat (Databank.default bt) (List.length (as_list values))).
Proof.
  intros Hnone. unfold Slave._set_values_by_type, Slave._get_values_by_type.
  rewrite Hnone. split; [reflexivity|].
  rewrite Nat2Z.id. unfold Databank.default.
  destruct (defines.is_bit_type bt); reflexivity.
Qed.

(** X9: a write by type followed by a read by type.  When a block of
    the kind covers the address, [_set_values_by_type] reports [True] and a
    following [_get_values_by_type] at the same address returns what was
    written (stored form inside the block, defaults past its end); the
    slave keeps its invariant.  When no block of the kind covers the
    address, the write reports [False] and changes nothing, and the read
    returns defaults. *)
Theorem write_then_read_by_type :
  forall s block_type address values,
    slave_inv s -> unique_keys (Slave.blocks s) ->
    (forall name block,
        Slave._find_block s block_type address = Some (name, block) ->
        exists s',
          Slave._set_values_by_type s block_type address values
            = (s', Ok true) /\
          slave_inv s' /\ unique_keys (Slave.blocks s') /\
          Slave._get_values_by_type s' block_type address
            (Z.of_nat (List.length (as_list values)))
            = Ok (read_back block address (as_list values))) /\
    (Slave._find_block s block_type address = None ->
     Slave._set_values_by_type s block_type address values = (s, Ok false) /\
     Slave._get_values_by_type s block_type address
       (Z.of_nat (List.length (as_list values)))
       = Ok (repeat (Databank.default block_type)
               (List.length (as_list values)))).
Proof.
  intros s bt address values Hinv Huniq. split.
  - intros name block Hfind.
    exact (set_by_type_found s bt address values name block Hinv Huniq Hfind).
  - exact (set_by_type_missing s bt address values).
Qed.

Lemma write_then_read_by_type_witness :
  let s := Slave.add_block (Slave.init 1) "h" defines.HOLDING_REGISTERS 10 4 in
  exists s',
    Slave._set_values_by_type s defines.HOLDING_REGISTERS 12
      (Seq [VInt 5; VInt 6; VInt 7]) = (s', Ok true) /\
    Slave._get_values_by_type s' defines.HOLDING_REGISTERS 12 3
      = Ok [VInt 5; VInt 6; VInt 0].
Proof.
  cbv zeta.
  destruct (write_then_read_by_type
              (Slave.add_block (Slave.init 1) "h"
                 defines.HOLDING_REGISTERS 10 4)
              defines.HOLDING_REGISTERS 12 (Seq [VInt 5; VInt 6; VInt 7]))
    as [Hfound _].
  - unfold slave_inv. cbn [Slave.add_block Slave.init Slave.blocks dict.set].
    apply Forall_cons; [apply init_block_inv; lia|apply Forall_nil].
  - unfold unique_keys. cbn. constructor; [tauto|constructor].
  - destruct (Hfound "h"%string
                (Databank.init defines.HOLDING_REGISTERS 10 4) eq_refl)
      as [s' [Hset [_ [_ Hget]]]].
    exists s'. split; [exact Hset|exact Hget].
Defined.

(** X10: forgetting blocks.  After [remove_block] the name is not
    registered any more, so reads by that name return the empty list and
    writes do nothing, while every other name keeps its block; removing a
    name that is not registered leaves the slave as it is, and after
    [remove_all_blocks] no name is registered. *)
Theorem remove_block_forgets :
  forall s block_name,
    unique_keys (Slave.blocks s) ->
    let s' := Slave.remove_block s block_name in
    (forall address count,
        Slave.get_values s' block_name address count = Ok []) /\
    (forall address values,
        Slave.set_values s' block_name address values = (s', Ok tt)) /\
    (forall q, q <> block_name ->
               dict.get String.eqb (Slave.blocks s') q =
                 dict.get String.eqb (Slave.blocks s) q) /\
    unique_keys (Slave.blocks s') /\
    (dict.contains String.eqb (Slave.blocks s) block_name = false -> s' = s) /\
    (forall q, dict.get String.eqb
                 (Slave.blocks (Slave.remove_all_blocks s)) q = None).
Proof.
  intros s name Huniq. cbv zeta.
  assert (Hget : forall q,
             dict.get String.eqb (Slave.blocks (Slave.remove_block s name)) q
             = if String.eqb name q then None
               else dict.get String.eqb (Slave.blocks s) q).
  { intros q. unfold Slave.remove_block, dict.contains.
    destruct (dict.get String.eqb (Slave.blocks s) name) as [b|] eqn:Hn.
    - cbn [Slave.blocks].
      apply (dict_get_del String.eqb string_eqb_spec). exact Huniq.
    - destruct (String.eqb_spec name q) as [<-|]; [exact Hn|reflexivity]. }
  assert (Hname : dict.get String.eqb
                    (Slave.blocks (Slave.remove_block s name)) name = None)
    by (rewrite Hget, String.eqb_refl; reflexivity).
  split; [|split; [|split; [|split; [|split]]]].
  - intros address count. unfold Slave.get_values. rewrite Hname.
    reflexivity.
  - intros address values. unfold Slave.set_values. rewrite Hname.
    reflexivity.
  - intros q Hq. rewrite Hget.
    destruct (String.eqb_spec name q) as [<-|]; [contradiction|reflexivity].
  - unfold Slave.remove_block.
    destruct (dict.contains String.eqb (Slave.blocks s) name);
      [|exact Huniq].
    cbn [Slave.blocks].
    apply (dict_del_unique String.eqb). exact Huniq.
  - intros Hc. unfold Slave.remove_block. rewrite Hc. reflexivity.
  - intros q. reflexivity.
Qed.

Lemma remove_block_forgets_witness :
  let s := Slave.add_block
             (Slave.add_block (Slave.init 1) "a" defines.COILS 0 8)
             "b" defines.COILS 8 8 in
  Slave.get_values (Slave.remove_block s "a") "a" 0 4 = Ok [] /\
  dict.get String.eqb (Slave.blocks (Slave.remove_block s "a")) "b"%string =
    Some (Databank.init defines.COILS 8 8).
Proof.
  cbv zeta.
  destruct (remove_block_forgets
              (Slave.add_block
                 (Slave.add_block (Slave.init 1) "a" defines.COILS 0 8)
                 "b" defines.COILS 8 8) "a")
    as [Hget [_ [Hother _]]].
  - unfold unique_keys. cbn.
    constructor; [cbn; intros [H|[]]; discriminate|].
    constructor; [tauto|constructor].
  - split; [apply Hget|].
    rewrite Hother by discriminate. reflexivity.
Defined.

(** ** The server's slaves *)

(** X11: the slave registry of the TCP server.  [add_slave] binds the
    identifier to a fresh slave without blocks, replacing (with all its
    blocks) a slave already registered under it, and leaves the other
    identifiers alone; [remove_slave] unbinds the identifier and only it;
    a request addressed to an identifier that is not bound changes
    nothing. *)
Theorem slave_registry :
  forall srv slave_id,
    (forall q,
        TcpServer.get_slave (fst (TcpServer.add_slave srv slave_id)) q =
          if slave_id =? q then Some (Slave.init slave_id)
          else TcpServer.get_slave srv q) /\
    snd (TcpServer.add_slave srv slave_id) = Slave.init slave_id /\
    (unique_keys (TcpServer._slaves srv) ->
     forall q,
       TcpServer.get_slave (TcpServer.remove_slave srv slave_id) q =
         if slave_id =? q then None else TcpServer.get_slave srv q) /\
    (forall request frame,
        ModbusTCPFrame.parse_frame request = Some frame ->
        ModbusTCPFrame.unit_id frame = slave_id ->
        TcpServer.get_slave srv slave_id = None ->
        fst (TcpServer._process_request srv request) = srv).
Proof.
  intros srv id. split; [|split; [|split]].
  - intros q. unfold TcpServer.get_slave, TcpServer.add_slave.
    cbn [fst TcpServer._slaves].
    apply (dict_get_set Z.eqb z_eqb_spec).
  - reflexivity.
  - intros Huniq q. unfold TcpServer.get_slave, TcpServer.remove_slave,
      dict.contains.
    destruct (dict.get Z.eqb (TcpServer._slaves srv) id) as [s|] eqn:Hn.
    + cbn [TcpServer._slaves].
      apply (dict_get_del Z.eqb z_eqb_spec). exact Huniq.
    + destruct (Z.eqb_spec id q) as [<-|]; [exact Hn|reflexivity].
  - intros request frame Hp Hu Hn.
    unfold TcpServer._process_request, TcpServer.get_slave in *.
    rewrite Hp, Hu, Hn. reflexivity.
Qed.

Lemma slave_registry_witness :
  TcpServer.get_slave (TcpServer.remove_slave example_server 1) 1 = None.
Proof.
  destruct (slave_registry example_server 1) as [_ [_ [H _]]].
  rewrite H.
  - reflexivity.
  - unfold unique_keys. cbn. constructor; [tauto|constructor].
Defined.

(** ** Every request gets its reply *)

Lemma reply_shape_bind {A : Type} tid uid fc (r : result A)
      (k : A -> result bytes) :
  (forall a, reply_shape tid uid fc (k a)) ->
  reply_shape tid uid fc (bind r k).
Proof. intros H. destruct r as [a|e]; cbn [bind]; [apply H|exact I]. Qed.

Lemma reply_shape_build tid uid fc fc' d :
  fc' = fc \/ fc' = Z.lor fc 0x80 ->
  reply_shape tid uid fc (ModbusTCPFrame.build_request tid uid fc' d).
Proof.
  intros H. unfold reply_shape.
  destruct (ModbusTCPFrame.build_request tid uid fc' d) eqn:Hb; [|exact I].
  exists fc', d. split; [exact Hb|exact H].
Qed.

Ltac shape_side :=
  first [ left; reflexivity
        | right; reflexivity
        | left; symmetry; assumption ].

Ltac shape_step :=
  first
    [ exact I
    | apply reply_shape_build; shape_side
    | apply reply_shape_bind; intros
    | match goal with
      | |- reply_shape _ _ _ (snd (_, _)) => cbn [snd]
      | |- reply_shape _ _ _ (snd (if ?c then _ else _)) => destruct c
      | |- reply_shape _ _ _ (snd (let '(_, _) := ?p in _)) => destruct p
      | |- reply_shape _ _ _ (snd (match ?x with _ => _ end)) => destruct x
      | |- reply_shape _ _ _ (if ?c then _ else _) => destruct c
      | |- reply_shape _ _ _ (let '(_, _) := ?p in _) => destruct p
      | |- reply_shape _ _ _ (match ?x with _ => _ end) => destruct x
      end ].

Lemma dispatch_reply_shape tid pid len uid fc data slave :
  reply_shape tid uid fc
    (snd (TcpServer.dispatch
            (ModbusTCPFrame.mk tid pid len uid fc data) slave)).
Proof.
  unfold TcpServer.dispatch.
  cbn [ModbusTCPFrame.function_code ModbusTCPFrame.transaction_id
         ModbusTCPFrame.unit_id].
  unfold_codes.
  repeat match goal with
         | |- context [if fc =? ?c then _ else _] =>
             destruct (Z.eqb_spec fc c)
         end;
    unfold TcpServer._handle_read_coils,
      TcpServer._handle_read_discrete_inputs,
      TcpServer._handle_read_holding_registers,
      TcpServer._handle_read_input_registers,
      TcpServer._handle_write_single_coil,
      TcpServer._handle_write_single_register,
      TcpServer._handle_write_multiple_coils,
      TcpServer._handle_write_multiple_registers,
      TcpServer.illegal_data_value,
      ModbusTCPFrame.build_error_response,
      ModbusTCPFrame.build_read_coils_response,
      ModbusTCPFrame.build_read_holding_registers_response,
      ModbusTCPFrame.build_write_single_coil_response;
    cbn [ModbusTCPFrame.function_code ModbusTCPFrame.transaction_id
           ModbusTCPFrame.unit_id ModbusTCPFrame.data snd];
    repeat shape_step.
Qed.

Lemma lor_0x80_byte fc : 0 <= fc <= 255 -> 0 <= Z.lor fc 0x80 <= 255.
Proof.
  intros Hf.
  pose proof (lor_bound 8 fc 0x80 ltac:(lia)
                ltac:(change (2 ^ 8) with 256; lia)
                ltac:(change (2 ^ 8) with 256; lia)) as H.
  change (2 ^ 8) with 256 in H. lia.
Qed.

(** X12: the TCP server answers every request that parses.  For every
    byte string that [parse_frame] accepts, whatever the state of the
    server, [_process_request] returns a reply that parses, carries the
    request's transaction id and unit id and protocol id 0, and has the
    request's function code, either as it is (normal response) or with bit
    0x80 set (exception response). *)
Theorem server_reply_correlates :
  forall srv request frame,
    is_bytes request ->
    ModbusTCPFrame.parse_frame request = Some frame ->
    exists reply,
      server_reply srv request = Some reply /\
      ModbusTCPFrame.transaction_id reply
        = ModbusTCPFrame.transaction_id frame /\
      ModbusTCPFrame.unit_id reply = ModbusTCPFrame.unit_id frame /\
      ModbusTCPFrame.protocol_id reply = 0 /\
      (ModbusTCPFrame.function_code reply
         = ModbusTCPFrame.function_code frame \/
       ModbusTCPFrame.function_code reply
         = Z.lor (ModbusTCPFrame.function_code frame) 0x80).
Proof.
  intros srv request frame Hb Hp.
  destruct (parse_frame_fields request frame Hb Hp) as [Ht [Hu [Hf _]]].
  destruct (error_response_parses
              (ModbusTCPFrame.transaction_id frame)
              (ModbusTCPFrame.unit_id frame)
              (ModbusTCPFrame.function_code frame)
              defines.SLAVE_DEVICE_FAILURE Ht Hu (lor_0x80_byte _ Hf))
    as [failure [Hfb Hfp]]; [cbv; split; discriminate|].
  unfold server_reply, TcpServer._process_request. rewrite Hp.
  destruct (dict.get Z.eqb (TcpServer._slaves srv)
              (ModbusTCPFrame.unit_id frame)) as [slave|].
  - destruct frame as [tid pid len uid fc data].
    pose proof (dispatch_reply_shape tid pid len uid fc data slave) as Hs.
    destruct (TcpServer.dispatch _ slave) as [slave' [buf|e]];
      cbn [snd] in *.
    + destruct Hs as [fc' [d [Hbuild Hfc]]].
      rewrite (build_request_parses _ _ _ _ _ Hbuild).
      eexists. split; [reflexivity|].
      cbn [ModbusTCPFrame.transaction_id ModbusTCPFrame.unit_id
             ModbusTCPFrame.protocol_id ModbusTCPFrame.function_code].
      repeat (split; [reflexivity|]). exact Hfc.
    + cbn [ModbusTCPFrame.transaction_id ModbusTCPFrame.unit_id
             ModbusTCPFrame.function_code] in *.
      rewrite Hfb. cbn [bind]. rewrite Hfp.
      eexists. split; [reflexivity|].
      cbn [ModbusTCPFrame.transaction_id ModbusTCPFrame.unit_id
             ModbusTCPFrame.protocol_id ModbusTCPFrame.function_code].
      repeat (split; [reflexivity|]). right. reflexivity.
  - cbn [snd]. rewrite Hfb. cbn [bind]. rewrite Hfp.
    eexists. split; [reflexivity|].
    cbn [ModbusTCPFrame.transaction_id ModbusTCPFrame.unit_id
           ModbusTCPFrame.protocol_id ModbusTCPFrame.function_code].
    repeat (split; [reflexivity|]). right. reflexivity.
Qed.

Lemma server_reply_correlates_witness :
  exists reply,
    server_reply example_server (read_request 3 0 2) = Some reply /\
    ModbusTCPFrame.transaction_id reply = 1 /\
    ModbusTCPFrame.unit_id reply = 1.
Proof.
  destruct (server_reply_correlates example_server (read_request 3 0 2)
              (ModbusTCPFrame.mk 1 0 6 1 3 [0; 0; 0; 2]))
    as [reply [Hr [Ht [Hu _]]]].
  - unfold is_bytes, is_byte. repeat constructor; vm_compute; discriminate.
  - reflexivity.
  - exists reply. split; [exact Hr|]. split; [exact Ht|exact Hu].
Defined.

(** ** What a request can change *)

Lemma map_set_same_image {W : Type} (g : string * Databank.t -> W)
      (d : list (string * Databank.t)) name b b' :
  unique_keys d -> In (name, b) d -> g (name, b') = g (name, b) ->
  map g (dict.set String.eqb d name b') = map g d.
Proof.
  unfold unique_keys.
  induction d as [|[k v] rest IH]; cbn; intros Hnd Hin Hg; [tauto|].
  inversion Hnd as [|? ? Hnot Hnd']; subst.
  destruct (String.eqb_spec k name) as [->|Hne].
  - cbn. f_equal. destruct Hin as [Heq|Hin].
    + injection Heq as ->. exact Hg.
    + exfalso. apply Hnot. apply (in_map fst) in Hin. exact Hin.
  - cbn. f_equal. destruct Hin as [Heq|Hin].
    + injection Heq as -> _. contradiction.
    + apply IH; assumption.
Qed.

(** A write by type keeps the invariant and the layout of the slave. *)
Lemma set_by_type_keeps s bt address values :
  slave_inv s -> unique_keys (Slave.blocks s) ->
  let s' := fst (Slave._set_values_by_type s bt address values) in
  slave_inv s' /\ unique_keys (Slave.blocks s') /\ layout s' = layout s.
Proof.
  intros Hinv Huniq. cbv zeta. unfold Slave._set_values_by_type.
  destruct (Slave._find_block s bt address) as [[name block]|] eqn:Hfind;
    [|repeat split; assumption].
  unfold Slave._find_block in Hfind. apply find_some in Hfind.
  destruct Hfind as [Hin _].
  assert (Hb : block_inv block).
  { unfold slave_inv in Hinv. rewrite Forall_forall in Hinv.
    exact (Hinv _ Hin). }
  destruct (write_then_read_block block address values Hb)
    as [b' [Hrun [Hinv' [Hbt [Hst [Hsz _]]]]]].
  rewrite Hrun. cbn [fst].
  split; [exact (slave_inv_set s name b' Hinv Hinv')|].
  split; [apply (dict_set_unique String.eqb string_eqb_spec); exact Huniq|].
  unfold layout. cbn [Slave.blocks].
  apply (map_set_same_image _ _ name block b' Huniq Hin).
  cbn [fst snd]. rewrite Hbt, Hst, Hsz. reflexivity.
Qed.

Ltac keep_step :=
  match goal with
  | |- context [fst (_, _)] => cbn [fst]
  | |- context [fst (if ?c then _ else _)] => destruct c
  | |- context [fst (let '(_, _) := Slave._set_values_by_type ?s ?t ?a ?v
                     in _)] =>
      let H := fresh "Hkeep" in
      pose proof (set_by_type_keeps s t a v) as H;
      destruct (Slave._set_values_by_type s t a v); cbn [fst] in H
  | |- context [fst (match ?x with _ => _ end)] => destruct x
  end.

Lemma dispatch_keeps frame slave :
  slave_inv slave -> unique_keys (Slave.blocks slave) ->
  let slave' := fst (TcpServer.dispatch frame slave) in
  slave_inv slave' /\ unique_keys (Slave.blocks slave') /\
  layout slave' = layout slave.
Proof.
  intros Hinv Huniq. cbv zeta. unfold TcpServer.dispatch.
  repeat match goal with
         | |- context [if ?fc =? ?c then _ else _] =>
             destruct (Z.eqb_spec fc c)
         end;
    unfold TcpServer._handle_write_single_coil,
      TcpServer._handle_write_single_register,
      TcpServer._handle_write_multiple_coils,
      TcpServer._handle_write_multiple_registers;
    repeat keep_step;
    first [ repeat split; assumption | apply Hkeep; assumption ].
Qed.

Lemma server_inv_get srv id slave :
  server_inv srv ->
  dict.get Z.eqb (TcpServer._slaves srv) id = Some slave ->
  slave_inv slave /\ unique_keys (Slave.blocks slave).
Proof.
  intros [_ Hall] Hg.
  apply (dict_get_in Z.eqb z_eqb_spec) in Hg.
  rewrite Forall_forall in Hall. exact (Hall _ Hg).
Qed.

(** X13: what a request can change.  Processing any request keeps the
    server's invariant (distinct identifiers and names, every block with
    [size] elements of its kind), leaves the set of registered slaves as it
    is, and leaves the layout of every slave as it is: a request never
    creates, removes, renames, moves or resizes a block. *)
Theorem process_request_keeps_layout :
  forall srv request,
    server_inv srv ->
    let srv' := fst (TcpServer._process_request srv request) in
    server_inv srv' /\
    map fst (TcpServer._slaves srv') = map fst (TcpServer._slaves srv) /\
    forall slave_id,
      option_map layout (TcpServer.get_slave srv' slave_id) =
        option_map layout (TcpServer.get_slave srv slave_id).
Proof.
  intros srv request Hinv. cbv zeta. unfold TcpServer._process_request.
  destruct (ModbusTCPFrame.parse_frame request) as [frame|];
    [|cbn [fst]; repeat split; try assumption; apply Hinv].
  destruct (dict.get Z.eqb (TcpServer._slaves srv)
              (ModbusTCPFrame.unit_id frame)) as [slave|] eqn:Hg;
    [|cbn [fst]; repeat split; try assumption; apply Hinv].
  destruct (server_inv_get srv _ slave Hinv Hg) as [Hs Hu].
  pose proof (dispatch_keeps frame slave Hs Hu) as Hkeep. cbv zeta in Hkeep.
  destruct (TcpServer.dispatch frame slave) as [slave' reply].
  cbn [fst] in Hkeep. destruct Hkeep as [Hs' [Hu' Hlay]].
  assert (Hfst : fst (match reply with
                      | Ok response =>
                          (TcpServer.mk
                             (dict.set Z.eqb (TcpServer._slaves srv)
                                (ModbusTCPFrame.unit_id frame) slave'),
                           Ok (Some response))
                      | Raise _ =>
                          (TcpServer.mk
                             (dict.set Z.eqb (TcpServer._slaves srv)
                                (ModbusTCPFrame.unit_id frame) slave'),
                           r <- ModbusTCPFrame.build_error_response
                                  (ModbusTCPFrame.transaction_id frame)
                                  (ModbusTCPFrame.unit_id frame)
                                  (ModbusTCPFrame.function_code frame)
                                  defines.SLAVE_DEVICE_FAILURE ;;
                           Ok (Some r))
                      end)
                 = TcpServer.mk
                     (dict.set Z.eqb (TcpServer._slaves srv)
                        (ModbusTCPFrame.unit_id frame) slave'))
    by (destruct reply; reflexivity).
  rewrite Hfst. clear Hfst. destruct Hinv as [Hkeys Hall].
  split; [split|split].
  - cbn [TcpServer._slaves].
    apply (dict_set_unique Z.eqb z_eqb_spec). exact Hkeys.
  - cbn [TcpServer._slaves]. apply dict_set_Forall; [exact Hall|].
    intros k'. cbn [snd]. split; assumption.
  - cbn [TcpServer._slaves].
    exact (dict_set_keys_present Z.eqb z_eqb_spec _ _ slave' slave Hg).
  - intros id. unfold TcpServer.get_slave. cbn [TcpServer._slaves].
    rewrite (dict_get_set Z.eqb z_eqb_spec).
    destruct (Z.eqb_spec (ModbusTCPFrame.unit_id frame) id) as [<-|];
      [|reflexivity].
    rewrite Hg. cbn [option_map]. rewrite Hlay. reflexivity.
Qed.

Lemma process_request_keeps_layout_witness :
  let srv' :=
    fst (TcpServer._process_request example_server
           [0; 1; 0; 0; 0; 6; 1; 6; 0; 7; 0x12; 0x34]) in
  server_inv srv' /\
  option_map layout (TcpServer.get_slave srv' 1) =
    Some [("c"%string, defines.COILS, 0, 16);
          ("h"%string, defines.HOLDING_REGISTERS, 0, 200)].
Proof.
  cbv zeta.
  destruct (process_request_keeps_layout example_server
              [0; 1; 0; 0; 0; 6; 1; 6; 0; 7; 0x12; 0x34])
    as [Hinv [_ Hlay]].
  - split.
    + unfold unique_keys. cbn. constructor; [tauto|constructor].
    + apply Forall_cons; [|apply Forall_nil]. cbn [snd]. split.
      * unfold slave_inv.
        change (Slave.blocks _)
          with [("c"%string, Databank.init defines.COILS 0 16);
                ("h"%string, Databank.init defines.HOLDING_REGISTERS 0 200)].
        apply Forall_cons; [apply init_block_inv; lia|].
        apply Forall_cons; [apply init_block_inv; lia|]. apply Forall_nil.
      * unfold unique_keys. cbn.
        constructor; [cbn; intros [H|[]]; discriminate|].
        constructor; [tauto|constructor].
  - split; [exact Hinv|]. rewrite Hlay. reflexivity.
Defined.

(** ** Exception replies and single writes *)

Lemma process_registered srv request frame slave slave' r :
  ModbusTCPFrame.parse_frame request = Some frame ->
  dict.get Z.eqb (TcpServer._slaves srv) (ModbusTCPFrame.unit_id frame)
    = Some slave ->
  TcpServer.dispatch frame slave = (slave', r) ->
  TcpServer._process_request srv request =
    (TcpServer.mk (dict.set Z.eqb (TcpServer._slaves srv)
                     (ModbusTCPFrame.unit_id frame) slave'),
     match r with
     | Ok response => Ok (Some response)
     | Raise _ =>
         x <- ModbusTCPFrame.build_error_response
                (ModbusTCPFrame.transaction_id frame)
                (ModbusTCPFrame.unit_id frame)
                (ModbusTCPFrame.function_code frame)
                defines.SLAVE_DEVICE_FAILURE ;;
         Ok (Some x)
     end).
Proof.
  intros Hp Hg Hd. unfold TcpServer._process_request.
  rewrite Hp, Hg, Hd. destruct r; reflexivity.
Qed.

Lemma server_set_same srv id slave :
  dict.get Z.eqb (TcpServer._slaves srv) id = Some slave ->
  TcpServer.mk (dict.set Z.eqb (TcpServer._slaves srv) id slave) = srv.
Proof.
  intros Hg. rewrite (dict_set_same Z.eqb z_eqb_spec _ _ _ Hg).
  destruct srv. reflexivity.
Qed.

(** X14: requests the server cannot route.  A request for a unit that
    is not registered is answered with the exception SLAVE_DEVICE_FAILURE
    (4), and a request with a function code outside the eight supported
    ones, to a registered unit, with ILLEGAL_FUNCTION (1); both leave the
    server as it is. *)
Theorem unroutable_requests :
  forall srv request frame,
    is_bytes request ->
    ModbusTCPFrame.parse_frame request = Some frame ->
    (TcpServer.get_slave srv (ModbusTCPFrame.unit_id frame) = None ->
     server_reply srv request =
       Some (exception_reply frame defines.SLAVE_DEVICE_FAILURE) /\
     fst (TcpServer._process_request srv request) = srv) /\
    (forall slave,
        TcpServer.get_slave srv (ModbusTCPFrame.unit_id frame) = Some slave ->
        ~ In (ModbusTCPFrame.function_code frame)
            [defines.READ_COILS; defines.READ_DISCRETE_INPUTS;
             defines.READ_HOLDING_REGISTERS; defines.READ_INPUT_REGISTERS;
             defines.WRITE_SINGLE_COIL; defines.WRITE_SINGLE_REGISTER;
             defines.WRITE_MULTIPLE_COILS;
             defines.WRITE_MULTIPLE_REGISTERS] ->
        server_reply srv request =
          Some (exception_reply frame defines.ILLEGAL_FUNCTION) /\
        fst (TcpServer._process_request srv request) = srv).
Proof.
  intros srv request frame Hb Hp.
  destruct (parse_frame_fields request frame Hb Hp) as [Ht [Hu [Hf _]]].
  pose proof (lor_0x80_byte _ Hf) as Hlor.
  unfold TcpServer.get_slave. split.
  - intros Hn.
    destruct (error_response_parses _ _ _ defines.SLAVE_DEVICE_FAILURE
                Ht Hu Hlor) as [resp [Hbuild Hparse]];
      [cbv; split; discriminate|].
    unfold server_reply, TcpServer._process_request. rewrite Hp, Hn.
    cbn [snd fst]. rewrite Hbuild. cbn [bind]. rewrite Hparse.
    split; reflexivity.
  - intros slave Hg Hnot.
    destruct (error_response_parses _ _ _ defines.ILLEGAL_FUNCTION
                Ht Hu Hlor) as [resp [Hbuild Hparse]];
      [cbv; split; discriminate|].
    assert (Hd : TcpServer.dispatch frame slave =
                 (slave,
                  ModbusTCPFrame.build_error_response
                    (ModbusTCPFrame.transaction_id frame)
                    (ModbusTCPFrame.unit_id frame)
                    (ModbusTCPFrame.function_code frame)
                    defines.ILLEGAL_FUNCTION)).
    { unfold TcpServer.dispatch.
      repeat match goal with
             | |- context [if ?fc =? ?c then _ else _] =>
                 destruct (Z.eqb_spec fc c) as [Heq|_];
                 [exfalso; apply Hnot; rewrite Heq; cbn; tauto|]
             end.
      reflexivity. }
    unfold server_reply.
    rewrite (process_registered srv request frame slave _ _ Hp Hg Hd).
    cbn [snd fst]. rewrite Hbuild, Hparse.
    split; [reflexivity|]. exact (server_set_same srv _ slave Hg).
Qed.

Lemma unroutable_requests_witness :
  server_reply example_server [0; 2; 0; 0; 0; 6; 9; 3; 0; 0; 0; 1] =
    Some (ModbusTCPFrame.mk 2 0 3 9 0x83 [4]) /\
  server_reply example_server [0; 2; 0; 0; 0; 6; 1; 0x2B; 0; 0; 0; 1] =
    Some (ModbusTCPFrame.mk 2 0 3 1 0xAB [1]).
Proof.
  split.
  - destruct (unroutable_requests example_server
                [0; 2; 0; 0; 0; 6; 9; 3; 0; 0; 0; 1]
                (ModbusTCPFrame.mk 2 0 6 9 3 [0; 0; 0; 1])) as [H _].
    + unfold is_bytes, is_byte. repeat constructor; vm_compute; discriminate.
    + reflexivity.
    + destruct (H eq_refl) as [Hr _]. exact Hr.
  - destruct (unroutable_requests example_server
                [0; 2; 0; 0; 0; 6; 1; 0x2B; 0; 0; 0; 1]
                (ModbusTCPFrame.mk 2 0 6 1 0x2B [0; 0; 0; 1])) as [_ H].
    + unfold is_bytes, is_byte. repeat constructor; vm_compute; discriminate.
    + reflexivity.
    + destruct (H _ eq_refl) as [Hr _].
      * cbn. intros [E|[E|[E|[E|[E|[E|[E|[E|[]]]]]]]]]; discriminate.
      * exact Hr.
Defined.

Lemma u16_div hi lo : 0 <= lo <= 255 -> (256 * hi + lo) / 256 = hi.
Proof.
  intros Hl. rewrite Z.add_comm, Z.mul_comm, Z.div_add by lia.
  rewrite Z.div_small by lia. lia.
Qed.

Lemma u16_mod hi lo : 0 <= lo <= 255 -> (256 * hi + lo) mod 256 = lo.
Proof.
  intros Hl. rewrite Z.add_comm, Z.mul_comm, Z.mod_add by lia.
  apply Z.mod_small. lia.
Qed.

Lemma pack_HH_of_bytes a1 a0 b1 b0 :
  0 <= a1 <= 255 -> 0 <= a0 <= 255 -> 0 <= b1 <= 255 -> 0 <= b0 <= 255 ->
  struct.pack_HH (256 * a1 + a0) (256 * b1 + b0) = Ok [a1; a0; b1; b0].
Proof.
  intros Ha1 Ha0 Hb1 Hb0. rewrite pack_HH_ok by lia.
  rewrite !u16_div, !u16_mod by lia. reflexivity.
Qed.

(** Reading one element back from the block that covers the address. *)
Lemma read_back_covered bt address name block v :
  Slave.covers bt address (name, block) = true ->
  read_back block address [v] = [Databank.stored bt v].
Proof.
  unfold Slave.covers. cbn [snd]. intros Hc.
  apply andb_prop in Hc. destruct Hc as [Hbt Hr].
  apply andb_prop in Hr. destruct Hr as [Hlo Hhi].
  apply block_type_eqb_eq in Hbt. apply Z.leb_le in Hlo.
  apply Z.ltb_lt in Hhi.
  unfold read_back. cbn [List.length seq map nth]. cbv zeta.
  replace (0 <=? address - Databank.starting_address block + Z.of_nat 0)
    with true by (symmetry; apply Z.leb_le; cbn; lia).
  replace (address - Databank.starting_address block + Z.of_nat 0
           <? Databank.size block) with true
    by (symmetry; apply Z.ltb_lt; cbn; lia).
  cbn [andb]. rewrite Hbt. reflexivity.
Qed.

(** The effect of a one-element write by type, as the single-write
    handlers use it. *)
Lemma single_write_by_type s bt address v :
  slave_inv s -> unique_keys (Slave.blocks s) ->
  exists s' found,
    Slave._set_values_by_type s bt address (Seq [v]) = (s', Ok found) /\
    (Slave._find_block s bt address = None -> s' = s) /\
    (Slave._find_block s bt address <> None ->
     Slave._get_values_by_type s' bt address 1
       = Ok [Databank.stored bt v]).
Proof.
  intros Hinv Huniq.
  destruct (Slave._find_block s bt address) as [[name block]|] eqn:Hf.
  - destruct (set_by_type_found s bt address (Seq [v]) name block
                Hinv Huniq Hf) as [s' [Hset [_ [_ Hget]]]].
    exists s', true. split; [exact Hset|]. split; [discriminate|].
    intros _. cbn [as_list List.length] in Hget.
    change (Z.of_nat 1) with 1 in Hget. rewrite Hget. f_equal.
    unfold Slave._find_block in Hf. apply find_some in Hf.
    destruct Hf as [_ Hcov].
    exact (read_back_covered bt address name block v Hcov).
  - destruct (set_by_type_missing s bt address (Seq [v]) Hf) as [Hset _].
    exists s, false. split; [exact Hset|]. split; [reflexivity|].
    intros H. contradiction.
Qed.

(** X15: write single coil (function code 5).  A value other than
    [0x0000] and [0xFF00] is answered with ILLEGAL_DATA_VALUE and changes
    nothing.  Otherwise the reply echoes the address and value of the
    request, and the coil at the address reads back as the value when a
    coil block covers the address; when none does, the write is dropped,
    the slave is unchanged and the reply is the same echo. *)
Theorem write_single_coil :
  forall srv request frame slave a1 a0 v1 v0 rest,
    is_bytes request ->
    ModbusTCPFrame.parse_frame request = Some frame ->
    ModbusTCPFrame.function_code frame = defines.WRITE_SINGLE_COIL ->
    ModbusTCPFrame.data frame = a1 :: a0 :: v1 :: v0 :: rest ->
    TcpServer.get_slave srv (ModbusTCPFrame.unit_id frame) = Some slave ->
    slave_inv slave -> unique_keys (Slave.blocks slave) ->
    let address := 256 * a1 + a0 in
    let coil_value := 256 * v1 + v0 in
    let srv' := fst (TcpServer._process_request srv request) in
    (coil_value <> 0x0000 -> coil_value <> 0xFF00 ->
     server_reply srv request =
       Some (exception_reply frame defines.ILLEGAL_DATA_VALUE) /\
     srv' = srv) /\
    (coil_value = 0x0000 \/ coil_value = 0xFF00 ->
     server_reply srv request =
       Some (ModbusTCPFrame.mk (ModbusTCPFrame.transaction_id frame) 0 6
               (ModbusTCPFrame.unit_id frame) 5 [a1; a0; v1; v0]) /\
     exists slave',
       TcpServer.get_slave srv' (ModbusTCPFrame.unit_id frame)
         = Some slave' /\
       (Slave._find_block slave defines.COILS address = None ->
        slave' = slave) /\
       (Slave._find_block slave defines.COILS address <> None ->
        Slave._get_values_by_type slave' defines.COILS address 1
          = Ok [VBool (coil_value =? 0xFF00)])).
Proof.
  intros srv request frame slave a1 a0 v1 v0 rest Hb Hp Hfc Hdata Hg
         Hinv Huniq.
  destruct (parse_frame_fields request frame Hb Hp) as [Ht [Hu [Hf Hd]]].
  pose proof (lor_0x80_byte _ Hf) as Hlor.
  destruct frame as [tid pid len uid fc data].
  cbn [ModbusTCPFrame.data ModbusTCPFrame.transaction_id
         ModbusTCPFrame.unit_id ModbusTCPFrame.function_code] in *.
  subst fc data. unfold TcpServer.get_slave in *.
  repeat (apply is_bytes_cons in Hd; destruct Hd as [? Hd]).
  cbv zeta. unfold exception_reply.
  cbn [ModbusTCPFrame.data ModbusTCPFrame.transaction_id
         ModbusTCPFrame.unit_id ModbusTCPFrame.function_code].
  set (frame := ModbusTCPFrame.mk tid pid len uid
                  defines.WRITE_SINGLE_COIL (a1 :: a0 :: v1 :: v0 :: rest)).
  assert (Hh : TcpServer.dispatch frame slave =
               TcpServer._handle_write_single_coil frame slave)
    by reflexivity.
  unfold TcpServer._handle_write_single_coil in Hh.
  cbn [frame ModbusTCPFrame.data List.length Nat.ltb Nat.leb] in Hh.
  rewrite unpack_HH_slice in Hh.
  split.
  - intros Hn0 Hn1.
    replace (256 * v1 + v0 =? 0) with false in Hh
      by (symmetry; apply Z.eqb_neq; exact Hn0).
    replace (256 * v1 + v0 =? 65280) with false in Hh
      by (symmetry; apply Z.eqb_neq; exact Hn1).
    cbn [orb negb] in Hh.
    destruct (error_response_parses tid uid defines.WRITE_SINGLE_COIL
                defines.ILLEGAL_DATA_VALUE Ht Hu Hlor)
      as [resp [Hbuild Hparse]]; [cbv; split; discriminate|].
    unfold server_reply.
    rewrite (process_registered srv request frame slave _ _ Hp Hg Hh).
    cbn [snd fst]. unfold TcpServer.illegal_data_value.
    cbn [frame ModbusTCPFrame.transaction_id ModbusTCPFrame.unit_id
           ModbusTCPFrame.function_code].
    rewrite Hbuild, Hparse. split; [reflexivity|].
    exact (server_set_same srv _ slave Hg).
  - intros Hv.
    replace ((256 * v1 + v0 =? 0) || (256 * v1 + v0 =? 65280)) with true
      in Hh
      by (symmetry; apply orb_true_iff;
          destruct Hv; [left|right]; apply Z.eqb_eq; assumption).
    cbn [negb] in Hh.
    destruct (single_write_by_type slave defines.COILS (256 * a1 + a0)
                (VBool (256 * v1 + v0 =? 65280)) Hinv Huniq)
      as [slave' [found [Hset [Hnone Hsome]]]].
    rewrite Hset in Hh. cbn [bind] in Hh.
    assert (Hresp : ModbusTCPFrame.build_write_single_coil_response
                      tid uid (256 * a1 + a0) (256 * v1 + v0 =? 65280)
                    = ModbusTCPFrame.build_request tid uid 5
                        [a1; a0; v1; v0]).
    { unfold ModbusTCPFrame.build_write_single_coil_response.
      destruct Hv as [Hv|Hv].
      - replace (256 * v1 + v0 =? 65280) with false
          by (symmetry; apply Z.eqb_neq; lia).
        assert (v1 = 0 /\ v0 = 0) as [-> ->] by lia.
        rewrite (pack_HH_ok (256 * a1 + a0) 0) by lia.
        rewrite u16_div, u16_mod by lia. reflexivity.
      - replace (256 * v1 + v0 =? 65280) with true
          by (symmetry; apply Z.eqb_eq; exact Hv).
        assert (v1 = 255 /\ v0 = 0) as [-> ->] by lia.
        rewrite (pack_HH_ok (256 * a1 + a0) 65280) by lia.
        rewrite u16_div, u16_mod by lia. reflexivity. }
    cbn [frame ModbusTCPFrame.transaction_id ModbusTCPFrame.unit_id] in Hh.
    rewrite Hresp in Hh.
    destruct (reply_parses tid uid 5 [a1; a0; v1; v0] Ht Hu)
      as [resp [Hbuild Hparse]]; [lia|cbn; lia|].
    rewrite Hbuild in Hh.
    unfold server_reply.
    rewrite (process_registered srv request frame slave _ _ Hp Hg Hh).
    cbn [snd fst]. rewrite Hparse. split; [reflexivity|].
    exists slave'. cbn [TcpServer._slaves frame ModbusTCPFrame.unit_id].
    rewrite (dict_get_set Z.eqb z_eqb_spec), Z.eqb_refl.
    split; [reflexivity|]. split; [exact Hnone|].
    intros Hfound. rewrite (Hsome Hfound). reflexivity.
Qed.

Lemma write_single_coil_witness :
  server_reply example_server [0; 1; 0; 0; 0; 6; 1; 5; 0; 3; 0xFF; 0] =
    Some (ModbusTCPFrame.mk 1 0 6 1 5 [0; 3; 0xFF; 0]) /\
  server_reply example_server [0; 1; 0; 0; 0; 6; 1; 5; 0; 3; 0; 1] =
    Some (ModbusTCPFrame.mk 1 0 3 1 0x85 [3]).
Proof.
  assert (Hslave : slave_inv
                     (Slave.add_block
                        (Slave.add_block (Slave.init 1) "c" defines.COILS 0 16)
                        "h" defines.HOLDING_REGISTERS 0 200)).
  { unfold slave_inv.
    change (Slave.blocks _)
      with [("c"%string, Databank.init defines.COILS 0 16);
            ("h"%string, Databank.init defines.HOLDING_REGISTERS 0 200)].
    apply Forall_cons; [apply init_block_inv; lia|].
    apply Forall_cons; [apply init_block_inv; lia|]. apply Forall_nil. }
  assert (Huniq : unique_keys
                    (Slave.blocks
                       (Slave.add_block
                          (Slave.add_block (Slave.init 1) "c"
                             defines.COILS 0 16)
                          "h" defines.HOLDING_REGISTERS 0 200))).
  { unfold unique_keys. cbn.
    constructor; [cbn; intros [H|[]]; discriminate|].
    constructor; [tauto|constructor]. }
  split.
  - destruct (write_single_coil example_server
                [0; 1; 0; 0; 0; 6; 1; 5; 0; 3; 0xFF; 0]
                (ModbusTCPFrame.mk 1 0 6 1 5 [0; 3; 0xFF; 0]) _
                0 3 0xFF 0 []
                ltac:(unfold is_bytes, is_byte; repeat constructor;
                      vm_compute; discriminate)
                eq_refl eq_refl eq_refl eq_refl Hslave Huniq)
      as [_ H].
    destruct (H (or_intror eq_refl)) as [Hr _]. exact Hr.
  - destruct (write_single_coil example_server
                [0; 1; 0; 0; 0; 6; 1; 5; 0; 3; 0; 1]
                (ModbusTCPFrame.mk 1 0 6 1 5 [0; 3; 0; 1]) _
                0 3 0 1 []
                ltac:(unfold is_bytes, is_byte; repeat constructor;
                      vm_compute; discriminate)
                eq_refl eq_refl eq_refl eq_refl Hslave Huniq)
      as [H _].
    destruct H as [Hr _]; [discriminate|discriminate|exact Hr].
Defined.

Lemma land_ffff_small v : 0 <= v <= 65535 -> Z.land v 0xFFFF = v.
Proof.
  intros Hv. change 0xFFFF with (Z.ones 16).
  rewrite Z.land_ones by lia. apply Z.mod_small.
  change (2 ^ 16) with 65536. lia.
Qed.

(** X16: write single register (function code 6).  The reply echoes the
    address and the value of the request; the register at the address
    reads back as the value when a holding-register block covers the
    address, and when none does the write is dropped without any error
    reply and the slave is unchanged. *)
Theorem write_single_register :
  forall srv request frame slave a1 a0 v1 v0 rest,
    is_bytes request ->
    ModbusTCPFrame.parse_frame request = Some frame ->
    ModbusTCPFrame.function_code frame = defines.WRITE_SINGLE_REGISTER ->
    ModbusTCPFrame.data frame = a1 :: a0 :: v1 :: v0 :: rest ->
    TcpServer.get_slave srv (ModbusTCPFrame.unit_id frame) = Some slave ->
    slave_inv slave -> unique_keys (Slave.blocks slave) ->
    let address := 256 * a1 + a0 in
    let value := 256 * v1 + v0 in
    let srv' := fst (TcpServer._process_request srv request) in
    server_reply srv request =
      Some (ModbusTCPFrame.mk (ModbusTCPFrame.transaction_id frame) 0 6
              (ModbusTCPFrame.unit_id frame) 6 [a1; a0; v1; v0]) /\
    exists slave',
      TcpServer.get_slave srv' (ModbusTCPFrame.unit_id frame)
        = Some slave' /\
      (Slave._find_block slave defines.HOLDING_REGISTERS address = None ->
       slave' = slave) /\
      (Slave._find_block slave defines.HOLDING_REGISTERS address <> None ->
       Slave._get_values_by_type slave' defines.HOLDING_REGISTERS address 1
         = Ok [VInt value]).
Proof.
  intros srv request frame slave a1 a0 v1 v0 rest Hb Hp Hfc Hdata Hg
         Hinv Huniq.
  destruct (parse_frame_fields request frame Hb Hp) as [Ht [Hu [Hf Hd]]].
  destruct frame as [tid pid len uid fc data].
  cbn [ModbusTCPFrame.data ModbusTCPFrame.transaction_id
         ModbusTCPFrame.unit_id ModbusTCPFrame.function_code] in *.
  subst fc data. unfold TcpServer.get_slave in *.
  repeat (apply is_bytes_cons in Hd; destruct Hd as [? Hd]).
  cbv zeta.
  set (frame := ModbusTCPFrame.mk tid pid len uid
                  defines.WRITE_SINGLE_REGISTER
                  (a1 :: a0 :: v1 :: v0 :: rest)).
  assert (Hh : TcpServer.dispatch frame slave =
               TcpServer._handle_write_single_register frame slave)
    by reflexivity.
  unfold TcpServer._handle_write_single_register in Hh.
  cbn [frame ModbusTCPFrame.data List.length Nat.ltb Nat.leb] in Hh.
  rewrite unpack_HH_slice in Hh.
  destruct (single_write_by_type slave defines.HOLDING_REGISTERS
              (256 * a1 + a0) (VInt (256 * v1 + v0)) Hinv Huniq)
    as [slave' [found [Hset [Hnone Hsome]]]].
  rewrite Hset in Hh. cbn [bind] in Hh.
  rewrite pack_HH_of_bytes in Hh by assumption. cbn [bind] in Hh.
  cbn [frame ModbusTCPFrame.transaction_id ModbusTCPFrame.unit_id
         ModbusTCPFrame.function_code] in Hh.
  destruct (reply_parses tid uid 6 [a1; a0; v1; v0] Ht Hu)
    as [resp [Hbuild Hparse]]; [lia|cbn; lia|].
  change defines.WRITE_SINGLE_REGISTER with 6 in Hh.
  rewrite Hbuild in Hh.
  unfold server_reply.
  rewrite (process_registered srv request frame slave _ _ Hp Hg Hh).
  cbn [snd fst]. rewrite Hparse. split; [reflexivity|].
  exists slave'. cbn [TcpServer._slaves frame ModbusTCPFrame.unit_id].
  rewrite (dict_get_set Z.eqb z_eqb_spec), Z.eqb_refl.
  split; [reflexivity|]. split; [exact Hnone|].
  intros Hfound. rewrite (Hsome Hfound).
  unfold Databank.stored. cbn [defines.is_bit_type int_of].
  change (defines.is_bit_type defines.HOLDING_REGISTERS) with false.
  cbv iota. rewrite land_ffff_small by lia. reflexivity.
Qed.

Lemma write_single_register_witness :
  server_reply example_server [0; 1; 0; 0; 0; 6; 1; 6; 0; 3; 0x12; 0x34] =
    Some (ModbusTCPFrame.mk 1 0 6 1 6 [0; 3; 0x12; 0x34]).
Proof.
  assert (Hslave : slave_inv
                     (Slave.add_block
                        (Slave.add_block (Slave.init 1) "c" defines.COILS 0 16)
                        "h" defines.HOLDING_REGISTERS 0 200)).
  { unfold slave_inv.
    change (Slave.blocks _)
      with [("c"%string, Databank.init defines.COILS 0 16);
            ("h"%string, Databank.init defines.HOLDING_REGISTERS 0 200)].
    apply Forall_cons; [apply init_block_inv; lia|].
    apply Forall_cons; [apply init_block_inv; lia|]. apply Forall_nil. }
  assert (Huniq : unique_keys
                    (Slave.blocks
                       (Slave.add_block
                          (Slave.add_block (Slave.init 1) "c"
                             defines.COILS 0 16)
                          "h" defines.HOLDING_REGISTERS 0 200))).
  { unfold unique_keys. cbn.
    constructor; [cbn; intros [H|[]]; discriminate|].
    constructor; [tauto|constructor]. }
  exact (proj1 (write_single_register example_server
                  [0; 1; 0; 0; 0; 6; 1; 6; 0; 3; 0x12; 0x34]
                  (ModbusTCPFrame.mk 1 0 6 1 6 [0; 3; 0x12; 0x34]) _
                  0 3 0x12 0x34 []
                  ltac:(unfold is_bytes, is_byte; repeat constructor;
                        vm_compute; discriminate)
                  eq_refl eq_refl eq_refl eq_refl Hslave Huniq)).
Defined.

(** ** Multiple-register writes *)

Lemma unpack_H_raises buf :
  List.length buf <> 2%nat -> struct.unpack_H buf = Raise struct_error.
Proof.
  destruct buf as [|a [|b [|c rest]]]; cbn; intros H;
    try reflexivity; contradiction H; reflexivity.
Qed.

(** The loop of [range(0, byte_count, 2)] raises when the buffer ends
    before the last pair. *)
Lemma unpack_registers_short n :
  forall i buf,
    (0 < n)%nat -> (List.length buf < i + 2 * n)%nat ->
    exists e, unpack_registers_from n i buf = Raise e.
Proof.
  induction n as [|n IH]; intros i buf Hn Hlen; [lia|].
  cbn [unpack_registers_from].
  destruct (struct.unpack_H (slice buf i (i + 2))) as [value|e] eqn:Hv.
  - cbn [bind].
    destruct n as [|n'].
    + rewrite unpack_H_raises in Hv; [discriminate|].
      unfold slice. rewrite length_firstn, length_skipn.
      cbn [Nat.mul Nat.add] in Hlen. lia.
    + destruct (IH (i + 2)%nat buf ltac:(lia) ltac:(lia)) as [e He].
      rewrite He. exists e. reflexivity.
  - exists e. reflexivity.
Qed.

Lemma write_registers_body a1 a0 q1 q0 bc payload :
  forall tid pid len uid fc slave,
    TcpServer._handle_write_multiple_registers
      (ModbusTCPFrame.mk tid pid len uid fc
         (a1 :: a0 :: q1 :: q0 :: bc :: payload)) slave =
    match unpack_registers bc (firstn (Z.to_nat bc) payload) with
    | Raise e => (slave, Raise e)
    | Ok values =>
        let '(slave', r) :=
          Slave._set_values_by_type slave defines.HOLDING_REGISTERS
            (256 * a1 + a0) (Seq (map VInt values)) in
        (slave',
         _ <- r ;;
         d <- struct.pack_HH (256 * a1 + a0) (256 * q1 + q0) ;;
         ModbusTCPFrame.build_request tid uid fc d)
    end.
Proof.
  intros tid pid len uid fc slave.
  unfold TcpServer._handle_write_multiple_registers.
  cbn [ModbusTCPFrame.data ModbusTCPFrame.transaction_id
         ModbusTCPFrame.unit_id ModbusTCPFrame.function_code
         List.length Nat.ltb Nat.leb].
  change (struct.unpack_HHB (slice (a1 :: a0 :: q1 :: q0 :: bc :: payload) 0 5))
    with (Ok (256 * a1 + a0, 256 * q1 + q0, bc) : result (Z * Z * Z)).
  cbv iota beta.
  replace (slice (a1 :: a0 :: q1 :: q0 :: bc :: payload) 5
             (5 + Z.to_nat bc))
    with (firstn (Z.to_nat bc) payload).
  - reflexivity.
  - unfold slice. replace (5 + Z.to_nat bc - 5)%nat with (Z.to_nat bc) by lia.
    reflexivity.
Qed.

(** X17: write multiple registers (function code 16) with a payload of
    whole registers.  The handler stores the registers of the payload, as
    many as the byte count says, at the start address, and echoes the
    start address and the quantity field; the quantity field itself is
    not compared with the byte count or the payload. *)
Theorem write_multiple_registers_stores :
  forall srv request frame slave a1 a0 q1 q0 values payload name block,
    is_bytes request ->
    ModbusTCPFrame.parse_frame request = Some frame ->
    ModbusTCPFrame.function_code frame = defines.WRITE_MULTIPLE_REGISTERS ->
    pack_registers values = Ok payload ->
    ModbusTCPFrame.data frame =
      a1 :: a0 :: q1 :: q0 :: Z.of_nat (List.length values) * 2 :: payload ->
    TcpServer.get_slave srv (ModbusTCPFrame.unit_id frame) = Some slave ->
    slave_inv slave -> unique_keys (Slave.blocks slave) ->
    let address := 256 * a1 + a0 in
    Slave._find_block slave defines.HOLDING_REGISTERS address
      = Some (name, block) ->
    let srv' := fst (TcpServer._process_request srv request) in
    server_reply srv request =
      Some (ModbusTCPFrame.mk (ModbusTCPFrame.transaction_id frame) 0 6
              (ModbusTCPFrame.unit_id frame) 16 [a1; a0; q1; q0]) /\
    exists slave',
      TcpServer.get_slave srv' (ModbusTCPFrame.unit_id frame)
        = Some slave' /\
      Slave._get_values_by_type slave' defines.HOLDING_REGISTERS address
        (Z.of_nat (List.length values))
        = Ok (read_back block address (map VInt values)) /\
      (Databank.starting_address block <= address /\
       address + Z.of_nat (List.length values)
       <= Databank.starting_address block + Databank.size block ->
       Forall (fun z => 0 <= z <= 65535) values ->
       read_back block address (map VInt values) = map VInt values).
Proof.
  intros srv request frame slave a1 a0 q1 q0 values payload name block
         Hb Hp Hfc Hpack Hdata Hg Hinv Huniq address Hfind.
  destruct (parse_frame_fields request frame Hb Hp) as [Ht [Hu [Hf Hd]]].
  destruct frame as [tid pid len uid fc data].
  cbn [ModbusTCPFrame.data ModbusTCPFrame.transaction_id
         ModbusTCPFrame.unit_id ModbusTCPFrame.function_code] in *.
  subst fc data. unfold TcpServer.get_slave in *.
  do 5 (apply is_bytes_cons in Hd; destruct Hd as [? Hd]).
  cbv zeta.
  set (frame := ModbusTCPFrame.mk tid pid len uid
                  defines.WRITE_MULTIPLE_REGISTERS
                  (a1 :: a0 :: q1 :: q0
                      :: Z.of_nat (List.length values) * 2 :: payload)).
  assert (Hh : TcpServer.dispatch frame slave =
               TcpServer._handle_write_multiple_registers frame slave)
    by reflexivity.
  unfold frame in Hh at 2. rewrite write_registers_body in Hh.
  pose proof (pack_registers_length values payload Hpack) as Hlen.
  replace (firstn (Z.to_nat (Z.of_nat (List.length values) * 2)) payload)
    with payload in Hh
    by (symmetry; apply firstn_all2; lia).
  unfold unpack_registers in Hh. rewrite range2_len_even in Hh.
  pose proof (unpack_packed_registers values [] payload Hpack) as Hunpack.
  cbn [List.length app] in Hunpack. rewrite Hunpack in Hh.
  destruct (set_by_type_found slave defines.HOLDING_REGISTERS address
              (Seq (map VInt values)) name block Hinv Huniq Hfind)
    as [slave' [Hset [_ [_ Hget]]]].
  fold address in Hh. rewrite Hset in Hh. cbn [bind] in Hh.
  unfold address in Hh.
  rewrite pack_HH_of_bytes in Hh by assumption. cbn [bind] in Hh.
  destruct (reply_parses tid uid 16 [a1; a0; q1; q0] Ht Hu)
    as [resp [Hbuild Hparse]]; [lia|cbn; lia|].
  change defines.WRITE_MULTIPLE_REGISTERS with 16 in Hh.
  rewrite Hbuild in Hh.
  unfold server_reply.
  rewrite (process_registered srv request frame slave _ _ Hp Hg Hh).
  cbn [snd fst]. rewrite Hparse. split; [reflexivity|].
  exists slave'. cbn [TcpServer._slaves frame ModbusTCPFrame.unit_id].
  rewrite (dict_get_set Z.eqb z_eqb_spec), Z.eqb_refl.
  split; [reflexivity|].
  cbn [as_list] in Hget. rewrite length_map in Hget.
  split; [exact Hget|].
  intros Hrange Hvals.
  rewrite read_back_in_range by (rewrite length_map; exact Hrange).
  unfold Slave._find_block in Hfind. apply find_some in Hfind.
  destruct Hfind as [_ Hcov]. unfold Slave.covers in Hcov.
  cbn [snd] in Hcov. apply andb_prop in Hcov. destruct Hcov as [Hbt _].
  apply block_type_eqb_eq in Hbt. rewrite Hbt, map_map.
  apply map_ext_in. intros z Hz.
  rewrite Forall_forall in Hvals. specialize (Hvals z Hz).
  unfold Databank.stored.
  change (defines.is_bit_type defines.HOLDING_REGISTERS) with false.
  cbv iota. cbn [int_of]. rewrite land_ffff_small by lia. reflexivity.
Qed.

Lemma write_multiple_registers_stores_witness :
  server_reply example_server
    [0; 1; 0; 0; 0; 11; 1; 16; 0; 3; 0; 9; 4; 0x12; 0x34; 0xAB; 0xCD] =
    Some (ModbusTCPFrame.mk 1 0 6 1 16 [0; 3; 0; 9]).
Proof.
  assert (Hslave : slave_inv
                     (Slave.add_block
                        (Slave.add_block (Slave.init 1) "c" defines.COILS 0 16)
                        "h" defines.HOLDING_REGISTERS 0 200)).
  { unfold slave_inv.
    change (Slave.blocks _)
      with [("c"%string, Databank.init defines.COILS 0 16);
            ("h"%string, Databank.init defines.HOLDING_REGISTERS 0 200)].
    apply Forall_cons; [apply init_block_inv; lia|].
    apply Forall_cons; [apply init_block_inv; lia|]. apply Forall_nil. }
  assert (Huniq : unique_keys
                    (Slave.blocks
                       (Slave.add_block
                          (Slave.add_block (Slave.init 1) "c"
                             defines.COILS 0 16)
                          "h" defines.HOLDING_REGISTERS 0 200))).
  { unfold unique_keys. cbn.
    constructor; [cbn; intros [H|[]]; discriminate|].
    constructor; [tauto|constructor]. }
  exact (proj1 (write_multiple_registers_stores example_server
                  [0; 1; 0; 0; 0; 11; 1; 16; 0; 3; 0; 9; 4;
                   0x12; 0x34; 0xAB; 0xCD]
                  (ModbusTCPFrame.mk 1 0 11 1 16
                     [0; 3; 0; 9; 4; 0x12; 0x34; 0xAB; 0xCD]) _
                  0 3 0 9 [0x1234; 0xABCD] [0x12; 0x34; 0xAB; 0xCD]
                  "h"%string
                  (Databank.init defines.HOLDING_REGISTERS 0 200)
                  ltac:(unfold is_bytes, is_byte; repeat constructor;
                        vm_compute; discriminate)
                  eq_refl eq_refl eq_refl eq_refl eq_refl Hslave Huniq
                  eq_refl)).
Defined.

(** X18: write multiple registers whose byte count is odd or larger than
    the payload that follows.  Unpacking the last register raises; the
    reply is the SLAVE_DEVICE_FAILURE exception and no register of the
    request is stored. *)
Theorem write_multiple_registers_malformed :
  forall srv request frame slave a1 a0 q1 q0 bc payload,
    is_bytes request ->
    ModbusTCPFrame.parse_frame request = Some frame ->
    ModbusTCPFrame.function_code frame = defines.WRITE_MULTIPLE_REGISTERS ->
    ModbusTCPFrame.data frame = a1 :: a0 :: q1 :: q0 :: bc :: payload ->
    TcpServer.get_slave srv (ModbusTCPFrame.unit_id frame) = Some slave ->
    bc mod 2 = 1 \/ Z.of_nat (List.length payload) < bc ->
    server_reply srv request =
      Some (exception_reply frame defines.SLAVE_DEVICE_FAILURE) /\
    fst (TcpServer._process_request srv request) = srv.
Proof.
  intros srv request frame slave a1 a0 q1 q0 bc payload
         Hb Hp Hfc Hdata Hg Hbad.
  destruct (parse_frame_fields request frame Hb Hp) as [Ht [Hu [Hf Hd]]].
  pose proof (lor_0x80_byte _ Hf) as Hlor.
  destruct frame as [tid pid len uid fc data].
  cbn [ModbusTCPFrame.data ModbusTCPFrame.transaction_id
         ModbusTCPFrame.unit_id ModbusTCPFrame.function_code] in *.
  subst fc data. unfold TcpServer.get_slave in *.
  do 5 (apply is_bytes_cons in Hd; destruct Hd as [? Hd]).
  unfold exception_reply.
  cbn [ModbusTCPFrame.data ModbusTCPFrame.transaction_id
         ModbusTCPFrame.unit_id ModbusTCPFrame.function_code].
  set (frame := ModbusTCPFrame.mk tid pid len uid
                  defines.WRITE_MULTIPLE_REGISTERS
                  (a1 :: a0 :: q1 :: q0 :: bc :: payload)).
  assert (Hh : TcpServer.dispatch frame slave =
               TcpServer._handle_write_multiple_registers frame slave)
    by reflexivity.
  unfold frame in Hh at 2. rewrite write_registers_body in Hh.
  assert (Hraise : exists e,
             unpack_registers bc (firstn (Z.to_nat bc) payload) = Raise e).
  { unfold unpack_registers, range2_len.
    pose proof (Z.div_mod (bc + 1) 2 ltac:(lia)) as Hdm.
    pose proof (Z.mod_pos_bound (bc + 1) 2 ltac:(lia)) as Hmb.
    pose proof (Z.div_mod bc 2 ltac:(lia)) as Hdm'.
    pose proof (Z.mod_pos_bound bc 2 ltac:(lia)) as Hmb'.
    apply unpack_registers_short.
    - lia.
    - rewrite length_firstn. lia. }
  destruct Hraise as [e He]. rewrite He in Hh.
  destruct (error_response_parses tid uid defines.WRITE_MULTIPLE_REGISTERS
              defines.SLAVE_DEVICE_FAILURE Ht Hu Hlor)
    as [resp [Hbuild Hparse]]; [cbv; split; discriminate|].
  unfold server_reply.
  rewrite (process_registered srv request frame slave _ _ Hp Hg Hh).
  cbn [snd fst].
  cbn [frame ModbusTCPFrame.transaction_id ModbusTCPFrame.unit_id
         ModbusTCPFrame.function_code].
  rewrite Hbuild. cbn [bind]. rewrite Hparse. split; [reflexivity|].
  exact (server_set_same srv _ slave Hg).
Qed.

Lemma write_multiple_registers_malformed_witness :
  server_reply example_server
    [0; 1; 0; 0; 0; 10; 1; 16; 0; 3; 0; 2; 4; 0x12; 0x34; 0xAB] =
    Some (ModbusTCPFrame.mk 1 0 3 1 0x90 [4]).
Proof.
  exact (proj1 (write_multiple_registers_malformed example_server
                  [0; 1; 0; 0; 0; 10; 1; 16; 0; 3; 0; 2; 4;
                   0x12; 0x34; 0xAB]
                  (ModbusTCPFrame.mk 1 0 10 1 16
                     [0; 3; 0; 2; 4; 0x12; 0x34; 0xAB]) _
                  0 3 0 2 4 [0x12; 0x34; 0xAB]
                  ltac:(unfold is_bytes, is_byte; repeat constructor;
                        vm_compute; discriminate)
                  eq_refl eq_refl eq_refl eq_refl
                  ltac:(right; vm_compute; reflexivity))).
Defined.

(** ** The master against the server *)

Lemma loopback_send_receive srv tid u fc d request response tid' u' fc' d' :
  ModbusTCPFrame.build_request tid u fc d = Ok request ->
  snd (TcpServer._process_request srv request) = Ok (Some response) ->
  ModbusTCPFrame.build_request tid' u' fc' d' = Ok response ->
  TcpMaster._send_receive (tcp_loopback srv) request 3 = Ok response.
Proof.
  intros Hreq Hproc Hresp.
  pose proof (receive_built_frame tid u fc d request [] Hreq) as Hr.
  pose proof (receive_built_frame tid' u' fc' d' response [] Hresp) as Hr'.
  rewrite app_nil_r in Hr, Hr'.
  unfold TcpMaster._send_receive. cbn [TcpMaster._send_receive_from].
  unfold tcp_loopback, tcp_serve. rewrite Hr.
  destruct (TcpServer._process_request srv request) as [srv' r].
  cbn [snd] in Hproc. subst r. cbn [snd]. rewrite Hr'. reflexivity.
Qed.

Lemma loopback_transact srv tid u fc d request response tid' u' fc' d' :
  ModbusTCPFrame.build_request tid u fc d = Ok request ->
  snd (TcpServer._process_request srv request) = Ok (Some response) ->
  ModbusTCPFrame.build_request tid' u' fc' d' = Ok response ->
  TcpMaster.transact (tcp_loopback srv) request =
    if negb (Z.land fc' 0x80 =? 0) then
      match d' with
      | code :: _ => Raise (ModbusException code)
      | [] => Raise UnknownError
      end
    else Ok (ModbusTCPFrame.mk tid' 0 (2 + Z.of_nat (List.length d')) u' fc' d').
Proof.
  intros Hreq Hproc Hresp. unfold TcpMaster.transact.
  rewrite (loopback_send_receive srv tid u fc d request response
             tid' u' fc' d' Hreq Hproc Hresp).
  cbn [bind]. rewrite (build_request_parses _ _ _ _ _ Hresp).
  reflexivity.
Qed.


Lemma next_transaction_id_range m :
  0 <= snd (TcpMaster._get_transaction_id m) <= 65535.
Proof.
  unfold TcpMaster._get_transaction_id. cbn [snd].
  pose proof (Z.mod_pos_bound (TcpMaster._transaction_id m + 1) 65536
                ltac:(lia)).
  lia.
Qed.

Lemma u16_values_are_ints values :
  Forall is_u16 values ->
  Forall (fun v => 0 <= int_of v <= 65535) values /\
  map VInt (map int_of values) = values.
Proof.
  induction 1 as [|v rest [z [-> Hz]] _ [IH1 IH2]].
  - split; [apply Forall_nil|reflexivity].
  - split; [apply Forall_cons; [exact Hz|exact IH1]|].
    cbn [map int_of]. rewrite IH2. reflexivity.
Qed.









Lemma exception_bit_set fc : 0 <= fc -> Z.land (Z.lor fc 0x80) 0x80 <> 0.
Proof.
  intros Hfc H.
  apply (f_equal (fun z => Z.testbit z 7)) in H.
  rewrite Z.land_spec, Z.lor_spec in H.
  change (Z.testbit 128 7) with true in H.
  rewrite orb_true_r in H. discriminate.
Qed.

Lemma loopback_unknown_unit srv tid u fc d request :
  ModbusTCPFrame.build_request tid u fc d = Ok request ->
  TcpServer.get_slave srv u = None ->
  TcpMaster.transact (tcp_loopback srv) request =
    Raise (ModbusException defines.SLAVE_DEVICE_FAILURE).
Proof.
  intros Hreq Hg.
  destruct (build_request_bytes tid u fc d request Hreq)
    as [_ [Ht [Hu [Hf _]]]].
  pose proof (lor_0x80_byte fc Hf) as Hlor.
  destruct (reply_parses tid u (Z.lor fc 128)
              [defines.SLAVE_DEVICE_FAILURE] Ht Hu Hlor)
    as [buf [Hb _]]; [cbn; lia|].
  assert (Hproc : snd (TcpServer._process_request srv request) =
                  Ok (Some buf)).
  { unfold TcpServer._process_request.
    rewrite (build_request_parses _ _ _ _ _ Hreq).
    cbn [ModbusTCPFrame.unit_id ModbusTCPFrame.transaction_id
           ModbusTCPFrame.function_code].
    unfold TcpServer.get_slave in Hg. rewrite Hg. cbn [snd].
    unfold ModbusTCPFrame.build_error_response.
    rewrite pack_B_ok by (cbv; split; discriminate).
    cbn [bind]. rewrite Hb. reflexivity. }
  rewrite (loopback_transact srv tid u fc d request buf tid u
             (Z.lor fc 128) [defines.SLAVE_DEVICE_FAILURE] Hreq Hproc Hb).
  destruct (Z.eqb_spec (Z.land (Z.lor fc 128) 128) 0) as [H|H].
  - exfalso. exact (exception_bit_set fc ltac:(lia) H).
  - reflexivity.
Qed.

(** X21: the TCP master against a server on which the addressed unit is
    not registered.  No call of [execute] returns a result, whatever the
    function code and the arguments: every call raises.  A read (function
    codes 1 to 4) with in-range arguments raises the Modbus exception
    SLAVE_DEVICE_FAILURE that the server sends for an unknown unit. *)
Theorem tcp_unregistered_unit :
  forall m srv unit fc address quantity out,
    TcpServer.get_slave srv unit = None ->
    let outcome :=
      snd (TcpMaster.execute (tcp_loopback srv) m unit fc address
             quantity out) in
    (exists e, outcome = Raise (ExecuteFailed e)) /\
    (In fc [defines.READ_COILS; defines.READ_DISCRETE_INPUTS;
            defines.READ_HOLDING_REGISTERS; defines.READ_INPUT_REGISTERS] ->
     0 <= unit <= 255 -> 0 <= address <= 65535 -> 0 <= quantity <= 65535 ->
     outcome =
       Raise (ExecuteFailed (ModbusException defines.SLAVE_DEVICE_FAILURE))).
Proof.
  intros m srv unit fc address quantity out Hg. cbv zeta.
  unfold TcpMaster.execute.
  pose proof (next_transaction_id_range m) as Ht.
  destruct (TcpMaster._get_transaction_id m) as [m' tid].
  cbn [snd] in Ht.
  split.
  - destruct (TcpMaster.execute_body (tcp_loopback srv) tid unit fc address
                quantity out) as [values|e] eqn:Hbody.
    + exfalso.
      destruct (execute_body_sent _ _ _ _ _ _ _ _ Hbody)
        as [data [request [frame [Hreq Htr]]]].
      rewrite (loopback_unknown_unit srv tid unit fc data request Hreq Hg)
        in Htr.
      discriminate.
    + exists e. reflexivity.
  - intros Hin Hu Ha Hq.
    assert (Hbody :
              TcpMaster.execute_body (tcp_loopback srv) tid unit fc address
                quantity out =
              Raise (ModbusException defines.SLAVE_DEVICE_FAILURE)).
    { destruct (reply_parses tid unit fc
                  [address / 256; address mod 256;
                   quantity / 256; quantity mod 256] Ht Hu)
        as [request [Hreq _]].
      - destruct Hin as [H|[H|[H|[H|[]]]]]; rewrite <- H; cbv;
          split; discriminate.
      - cbn. lia.
      - pose proof (loopback_unknown_unit srv tid unit fc _ request Hreq Hg)
          as Htr.
        unfold TcpMaster.execute_body,
          ModbusTCPFrame.build_read_coils_request,
          ModbusTCPFrame.build_read_holding_registers_request.
        rewrite pack_HH_ok by lia. cbn [bind].
        destruct Hin as [H|[H|[H|[H|[]]]]]; subst fc;
          match goal with
          | |- context [if ?a =? ?b then _ else _] =>
              change (a =? b) with true
              || (change (a =? b) with false)
          end; cbv iota;
          repeat match goal with
                 | |- context [if ?a =? ?b then _ else _] =>
                     change (a =? b) with true
                     || (change (a =? b) with false); cbv iota
                 end;
          (change 1 with defines.READ_COILS at 1
           || change 3 with defines.READ_HOLDING_REGISTERS at 1
           || idtac);
          rewrite Hreq; cbn [bind]; rewrite Htr; reflexivity. }
    rewrite Hbody. reflexivity.
Qed.

Lemma tcp_unregistered_unit_witness :
  snd (TcpMaster.execute (tcp_loopback example_server) TcpMaster.init 9
         defines.READ_INPUT_REGISTERS 0 2 (Scalar (VInt 0))) =
    Raise (ExecuteFailed (ModbusException defines.SLAVE_DEVICE_FAILURE)).
Proof.
  destruct (tcp_unregistered_unit TcpMaster.init example_server 9
              defines.READ_INPUT_REGISTERS 0 2 (Scalar (VInt 0)) eq_refl)
    as [_ H].
  apply H; [right; right; right; left; reflexivity|lia|lia|lia].
Defined.

(** ** The RTU server *)

Lemma with_crc_is_build slave fc rd :
  (h <- struct.pack_BB slave fc ;; RtuServer.with_crc (Ok (h ++ rd))) =
    RtuMaster._build_request slave fc rd.
Proof.
  unfold RtuMaster._build_request, RtuServer.with_crc.
  destruct (struct.pack_BB slave fc); reflexivity.
Qed.

Lemma failure_frame_is_build slave fc :
  RtuServer.with_crc
    (struct.pack_BBB slave fc defines.SLAVE_DEVICE_FAILURE) =
    RtuMaster._build_request slave fc [defines.SLAVE_DEVICE_FAILURE].
Proof.
  unfold RtuMaster._build_request, RtuServer.with_crc, struct.pack_BBB,
    struct.pack_BB.
  destruct (struct.pack_B slave) as [x|]; [|reflexivity].
  destruct (struct.pack_B fc) as [y|]; [|reflexivity].
  change (struct.pack_B defines.SLAVE_DEVICE_FAILURE)
    with (Ok [defines.SLAVE_DEVICE_FAILURE] : result bytes).
  cbn [bind]. rewrite app_assoc. reflexivity.
Qed.

Lemma rtu_built_frame_parses slave fc rd reply :
  (1 <= List.length rd)%nat ->
  RtuMaster._build_request slave fc rd = Ok reply ->
  RtuMaster._parse_response reply slave = Some (fc, rd).
Proof.
  intros Hlen Hb.
  destruct (rtu_build_request_bytes slave fc rd reply Hb)
    as [-> _].
  rewrite rtu_parse_frame_bytes, div_mod_256, Z.eqb_refl.
  replace (List.length rd <? 1)%nat with false
    by (symmetry; apply Nat.ltb_ge; exact Hlen).
  reflexivity.
Qed.

(** The function code a branch of the handler leaves: the request's, or
    the request's with bit 0x80 set (the branch for an unknown code). *)
Lemma handle_code slave fc data slave' fc' rd :
  RtuServer.handle slave fc data = (slave', Ok (fc', rd)) ->
  fc' = fc \/ fc' = Z.lor fc 0x80.
Proof.
  unfold RtuServer.handle, RtuServer.bit_response,
    RtuServer.register_response.
  intros H.
  repeat match type of H with
         | (if ?c then _ else _) = _ => destruct c
         | match ?x with _ => _ end = _ => destruct x
         | (let '(_, _) := ?p in _) = _ => destruct p
         end;
    apply (f_equal snd) in H; cbn [snd] in H;
    repeat match type of H with
           | bind _ _ = Ok _ =>
               let x := fresh "x" in
               let Hx := fresh "Hx" in
               apply bind_ok in H; destruct H as [x [Hx H]]
           | (let '(_, _) := ?p in _) = Ok _ => destruct p
           end;
    try discriminate;
    apply (f_equal (fun r => match r with
                             | Ok (c, _) => c
                             | Raise _ => fc'
                             end)) in H;
    cbv beta iota in H; subst fc'; auto.
Qed.

Lemma attempt_is_build slave fc rd :
  (h <- struct.pack_BB slave fc ;;
   r <- RtuServer.with_crc (Ok (h ++ rd)) ;;
   Ok (Some r)) =
  (r <- RtuMaster._build_request slave fc rd ;; Ok (Some r)).
Proof.
  unfold RtuMaster._build_request, RtuServer.with_crc.
  destruct (struct.pack_BB slave fc) as [h|]; [|reflexivity].
  cbn [bind].
  destruct (struct.pack_H_le (ModbusCRC.calculate_crc (h ++ rd)));
    reflexivity.
Qed.

Lemma failure_reply (srv' srv'' : RtuServer.t) slave fc reply :
  (srv',
   r <- RtuServer.with_crc
          (struct.pack_BBB slave (Z.lor fc 0x80)
             defines.SLAVE_DEVICE_FAILURE) ;;
   Ok (Some r)) = (srv'', Ok (Some reply)) ->
  RtuMaster._build_request slave (Z.lor fc 0x80)
    [defines.SLAVE_DEVICE_FAILURE] = Ok reply.
Proof.
  rewrite failure_frame_is_build. intros H.
  apply (f_equal snd) in H. cbn [snd] in H.
  destruct (RtuMaster._build_request slave (Z.lor fc 128)
              [defines.SLAVE_DEVICE_FAILURE]) as [r|e];
    [|discriminate].
  cbn [bind] in H. congruence.
Qed.

Lemma last_two_split (body : bytes) lo hi :
  let request := body ++ [lo; hi] in
  skipn (List.length request - 2) request = [lo; hi] /\
  firstn (List.length request - 2) request = body.
Proof.
  cbv zeta. rewrite length_app. cbn [List.length].
  replace (List.length body + 2 - 2)%nat with (List.length body) by lia.
  split.
  - rewrite skipn_app, skipn_all, Nat.sub_diag. reflexivity.
  - rewrite firstn_app, firstn_all, Nat.sub_diag, firstn_O.
    apply app_nil_r.
Qed.

(** X22: a reply of the RTU server.  The server answers only a frame of
    at least 5 bytes whose trailing CRC matches and whose first byte is a
    registered slave.  Every reply it sends is the frame the master's
    builder makes for that slave from a function code and a non-empty
    body -- the function code of the request, or that code with bit 0x80
    set -- so the master's parser accepts it for that slave. *)
Theorem rtu_server_reply_is_framed :
  forall srv request srv' reply,
    RtuServer._process_request srv request = (srv', Ok (Some reply)) ->
    let slave_addr := nth 0 request 0 in
    let function_code := nth 1 request 0 in
    (5 <= List.length request)%nat /\
    (exists body lo hi,
        request = body ++ [lo; hi] /\
        ModbusCRC.verify_crc body (256 * hi + lo) = true) /\
    (exists slave, RtuServer.get_slave srv slave_addr = Some slave) /\
    exists fc' rd,
      (fc' = function_code \/ fc' = Z.lor function_code 0x80) /\
      RtuMaster._build_request slave_addr fc' rd = Ok reply /\
      RtuMaster._parse_response reply slave_addr = Some (fc', rd).
Proof.
  intros srv request srv' reply H. cbv zeta.
  unfold RtuServer._process_request in H. cbv zeta in H.
  destruct (Nat.ltb_spec (List.length request) 5) as [Hshort|Hlen];
    [discriminate|].
  split; [exact Hlen|].
  destruct (split_last_two request ltac:(lia)) as [body [lo [hi Hreq]]].
  destruct (last_two_split body lo hi) as [Hs Hf].
  rewrite <- Hreq in Hs, Hf. rewrite Hs, Hf in H.
  cbn [struct.unpack_H_le] in H.
  destruct (Z.eqb_spec (256 * hi + lo) (ModbusCRC.calculate_crc body))
    as [Hcrc|Hcrc]; cbn [negb] in H; [|discriminate].
  split.
  { exists body, lo, hi. split; [exact Hreq|].
    unfold ModbusCRC.verify_crc. rewrite Hcrc. apply Z.eqb_refl. }
  unfold RtuServer.get_slave.
  destruct (dict.get Z.eqb (RtuServer._slaves srv) (nth 0 request 0))
    as [slave|]; [|discriminate].
  split; [exists slave; reflexivity|].
  unfold RtuServer.answer in H.
  destruct (RtuServer.handle slave (nth 1 request 0)
              (slice request 2 (List.length request - 2)))
    as [slave' [[fc' rdo]|e]] eqn:Hh; cbn [bind] in H.
  - destruct rdo as [[|b rd]|]; try discriminate.
    cbv beta iota zeta in H. rewrite attempt_is_build in H.
    destruct (RtuMaster._build_request (nth 0 request 0) fc' (b :: rd))
      as [r|e] eqn:Hb; cbn [bind] in H.
    + assert (Hreply : r = reply) by congruence. subst r.
      exists fc', (b :: rd).
      split; [exact (handle_code _ _ _ _ _ _ Hh)|].
      split; [exact Hb|].
      apply rtu_built_frame_parses; [cbn [List.length]; lia|exact Hb].
    + apply failure_reply in H.
      exists (Z.lor (nth 1 request 0) 0x80), [defines.SLAVE_DEVICE_FAILURE].
      split; [right; reflexivity|]. split; [exact H|].
      apply rtu_built_frame_parses; [cbn [List.length]; lia|exact H].
  - apply failure_reply in H.
    exists (Z.lor (nth 1 request 0) 0x80), [defines.SLAVE_DEVICE_FAILURE].
    split; [right; reflexivity|]. split; [exact H|].
    apply rtu_built_frame_parses; [cbn [List.length]; lia|exact H].
Qed.

Lemma rtu_server_reply_is_framed_witness :
  exists fc' rd,
    RtuMaster._parse_response [1; 3; 4; 0; 0; 0; 0; 250; 51] 1
      = Some (fc', rd).
Proof.
  destruct (rtu_server_reply_is_framed example_rtu_server
              [1; 3; 0; 0; 0; 2; 196; 11]
              (fst (RtuServer._process_request example_rtu_server
                      [1; 3; 0; 0; 0; 2; 196; 11]))
              [1; 3; 4; 0; 0; 0; 0; 250; 51]
              ltac:(vm_compute; reflexivity))
    as [_ [_ [_ [fc' [rd [_ [_ Hp]]]]]]].
  exists fc', rd. exact Hp.
Defined.

Lemma rtu_server_set_same srv id slave :
  dict.get Z.eqb (RtuServer._slaves srv) id = Some slave ->
  RtuServer.mk (dict.set Z.eqb (RtuServer._slaves srv) id slave) = srv.
Proof.
  intros Hg. rewrite (dict_set_same Z.eqb z_eqb_spec _ _ _ Hg).
  destruct srv. reflexivity.
Qed.

(** A request made by the master's builder passes the server's length
    and CRC checks. *)
Lemma rtu_process_built srv slave fc data request :
  RtuMaster._build_request slave fc data = Ok request ->
  (1 <= List.length data)%nat ->
  RtuServer._process_request srv request =
    match dict.get Z.eqb (RtuServer._slaves srv) slave with
    | None => (srv, Ok None)
    | Some s => RtuServer.answer srv slave fc data s
    end.
Proof.
  intros Hb Hlen.
  destruct (rtu_build_request_bytes slave fc data request Hb) as [-> _].
  set (crc := ModbusCRC.calculate_crc (slave :: fc :: data)).
  unfold RtuServer._process_request. cbv zeta.
  cbn [List.length]. rewrite length_app. cbn [List.length].
  replace (S (S (List.length data + 2)) <? 5)%nat with false
    by (symmetry; apply Nat.ltb_ge; lia).
  cbn [nth].
  replace (S (S (List.length data + 2)) - 2)%nat
    with (S (S (List.length data))) by lia.
  cbn [skipn firstn].
  rewrite skipn_app, skipn_all, Nat.sub_diag. cbn [skipn app].
  rewrite firstn_app, firstn_all, Nat.sub_diag. cbn [firstn].
  rewrite app_nil_r. cbn [struct.unpack_H_le].
  rewrite div_mod_256. fold crc. rewrite Z.eqb_refl. cbn [negb].
  unfold slice. cbn [skipn].
  replace (S (S (List.length data)) - 2)%nat with (List.length data) by lia.
  rewrite firstn_app, firstn_all, Nat.sub_diag. cbn [firstn].
  rewrite app_nil_r. reflexivity.
Qed.

(** X23: what the RTU server does with requests it cannot serve, for a
    request made by the master's builder.  A request for a slave that is
    not registered gets no reply.  For a registered slave: a function
    code outside the eight supported ones is answered with the
    ILLEGAL_FUNCTION exception frame; a write-single-coil value other
    than [0x0000] and [0xFF00], and a body shorter than 4 bytes for the
    function codes 1 to 6, get no reply at all.  None of these changes
    the server. *)
Theorem rtu_server_unserved_requests :
  forall srv slave fc data request,
    RtuMaster._build_request slave fc data = Ok request ->
    (1 <= List.length data)%nat ->
    (RtuServer.get_slave srv slave = None ->
     RtuServer._process_request srv request = (srv, Ok None)) /\
    (forall s,
        RtuServer.get_slave srv slave = Some s ->
        (~ In fc [defines.READ_COILS; defines.READ_DISCRETE_INPUTS;
                  defines.READ_HOLDING_REGISTERS;
                  defines.READ_INPUT_REGISTERS;
                  defines.WRITE_SINGLE_COIL; defines.WRITE_SINGLE_REGISTER;
                  defines.WRITE_MULTIPLE_COILS;
                  defines.WRITE_MULTIPLE_REGISTERS] ->
         exists reply,
           RtuMaster._build_request slave (Z.lor fc 0x80)
             [defines.ILLEGAL_FUNCTION] = Ok reply /\
           RtuServer._process_request srv request
             = (srv, Ok (Some reply))) /\
        (fc = defines.WRITE_SINGLE_COIL ->
         forall a1 a0 v1 v0 rest,
           data = a1 :: a0 :: v1 :: v0 :: rest ->
           256 * v1 + v0 <> 0x0000 -> 256 * v1 + v0 <> 0xFF00 ->
           RtuServer._process_request srv request = (srv, Ok None)) /\
        (In fc [defines.READ_COILS; defines.READ_DISCRETE_INPUTS;
                defines.READ_HOLDING_REGISTERS;
                defines.READ_INPUT_REGISTERS;
                defines.WRITE_SINGLE_COIL; defines.WRITE_SINGLE_REGISTER] ->
         (List.length data < 4)%nat ->
         RtuServer._process_request srv request = (srv, Ok None))).
Proof.
  intros srv slave fc data request Hb Hlen.
  rewrite (rtu_process_built srv slave fc data request Hb Hlen).
  destruct (rtu_build_request_bytes slave fc data request Hb)
    as [_ [Hs [Hf _]]].
  unfold RtuServer.get_slave. split.
  - intros Hg. rewrite Hg. reflexivity.
  - intros s Hg. rewrite Hg. unfold RtuServer.answer.
    split; [|split].
    + intros Hnot.
      assert (Hh : RtuServer.handle s fc data =
                   (s, Ok (Z.lor fc 0x80, Some [defines.ILLEGAL_FUNCTION]))).
      { unfold RtuServer.handle.
        repeat match goal with
               | |- context [if fc =? ?c then _ else _] =>
                   let He := fresh "He" in
                   destruct (Z.eqb_spec fc c) as [He|He];
                     [exfalso; apply Hnot; rewrite He; cbn; tauto|]
               end.
        reflexivity. }
      rewrite Hh. cbn [bind]. cbv beta iota zeta.
      rewrite attempt_is_build.
      pose proof (lor_0x80_byte fc Hf) as Hlor.
      destruct (rtu_build_request_ok slave (Z.lor fc 128)
                  [defines.ILLEGAL_FUNCTION] Hs Hlor)
        as [reply Hreply].
      { apply Forall_cons; [cbv; split; discriminate|apply Forall_nil]. }
      exists reply. split; [exact Hreply|].
      rewrite Hreply. cbn [bind].
      rewrite (rtu_server_set_same srv slave s Hg). reflexivity.
    + intros -> a1 a0 v1 v0 rest -> Hn0 Hn1.
      assert (Hh : RtuServer.handle s defines.WRITE_SINGLE_COIL
                     (a1 :: a0 :: v1 :: v0 :: rest) =
                   (s, Ok (defines.WRITE_SINGLE_COIL, None))).
      { unfold RtuServer.handle.
        change (defines.WRITE_SINGLE_COIL =? defines.READ_COILS) with false.
        change (defines.WRITE_SINGLE_COIL =? defines.READ_DISCRETE_INPUTS)
          with false.
        change (defines.WRITE_SINGLE_COIL =? defines.READ_HOLDING_REGISTERS)
          with false.
        change (defines.WRITE_SINGLE_COIL =? defines.READ_INPUT_REGISTERS)
          with false.
        change (defines.WRITE_SINGLE_COIL =? defines.WRITE_SINGLE_COIL)
          with true.
        cbv iota. cbn [List.length Nat.leb].
        rewrite unpack_HH_slice.
        replace (256 * v1 + v0 =? 0) with false
          by (symmetry; apply Z.eqb_neq; exact Hn0).
        replace (256 * v1 + v0 =? 65280) with false
          by (symmetry; apply Z.eqb_neq; exact Hn1).
        reflexivity. }
      rewrite Hh. cbn [bind]. cbv beta iota zeta.
      rewrite (rtu_server_set_same srv slave s Hg). reflexivity.
    + intros Hin Hshort.
      assert (Hh : RtuServer.handle s fc data = (s, Ok (fc, None))).
      { unfold RtuServer.handle.
        replace (4 <=? List.length data)%nat with false
          by (symmetry; apply Nat.leb_gt; exact Hshort).
        destruct Hin as [H|[H|[H|[H|[H|[H|[]]]]]]]; rewrite <- H;
          reflexivity. }
      rewrite Hh. cbn [bind]. cbv beta iota zeta.
      rewrite (rtu_server_set_same srv slave s Hg). reflexivity.
Qed.

Lemma rtu_server_unserved_requests_witness :
  RtuServer._process_request example_rtu_server [9; 3; 0; 0; 0; 2; 197; 67]
    = (example_rtu_server, Ok None) /\
  RtuServer._process_request example_rtu_server [1; 43; 0; 0; 0; 16; 36]
    = (example_rtu_server, Ok (Some [1; 171; 1; 158; 240])) /\
  RtuServer._process_request example_rtu_server
    [1; 5; 0; 3; 0; 1; 252; 10] = (example_rtu_server, Ok None).
Proof.
  split; [|split].
  - destruct (rtu_server_unserved_requests example_rtu_server 9 3
                [0; 0; 0; 2] [9; 3; 0; 0; 0; 2; 197; 67]
                ltac:(vm_compute; reflexivity) ltac:(cbn; lia))
      as [H _].
    exact (H eq_refl).
  - destruct (rtu_server_unserved_requests example_rtu_server 1 43
                [0; 0; 0] [1; 43; 0; 0; 0; 16; 36]
                ltac:(vm_compute; reflexivity) ltac:(cbn; lia))
      as [_ H].
    destruct (H _ eq_refl) as [Hunknown _].
    destruct Hunknown as [reply [Hreply Hproc]].
    + cbv. intuition discriminate.
    + vm_compute in Hreply. injection Hreply as <-. exact Hproc.
  - destruct (rtu_server_unserved_requests example_rtu_server 1 5
                [0; 3; 0; 1] [1; 5; 0; 3; 0; 1; 252; 10]
                ltac:(vm_compute; reflexivity) ltac:(cbn; lia))
      as [_ H].
    destruct (H _ eq_refl) as [_ [Hcoil _]].
    apply (Hcoil eq_refl 0 3 0 1 [] eq_refl); discriminate.
Defined.

(** ** The RTU master against the RTU server *)

Lemma rtu_loopback_exchange srv slave fc data request reply fc' rd :
  RtuMaster._build_request slave fc data = Ok request ->
  snd (RtuServer._process_request srv request) = Ok (Some reply) ->
  RtuMaster._build_request slave fc' rd = Ok reply ->
  (1 <= List.length rd)%nat ->
  RtuMaster.exchange (rtu_loopback srv) slave fc data = Ok (Some (fc', rd)).
Proof.
  intros Hreq Hproc Hreply Hlen.
  unfold RtuMaster.exchange, RtuMaster._send_receive, rtu_loopback.
  rewrite Hreq. cbn [bind]. rewrite Hproc. cbv beta iota.
  assert (Hfive : (5 <=? List.length reply)%nat = true).
  { destruct (rtu_build_request_bytes slave fc' rd reply Hreply) as [-> _].
    apply Nat.leb_le.
    cbn [List.length]. rewrite length_app. cbn [List.length]. lia. }
  rewrite Hfive.
  rewrite (rtu_built_frame_parses slave fc' rd reply Hlen Hreply).
  reflexivity.
Qed.

Lemma rtu_read_registers_loopback :
  forall srv unit slave address quantity out,
    0 <= unit <= 255 -> 0 <= address <= 65535 -> 0 <= quantity <= 65535 ->
    RtuServer.get_slave srv unit = Some slave -> slave_inv slave ->
    let outcome :=
      RtuMaster.execute (rtu_loopback srv) unit
        defines.READ_HOLDING_REGISTERS address quantity out in
    (quantity <= 127 ->
     exists values,
       Slave._get_values_by_type slave defines.HOLDING_REGISTERS
         address quantity = Ok values /\
       outcome = Ok values) /\
    (128 <= quantity -> outcome = Ok []).
Proof.
  intros srv unit slave address quantity out Hu Ha Hq Hg Hinv.
  cbv zeta. unfold RtuMaster.execute.
  change (defines.READ_HOLDING_REGISTERS =? defines.READ_COILS) with false.
  change (defines.READ_HOLDING_REGISTERS =? defines.READ_HOLDING_REGISTERS)
    with true.
  cbv iota. rewrite pack_HH_ok by lia. cbn [bind].
  set (d := [address / 256; address mod 256;
             quantity / 256; quantity mod 256]).
  assert (Hd : is_bytes d).
  { destruct (pack_H_bytes address Ha) as [H1 H2].
    destruct (pack_H_bytes quantity Hq) as [H3 H4].
    unfold d. repeat (apply Forall_cons; [assumption|]). apply Forall_nil. }
  destruct (rtu_build_request_ok unit defines.READ_HOLDING_REGISTERS d Hu
              ltac:(cbv; split; discriminate) Hd) as [request Hreq].
  pose proof (rtu_process_built srv unit defines.READ_HOLDING_REGISTERS d
                request Hreq ltac:(cbn; lia)) as Hproc.
  unfold RtuServer.get_slave in Hg. rewrite Hg in Hproc.
  unfold RtuServer.answer, RtuServer.handle in Hproc.
  change (defines.READ_HOLDING_REGISTERS =? defines.READ_COILS) with false
    in Hproc.
  change (defines.READ_HOLDING_REGISTERS =? defines.READ_DISCRETE_INPUTS)
    with false in Hproc.
  change (defines.READ_HOLDING_REGISTERS =? defines.READ_HOLDING_REGISTERS)
    with true in Hproc.
  cbv iota in Hproc. unfold d in Hproc at 1 2.
  cbn [List.length Nat.leb] in Hproc.
  rewrite unpack_HH_slice, !div_mod_256 in Hproc. cbn [bind] in Hproc.
  destruct (get_values_by_type_kind slave defines.HOLDING_REGISTERS
              address quantity Hinv ltac:(lia))
    as [values [Hget [Hlen Hkind]]].
  rewrite Hget in Hproc. cbn [bind] in Hproc.
  destruct (u16_values_are_ints values (Hkind eq_refl)) as [Hints Hmap].
  unfold RtuServer.register_response in Hproc.
  unfold RtuMaster.branch.
  split.
  - intros Hle. exists values. split; [exact Hget|].
    rewrite pack_B_ok in Hproc by lia. cbn [bind] in Hproc.
    assert (Hr : Forall (fun z => 0 <= z <= 65535) (map int_of values))
      by (apply Forall_map; exact Hints).
    destruct (pack_registers_bytes _ Hr) as [regs [Hregs [Hl Hb]]].
    rewrite length_map in Hl.
    rewrite Hregs in Hproc. cbn [bind app] in Hproc.
    cbv beta iota zeta in Hproc. rewrite attempt_is_build in Hproc.
    set (bc := Z.of_nat (List.length values) * 2) in *.
    destruct (rtu_build_request_ok unit defines.READ_HOLDING_REGISTERS
                (bc :: regs) Hu ltac:(cbv; split; discriminate))
      as [reply Hreply].
    { apply Forall_cons; [unfold is_byte, bc; lia|exact Hb]. }
    rewrite Hreply in Hproc. cbn [bind] in Hproc.
    apply (f_equal snd) in Hproc. cbn [snd] in Hproc.
    rewrite (rtu_loopback_exchange srv unit _ d request reply
               defines.READ_HOLDING_REGISTERS (bc :: regs)
               Hreq Hproc Hreply ltac:(cbn; lia)).
    cbn [bind].
    change (negb (Z.land defines.READ_HOLDING_REGISTERS 128 =? 0))
      with false.
    cbv iota. unfold RtuMaster.read_registers.
    cbn [List.length Nat.leb nth]. unfold slice. cbn [skipn].
    replace (1 + Z.to_nat bc - 1)%nat with (List.length regs)
      by (unfold bc; lia).
    rewrite firstn_all. unfold unpack_registers, bc.
    rewrite range2_len_even.
    pose proof (unpack_packed_registers (map int_of values) [] regs Hregs)
      as Hunpack.
    rewrite length_map in Hunpack. cbn [List.length app] in Hunpack.
    rewrite Hunpack. cbn [bind].
    rewrite firstn_all2 by (rewrite length_map; lia).
    rewrite Hmap. reflexivity.
  - intros Hge.
    rewrite pack_B_raise in Hproc by lia. cbn [bind] in Hproc.
    rewrite failure_frame_is_build in Hproc.
    destruct (rtu_build_request_ok unit
                (Z.lor defines.READ_HOLDING_REGISTERS 128)
                [defines.SLAVE_DEVICE_FAILURE] Hu
                ltac:(cbv; split; discriminate))
      as [reply Hreply].
    { apply Forall_cons; [cbv; split; discriminate|apply Forall_nil]. }
    rewrite Hreply in Hproc. cbn [bind] in Hproc.
    apply (f_equal snd) in Hproc. cbn [snd] in Hproc.
    rewrite (rtu_loopback_exchange srv unit _ d request reply
               (Z.lor defines.READ_HOLDING_REGISTERS 128)
               [defines.SLAVE_DEVICE_FAILURE]
               Hreq Hproc Hreply ltac:(cbn; lia)).
    reflexivity.
Qed.



(** ** Multiple-coil writes *)

(** The inner loop over the bits of one byte: it appends bits while
    fewer than [quantity] have been collected. *)
Lemma take_bits_byte quantity byte (bits : list nat) :
  forall values,
    fold_left
      (fun values bit =>
         if Z.of_nat (List.length values) <? quantity
         then values ++ [negb (Z.land (Z.shiftr byte (Z.of_nat bit)) 1 =? 0)]
         else values)
      bits values =
    values ++
    firstn (Z.to_nat (quantity - Z.of_nat (List.length values)))
      (map (fun bit => negb (Z.land (Z.shiftr byte (Z.of_nat bit)) 1 =? 0))
         bits).
Proof.
  induction bits as [|bit rest IH]; intros values.
  - cbn [fold_left map]. rewrite firstn_nil, app_nil_r. reflexivity.
  - cbn [fold_left map].
    destruct (Z.ltb_spec (Z.of_nat (List.length values)) quantity) as [Hlt|Hge].
    + rewrite IH, length_app. cbn [List.length].
      replace (Z.to_nat (quantity - Z.of_nat (List.length values)))
        with (S (Z.to_nat (quantity
                           - Z.of_nat (List.length values + 1)))) by lia.
      cbn [firstn]. rewrite <- app_assoc. reflexivity.
    + rewrite IH.
      replace (Z.to_nat (quantity - Z.of_nat (List.length values)))
        with 0%nat by lia.
      reflexivity.
Qed.

Lemma take_bits_from quantity (coil_bytes : bytes) :
  forall values,
    fold_left
      (fun values byte =>
         fold_left
           (fun values bit =>
              if Z.of_nat (List.length values) <? quantity
              then values
                   ++ [negb (Z.land (Z.shiftr byte (Z.of_nat bit)) 1 =? 0)]
              else values)
           (seq 0 8) values)
      coil_bytes values =
    values ++
    firstn (Z.to_nat (quantity - Z.of_nat (List.length values)))
      (unpack_bits coil_bytes).
Proof.
  induction coil_bytes as [|byte rest IH]; intros values.
  - cbn [fold_left]. unfold unpack_bits. cbn [flat_map].
    rewrite firstn_nil, app_nil_r. reflexivity.
  - cbn [fold_left]. rewrite take_bits_byte, IH.
    unfold unpack_bits. cbn [flat_map]. fold (bits_of_byte byte).
    rewrite <- app_assoc. f_equal.
    rewrite firstn_app. f_equal.
    rewrite length_app, length_firstn, bits_of_byte_length.
    f_equal. lia.
Qed.

(** The collecting loop of the multiple-coil write: the first
    [quantity] bits of the payload, least significant bit first, fewer
    when the payload is shorter. *)
Lemma take_bits_firstn quantity coil_bytes :
  TcpServer.take_bits quantity coil_bytes =
    firstn (Z.to_nat quantity) (unpack_bits coil_bytes).
Proof.
  unfold TcpServer.take_bits. rewrite take_bits_from.
  cbn [List.length app]. rewrite Z.sub_0_r. reflexivity.
Qed.




(** X26: the coil payload round trip of a multiple-coil write.  The
    master packs [n] values into [(n + 7) // 8] bytes and sends [n] as
    the quantity; the server's collecting loop applied to that payload
    gives back the truth values of the values sent, in order, without
    the padding bits. *)
Theorem coil_payload_roundtrip :
  forall values : list pyval,
    exists payload,
      pack_bits ((Z.of_nat (List.length values) + 7) / 8) values
        = Ok payload /\
      Z.of_nat (List.length payload)
        = (Z.of_nat (List.length values) + 7) / 8 /\
      TcpServer.take_bits (Z.of_nat (List.length values)) payload
        = map truthy values.
Proof.
  intros values.
  destruct (div8_bounds (Z.of_nat (List.length values)) ltac:(lia))
    as [H0 H1].
  destruct (pack_bits_ok ((Z.of_nat (List.length values) + 7) / 8) values
              H0 H1) as [payload [Hpack [Hlen Hbits]]].
  exists payload. split; [exact Hpack|]. split; [exact Hlen|].
  rewrite take_bits_firstn.
  rewrite (unpack_packed_bits values payload) by (try assumption; lia).
  rewrite Nat2Z.id.
  replace (List.length values) with (List.length (map truthy values)) at 1
    by apply length_map.
  rewrite firstn_app, firstn_all, Nat.sub_diag, firstn_O.
  apply app_nil_r.
Qed.

(** ** A register write from the master to the server *)

(** X27: a write of one holding register by the TCP master to the TCP
    server.  The master sends the value masked to 16 bits, so a value
    outside [0, 0xFFFF] is truncated without any error.  The server's
    reply is the request itself, byte for byte; the master returns the
    address and the masked value, and the slave then holds the masked
    value at the address when a holding-register block covers it (the
    slave is unchanged, and the call still succeeds, when none does). *)
Theorem tcp_write_single_register :
  forall m srv unit slave address quantity v,
    0 <= unit <= 255 -> 0 <= address <= 65535 ->
    TcpServer.get_slave srv unit = Some slave ->
    slave_inv slave -> unique_keys (Slave.blocks slave) ->
    let masked := Z.land (int_of v) 0xFFFF in
    snd (TcpMaster.execute (tcp_loopback srv) m unit
           defines.WRITE_SINGLE_REGISTER address quantity (Scalar v))
      = Ok [VInt address; VInt masked] /\
    exists request slave',
      ModbusTCPFrame.build_request
        (snd (TcpMaster._get_transaction_id m)) unit
        defines.WRITE_SINGLE_REGISTER
        [address / 256; address mod 256; masked / 256; masked mod 256]
        = Ok request /\
      tcp_serve srv request =
        (TcpServer.mk (dict.set Z.eqb (TcpServer._slaves srv) unit slave'),
         Some request) /\
      (Slave._find_block slave defines.HOLDING_REGISTERS address = None ->
       slave' = slave) /\
      (Slave._find_block slave defines.HOLDING_REGISTERS address <> None ->
       Slave._get_values_by_type slave' defines.HOLDING_REGISTERS address 1
         = Ok [VInt masked]).
Proof.
  intros m srv unit slave address quantity v Hu Ha Hg Hinv Huniq masked.
  pose proof (land_ffff_range (int_of v)) as Hm. fold masked in Hm.
  unfold TcpMaster.execute.
  pose proof (next_transaction_id_range m) as Ht.
  destruct (TcpMaster._get_transaction_id m) as [m' tid].
  cbn [snd] in Ht |- *.
  set (d := [address / 256; address mod 256; masked / 256; masked mod 256]).
  destruct (reply_parses tid unit defines.WRITE_SINGLE_REGISTER d Ht Hu)
    as [request [Hreq Hparse]]; [cbv; split; discriminate|cbn; lia|].
  set (frame := ModbusTCPFrame.mk tid 0 (2 + Z.of_nat (List.length d)) unit
                  defines.WRITE_SINGLE_REGISTER d) in *.
  destruct (single_write_by_type slave defines.HOLDING_REGISTERS address
              (VInt masked) Hinv Huniq)
    as [slave' [found [Hset [Hnone Hsome]]]].
  assert (Hh : TcpServer.dispatch frame slave = (slave', Ok request)).
  { change (TcpServer.dispatch frame slave)
      with (TcpServer._handle_write_single_register frame slave).
    unfold TcpServer._handle_write_single_register, frame.
    cbn [ModbusTCPFrame.data]. unfold d.
    cbn [List.length Nat.ltb Nat.leb].
    rewrite unpack_HH_slice, !div_mod_256. rewrite Hset. cbn [bind].
    rewrite pack_HH_ok by lia. cbn [bind].
    cbn [ModbusTCPFrame.transaction_id ModbusTCPFrame.unit_id
           ModbusTCPFrame.function_code].
    pose proof Hreq as Hreq'. unfold d in Hreq'. rewrite Hreq'.
    reflexivity. }
  unfold TcpServer.get_slave in Hg.
  pose proof (process_registered srv request frame slave slave'
                (Ok request) Hparse Hg Hh) as Hproc.
  cbn [frame ModbusTCPFrame.unit_id] in Hproc.
  split.
  - unfold TcpMaster.execute_body.
    change (defines.WRITE_SINGLE_REGISTER =? defines.READ_COILS) with false.
    change (defines.WRITE_SINGLE_REGISTER =? defines.READ_HOLDING_REGISTERS)
      with false.
    change (defines.WRITE_SINGLE_REGISTER =? defines.READ_INPUT_REGISTERS)
      with false.
    change (defines.WRITE_SINGLE_REGISTER =? defines.READ_DISCRETE_INPUTS)
      with false.
    change (defines.WRITE_SINGLE_REGISTER =? defines.WRITE_SINGLE_COIL)
      with false.
    change (defines.WRITE_SINGLE_REGISTER =? defines.WRITE_SINGLE_REGISTER)
      with true.
    cbv iota. cbn [TcpMaster.and_ffff bind]. fold masked.
    rewrite pack_HH_ok by lia. cbn [bind]. fold d.
    rewrite Hreq. cbn [bind].
    rewrite (loopback_transact srv tid unit defines.WRITE_SINGLE_REGISTER d
               request request tid unit defines.WRITE_SINGLE_REGISTER d
               Hreq ltac:(rewrite Hproc; reflexivity) Hreq).
    change (negb (Z.land defines.WRITE_SINGLE_REGISTER 128 =? 0))
      with false.
    cbv iota. cbn [bind]. unfold TcpMaster.echo_pair.
    cbn [ModbusTCPFrame.data]. unfold d.
    cbn [List.length Nat.leb].
    rewrite unpack_HH_slice, !div_mod_256. reflexivity.
  - exists request, slave'. split; [exact Hreq|]. split.
    + unfold tcp_serve.
      pose proof (receive_built_frame _ _ _ _ request [] Hreq) as Hr.
      rewrite app_nil_r in Hr. rewrite Hr, Hproc. reflexivity.
    + split; [exact Hnone|].
      intros Hfound. rewrite (Hsome Hfound).
      unfold Databank.stored.
      change (defines.is_bit_type defines.HOLDING_REGISTERS) with false.
      cbv iota. cbn [int_of]. rewrite land_ffff_small by lia. reflexivity.
Qed.

Lemma tcp_write_single_register_witness :
  snd (TcpMaster.execute (tcp_loopback example_server) TcpMaster.init 1
         defines.WRITE_SINGLE_REGISTER 3 0 (Scalar (VInt 70000)))
    = Ok [VInt 3; VInt 4464].
Proof.
  assert (Hslave : slave_inv
                     (Slave.add_block
                        (Slave.add_block (Slave.init 1) "c" defines.COILS 0 16)
                        "h" defines.HOLDING_REGISTERS 0 200)).
  { unfold slave_inv.
    change (Slave.blocks _)
      with [("c"%string, Databank.init defines.COILS 0 16);
            ("h"%string, Databank.init defines.HOLDING_REGISTERS 0 200)].
    apply Forall_cons; [apply init_block_inv; lia|].
    apply Forall_cons; [apply init_block_inv; lia|]. apply Forall_nil. }
  assert (Huniq : unique_keys
                    (Slave.blocks
                       (Slave.add_block
                          (Slave.add_block (Slave.init 1) "c"
                             defines.COILS 0 16)
                          "h" defines.HOLDING_REGISTERS 0 200))).
  { unfold unique_keys. cbn.
    constructor; [cbn; intros [H|[]]; discriminate|].
    constructor; [tauto|constructor]. }
  exact (proj1 (tcp_write_single_register TcpMaster.init example_server 1 _
                  3 0 (VInt 70000) ltac:(lia) ltac:(lia) eq_refl
                  Hslave Huniq)).
Defined.

(** ** A server out of the box *)

Lemma last_two_exist (request : bytes) :
  (5 <= List.length request)%nat ->
  exists lo hi,
    skipn (List.length request - 2) request = [lo; hi].
Proof.
  intros Hlen.
  destruct (split_last_two request ltac:(lia)) as [body [lo [hi Hreq]]].
  destruct (last_two_split body lo hi) as [Hs _].
  rewrite <- Hreq in Hs. exists lo, hi. exact Hs.
Qed.

(** X28: an RTU server as its constructor leaves it.  With a positive
    default slave id the server holds that one slave, without blocks, and
    a read of holding registers of up to 127 registers from it returns
    zeros for every address; with a default slave id of zero or less the
    server holds no slave and answers no request at all. *)
Theorem fresh_rtu_server :
  forall slave_id,
    (0 < slave_id ->
     (forall q,
         RtuServer.get_slave (RtuServer.init slave_id) q =
           if slave_id =? q then Some (Slave.init slave_id) else None) /\
     (forall address quantity out,
         slave_id <= 255 -> 0 <= address <= 65535 ->
         0 <= quantity <= 127 ->
         RtuMaster.execute (rtu_loopback (RtuServer.init slave_id)) slave_id
           defines.READ_HOLDING_REGISTERS address quantity out
           = Ok (repeat (VInt 0) (Z.to_nat quantity)))) /\
    (slave_id <= 0 ->
     forall request,
       RtuServer._process_request (RtuServer.init slave_id) request
         = (RtuServer.init slave_id, Ok None)).
Proof.
  intros slave_id. split.
  - intros Hpos.
    assert (Hinit : RtuServer.init slave_id =
                    RtuServer.mk [(slave_id, Slave.init slave_id)]).
    { unfold RtuServer.init.
      replace (0 <? slave_id) with true
        by (symmetry; apply Z.ltb_lt; exact Hpos).
      reflexivity. }
    rewrite Hinit.
    assert (Hget : forall q,
               RtuServer.get_slave
                 (RtuServer.mk [(slave_id, Slave.init slave_id)]) q =
               if slave_id =? q then Some (Slave.init slave_id) else None).
    { intros q. unfold RtuServer.get_slave.
      cbn [RtuServer._slaves dict.get]. rewrite Z.eqb_sym.
      destruct (slave_id =? q); reflexivity. }
    split; [exact Hget|].
    intros address quantity out Hid Ha Hq.
    assert (Hg : RtuServer.get_slave
                   (RtuServer.mk [(slave_id, Slave.init slave_id)]) slave_id
                 = Some (Slave.init slave_id))
      by (rewrite Hget, Z.eqb_refl; reflexivity).
    assert (Hinv : slave_inv (Slave.init slave_id)) by apply Forall_nil.
    destruct (rtu_read_registers_loopback _ slave_id _ address quantity out
                ltac:(lia) Ha ltac:(lia) Hg Hinv) as [Hread _].
    destruct (Hread ltac:(lia)) as [values [Hvalues Hout]].
    rewrite Hout. rewrite <- Hvalues. reflexivity.
  - intros Hle request.
    assert (Hinit : RtuServer.init slave_id = RtuServer.mk []).
    { unfold RtuServer.init.
      replace (0 <? slave_id) with false
        by (symmetry; apply Z.ltb_ge; exact Hle).
      reflexivity. }
    rewrite Hinit. unfold RtuServer._process_request. cbv zeta.
    destruct (Nat.ltb_spec (List.length request) 5) as [Hshort|Hlen];
      [reflexivity|].
    destruct (last_two_exist request Hlen) as [lo [hi Hs]].
    rewrite Hs. cbn [struct.unpack_H_le RtuServer._slaves dict.get].
    destruct (negb _); reflexivity.
Qed.

Lemma fresh_rtu_server_witness :
  RtuMaster.execute (rtu_loopback (RtuServer.init 1)) 1
    defines.READ_HOLDING_REGISTERS 40000 3 (Scalar (VInt 0))
    = Ok [VInt 0; VInt 0; VInt 0] /\
  RtuServer._process_request (RtuServer.init 0)
    [0; 3; 0; 0; 0; 2; 197; 218] = (RtuServer.init 0, Ok None).
Proof.
  split.
  - destruct (fresh_rtu_server 1) as [H _].
    destruct (H ltac:(lia)) as [_ Hread].
    exact (Hread 40000 3 (Scalar (VInt 0)) ltac:(lia) ltac:(lia) ltac:(lia)).
  - destruct (fresh_rtu_server 0) as [_ H].
    exact (H ltac:(lia) [0; 3; 0; 0; 0; 2; 197; 218]).
Defined.
